(** * Multi-site database connection manager

    A shallow embedding of [MultiSiteConnectionManager]
    (ghost/core/core/server/data/db/multi-site-connection.js): the two
    handle caches, the stored current site, the derivation of a site's
    database configuration, and the cross-site query that attaches the
    secondary databases to the primary site's libSQL client. *)

From Stdlib Require Import String Ascii List Bool Arith Lia DecimalString.
From Stdlib Require DecimalFacts DecimalNat.
Import ListNotations.
Local Open Scope list_scope.
Local Open Scope string_scope.

(** ** JavaScript values used as site identifiers *)

Module Js.

(** The documented type of a site identifier is [string]; a caller that
    leaves the argument out passes [undefined], and [null] is the initial
    value of [currentSite]. *)
Inductive Value : Type :=
| Undefined
| Null
| Str (s : string).

Definition value_eqb (a b : Value) : bool :=
  match a, b with
  | Undefined, Undefined => true
  | Null, Null => true
  | Str s, Str t => String.eqb s t
  | _, _ => false
  end.

(** [!v] *)
Definition falsy (v : Value) : bool :=
  match v with
  | Undefined => true
  | Null => true
  | Str s => String.eqb s EmptyString
  end.

(** A value inside a template literal. *)
Definition text (v : Value) : string :=
  match v with
  | Undefined => "undefined"
  | Null => "null"
  | Str s => s
  end.

(** A number inside a template literal. *)
Definition decimal (n : nat) : string :=
  NilZero.string_of_uint (Nat.to_uint n).

(** The errors the manager throws, the [TypeError] Node throws for an
    argument of the wrong type, and whatever knex, the libSQL client or a
    driver throws. *)
Inductive Error : Type :=
| IncorrectUsageError (message : string)
| ValidationError (message : string)
| TypeError (message : string)
| DriverError (message : string).

Definition message (e : Error) : string :=
  match e with
  | IncorrectUsageError m => m
  | ValidationError m => m
  | TypeError m => m
  | DriverError m => m
  end.

Definition double_quote : string := String (ascii_of_nat 34) EmptyString.

(** Node's [ERR_INVALID_ARG_TYPE] for a string argument that is
    [undefined]. *)
Definition invalid_arg_type (name : string) : Error :=
  TypeError ("The " ++ double_quote ++ name ++ double_quote
             ++ " argument must be of type string. Received undefined").

End Js.

(** ** Node's [path] module, POSIX flavour

    The manager calls [path.extname], [path.basename], [path.dirname],
    [path.join] and [path.resolve].  They are modelled on lists of
    characters, component by component, after Node's documentation. *)

Module NodePath.

Local Open Scope list_scope.

Definition chars := list ascii.

Definition slash : ascii := "/"%char.
Definition dot : ascii := "."%char.

Definition is_slash (c : ascii) : bool := Ascii.eqb c slash.
Definition is_dot (c : ascii) : bool := Ascii.eqb c dot.

Definition chars_eqb (a b : chars) : bool :=
  String.eqb (string_of_list_ascii a) (string_of_list_ascii b).

(** The components between the separators: ["a//b"] has the components
    ["a"], the empty one and ["b"]. *)
Fixpoint split (p : chars) : list chars :=
  match p with
  | [] => [[]]
  | c :: r =>
      if is_slash c then [] :: split r
      else match split r with
           | h :: t => (c :: h) :: t
           | [] => [[c]]
           end
  end.

Fixpoint join_components (l : list chars) : chars :=
  match l with
  | [] => []
  | [x] => x
  | x :: r => x ++ slash :: join_components r
  end.

Fixpoint drop_slashes (p : chars) : chars :=
  match p with
  | c :: r => if is_slash c then drop_slashes r else p
  | [] => []
  end.

(** The path without its trailing separators. *)
Definition trim_trailing (p : chars) : chars :=
  rev (drop_slashes (rev p)).

(** The characters before the first separator. *)
Fixpoint until_slash (p : chars) : chars :=
  match p with
  | [] => []
  | c :: r => if is_slash c then [] else c :: until_slash r
  end.

(** The last component of a path, trailing separators ignored. *)
Definition last_component (p : chars) : chars :=
  rev (until_slash (drop_slashes (rev p))).

(** The characters before the first dot, when there is one. *)
Fixpoint until_dot (p : chars) : option chars :=
  match p with
  | [] => None
  | c :: r =>
      if is_dot c then Some []
      else match until_dot r with
           | Some s => Some (c :: s)
           | None => None
           end
  end.

(** [extname] of one component: from its last dot to its end; empty when
    there is no dot, when the only dot is the first character, and for
    [".."]. *)
Definition component_ext (comp : chars) : chars :=
  match until_dot (rev comp) with
  | None => []
  | Some after =>
      if Nat.eqb (length after + 1) (length comp) then []
      else if chars_eqb comp [dot; dot] then []
      else dot :: rev after
  end.

Definition extname_chars (p : chars) : chars :=
  component_ext (last_component p).

Definition ends_with (s suffix : chars) : bool :=
  chars_eqb (skipn (length s - length suffix) s) suffix.

(** The separators at the end of a path. *)
Definition trailing_slashes (p : chars) : chars :=
  skipn (length (trim_trailing p)) p.

(** [basename(path, suffix)]: the last component, without the suffix when
    it ends with it and is more than it.  The suffix is ignored when it is
    longer than the path; a component that is itself the end of a longer
    suffix comes back with the path's trailing separators. *)
Definition basename_chars (p suffix : chars) : chars :=
  let comp := last_component p in
  match suffix with
  | [] => comp
  | _ =>
      if Nat.ltb (length p) (length suffix) then comp
      else if chars_eqb p suffix then []
      else if Nat.ltb (length suffix) (length comp) && ends_with comp suffix
      then firstn (length comp - length suffix) comp
      else if Nat.ltb (length comp) (length suffix) && ends_with suffix comp
      then comp ++ trailing_slashes p
      else comp
  end.

(** What is left of the reversed path once the last component and the
    separator before it are gone. *)
Fixpoint after_slash (p : chars) : option chars :=
  match p with
  | [] => None
  | c :: r => if is_slash c then Some r else after_slash r
  end.

(** [dirname]: everything before the separator that precedes the last
    component; ["."] or ["/"] when there is nothing before it. *)
Definition dirname_chars (p : chars) : chars :=
  match p with
  | [] => [dot]
  | first :: rest =>
      let has_root := is_slash first in
      match after_slash (drop_slashes (rev rest)) with
      | None => if has_root then [slash] else [dot]
      | Some before =>
          match before with
          | [] => if has_root then [slash; slash] else [first]
          | _ => first :: rev before
          end
      end
  end.

(** One step of [normalizeString]: empty and ["."] components vanish,
    [".."] removes the component before it, and stays when there is none
    to remove and the path is relative.  The stack holds the components
    kept so far, the last one first. *)
Definition normalize_step (allow_above_root : bool) (stack : list chars)
    (comp : chars) : list chars :=
  if chars_eqb comp [] then stack
  else if chars_eqb comp [dot] then stack
  else if chars_eqb comp [dot; dot] then
    match stack with
    | top :: below =>
        if chars_eqb top [dot; dot] then comp :: stack else below
    | [] => if allow_above_root then [comp] else []
    end
  else comp :: stack.

Definition normalize_components (allow_above_root : bool) (l : list chars)
  : list chars :=
  rev (fold_left (normalize_step allow_above_root) l []).

Definition normalize_string (p : chars) (allow_above_root : bool) : chars :=
  join_components (normalize_components allow_above_root (split p)).

Definition is_absolute (p : chars) : bool :=
  match p with
  | c :: _ => is_slash c
  | [] => false
  end.

Definition has_trailing_slash (p : chars) : bool :=
  match rev p with
  | c :: _ => is_slash c
  | [] => false
  end.

Definition normalize_chars (p : chars) : chars :=
  match p with
  | [] => [dot]
  | _ =>
      let absolute := is_absolute p in
      let trailing := has_trailing_slash p in
      match normalize_string p (negb absolute) with
      | [] =>
          if absolute then [slash]
          else if trailing then [dot; slash] else [dot]
      | q =>
          let q' := if trailing then q ++ [slash] else q in
          if absolute then slash :: q' else q'
      end
  end.

(** [path.join(a, b)] *)
Definition join_chars (a b : chars) : chars :=
  match a, b with
  | [], [] => [dot]
  | [], _ => normalize_chars b
  | _, [] => normalize_chars a
  | _, _ => normalize_chars (a ++ slash :: b)
  end.

(** [path.resolve(p)] in a process whose working directory is [cwd]. *)
Definition resolve_chars (cwd p : chars) : chars :=
  let tail :=
    match p with
    | [] => []
    | _ => p ++ [slash]
    end in
  let resolved :=
    if is_absolute p then tail
    else match cwd with
         | [] => tail
         | _ => cwd ++ slash :: tail
         end in
  let absolute := is_absolute resolved in
  let q := normalize_string resolved (negb absolute) in
  if absolute then slash :: q
  else match q with
       | [] => [dot]
       | _ => q
       end.

(** A path without a separator in it. *)
Definition no_slash (p : chars) : Prop := Forall (fun c => is_slash c = false) p.

(** A component that [normalizeString] keeps as it is. *)
Definition plain_component (n : chars) : Prop :=
  n <> [] /\ no_slash n /\ n <> [dot] /\ n <> [dot; dot].

Definition lift1 (f : chars -> chars) (p : string) : string :=
  string_of_list_ascii (f (list_ascii_of_string p)).

Definition lift2 (f : chars -> chars -> chars) (p q : string) : string :=
  string_of_list_ascii (f (list_ascii_of_string p) (list_ascii_of_string q)).

Definition extname : string -> string := lift1 extname_chars.
Definition basename : string -> string -> string := lift2 basename_chars.
Definition dirname : string -> string := lift1 dirname_chars.
Definition join : string -> string -> string := lift2 join_chars.
Definition resolve : string -> string -> string := lift2 resolve_chars.

End NodePath.

(** ** Database configuration objects *)

(** The [pool] entry of a configuration: what the base configuration
    carries, or one of the two [afterCreate] hooks the manager installs. *)
Inductive Pool : Type :=
| ConfiguredPool (min max : nat)
| AfterCreateBetterSqlite3
| AfterCreateSqlite3.

(** A configuration object with its [connection] object; the entries of
    the connection are there or not. *)
Record DbConfig : Type := {
  client : string;
  filename : option string;         (* connection.filename *)
  database : option string;         (* connection.database *)
  useNullAsDefault : option bool;   (* absent, or an own property *)
  pool : option Pool
}.

(** ** Handles, the outside world and the manager's fields *)

(** A knex instance; [conn_id] is its identity as an object. *)
Record Connection : Type := {
  conn_id : nat;
  conn_config : DbConfig
}.

(** A libSQL client; [client_id] is its identity as an object. *)
Record LibSQLClient : Type := {
  client_id : nat;
  client_url : string
}.

Definition Row : Type := list (string * string).

(** What the manager does to the outside world, in the order it does it. *)
Inductive Event : Type :=
| EvKnex (connection : Connection)
| EvCreateClient (libsql : LibSQLClient)
| EvExecute (libsql : LibSQLClient) (sql : string) (ok : bool)
| EvDestroy (connection : Connection) (ok : bool)
| EvClose (libsql : LibSQLClient) (ok : bool)
| EvInfo (line : string)
| EvError (line : string).

(** The collaborators of the manager: Ghost's configuration, the working
    directory of the process, and the libraries.  A library answers from
    everything that has happened so far: [knex_error] and
    [createClient_error] say what [knex(config)] and [createClient({url})]
    throw, when they throw. *)
Record Host : Type := {
  database_config : DbConfig;       (* config.get('database') *)
  cwd : string;                     (* process.cwd() *)
  knex_error : list Event -> DbConfig -> option Js.Error;
  createClient_error : list Event -> string -> option Js.Error;
  libsql_execute : list Event -> LibSQLClient -> string -> list Row + Js.Error;
  knex_destroy : list Event -> Connection -> option Js.Error;
  libsql_close : list Event -> LibSQLClient -> option Js.Error
}.

(** The three fields of the manager, and the trace of the world. *)
Record State : Type := {
  connections : list (Js.Value * Connection);
  libsqlClients : list (Js.Value * LibSQLClient);
  currentSite : Js.Value;
  trace : list Event
}.

(** [new MultiSiteConnectionManager()] in a world where nothing has
    happened yet. *)
Definition initial : State :=
  {| connections := []; libsqlClients := []; currentSite := Js.Null;
     trace := [] |}.

(** ** JavaScript's [Map], which keeps its entries in insertion order *)

Module JsMap.

Fixpoint get {V : Type} (m : list (Js.Value * V)) (k : Js.Value) : option V :=
  match m with
  | [] => None
  | (k', v) :: r => if Js.value_eqb k' k then Some v else get r k
  end.

Definition has {V : Type} (m : list (Js.Value * V)) (k : Js.Value) : bool :=
  match get m k with
  | Some _ => true
  | None => false
  end.

Fixpoint set {V : Type} (m : list (Js.Value * V)) (k : Js.Value) (v : V)
  : list (Js.Value * V) :=
  match m with
  | [] => [(k, v)]
  | (k', v') :: r =>
      if Js.value_eqb k' k then (k, v) :: r else (k', v') :: set r k v
  end.

End JsMap.

(** ** Methods run on a state and return or throw *)

Inductive Completion (A : Type) : Type :=
| Return (a : A)
| Throw (e : Js.Error).
Arguments Return {A} a.
Arguments Throw {A} e.

Definition Action (A : Type) : Type := State -> Completion A * State.

Definition ret {A : Type} (a : A) : Action A := fun st => (Return a, st).

Definition throw {A : Type} (e : Js.Error) : Action A :=
  fun st => (Throw e, st).

Definition bind {A B : Type} (c : Action A) (k : A -> Action B) : Action B :=
  fun st =>
    match c st with
    | (Return a, st') => k a st'
    | (Throw e, st') => (Throw e, st')
    end.

(** [try { c } catch (error) { handler }] *)
Definition try_catch {A : Type} (c : Action A) (handler : Js.Error -> Action A)
  : Action A :=
  fun st =>
    match c st with
    | (Return a, st') => (Return a, st')
    | (Throw e, st') => handler e st'
    end.

(** Everything that has happened so far, for the drivers to answer from
    and for a new handle to take its identity from. *)
Definition get_trace : Action (list Event) := fun st => (Return (trace st), st).

Declare Scope action_scope.
Delimit Scope action_scope with action.
Notation "x <- c ;; k" := (bind c (fun x => k))
  (at level 61, c at next level, right associativity) : action_scope.
Notation "c ;; k" := (bind c (fun _ => k))
  (at level 61, right associativity) : action_scope.
Local Open Scope action_scope.

Definition emit (e : Event) : Action unit :=
  fun st =>
    (Return tt,
     {| connections := connections st; libsqlClients := libsqlClients st;
        currentSite := currentSite st; trace := (trace st ++ [e])%list |}).

(** [logging.info] and [logging.error] *)
Definition logging_info (line : string) : Action unit := emit (EvInfo line).
Definition logging_error (line : string) : Action unit := emit (EvError line).

(** Node's [validateString(value, name)] *)
Definition validateString (value : option string) (name : string)
  : Action string :=
  match value with
  | Some s => ret s
  | None => throw (Js.invalid_arg_type name)
  end.

(** [path.extname(p)], [path.basename(p, suffix)] and [path.dirname(p)] of
    a value that may be [undefined]. *)
Definition path_extname (p : option string) : Action string :=
  s <- validateString p "path" ;;
  ret (NodePath.extname s).

Definition path_basename (p : option string) (suffix : string) : Action string :=
  s <- validateString p "path" ;;
  ret (NodePath.basename s suffix).

Definition path_dirname (p : option string) : Action string :=
  s <- validateString p "path" ;;
  ret (NodePath.dirname s).

(** [this.connections.get(siteId)], [None] when [has] says no. *)
Definition connections_get (siteId : Js.Value) : Action (option Connection) :=
  fun st => (Return (JsMap.get (connections st) siteId), st).

(** [this.connections.has(siteId)] *)
Definition connections_has (siteId : Js.Value) : Action bool :=
  fun st => (Return (JsMap.has (connections st) siteId), st).

(** [this.libsqlClients.get(siteId)], [None] when [has] says no. *)
Definition libsqlClients_get (siteId : Js.Value) : Action (option LibSQLClient) :=
  fun st => (Return (JsMap.get (libsqlClients st) siteId), st).

(** The entries of [this.connections], in insertion order. *)
Definition connections_entries : Action (list (Js.Value * Connection)) :=
  fun st => (Return (connections st), st).

(** The entries of [this.libsqlClients], in insertion order. *)
Definition libsqlClients_entries : Action (list (Js.Value * LibSQLClient)) :=
  fun st => (Return (libsqlClients st), st).

(** [this.connections.set(siteId, connection)] *)
Definition connections_set (siteId : Js.Value) (connection : Connection)
  : Action unit :=
  fun st =>
    (Return tt,
     {| connections := JsMap.set (connections st) siteId connection;
        libsqlClients := libsqlClients st;
        currentSite := currentSite st; trace := trace st |}).

(** [this.libsqlClients.set(siteId, client)] *)
Definition libsqlClients_set (siteId : Js.Value) (libsql : LibSQLClient)
  : Action unit :=
  fun st =>
    (Return tt,
     {| connections := connections st;
        libsqlClients := JsMap.set (libsqlClients st) siteId libsql;
        currentSite := currentSite st; trace := trace st |}).

(** ** The manager *)

Section Manager.

Variable host : Host.

(** [knex(config)]: throws what the library throws for the configuration,
    or gives a new instance.  knex connects lazily, at the first query. *)
Definition knex (config : DbConfig) : Action Connection :=
  events <- get_trace ;;
  match knex_error host events config with
  | Some e => throw e
  | None =>
      let connection := {| conn_id := length events; conn_config := config |} in
      emit (EvKnex connection) ;;
      ret connection
  end.

(** [createClient({url})]: throws what the library throws for the url, or
    gives a new client. *)
Definition createClient (url : string) : Action LibSQLClient :=
  events <- get_trace ;;
  match createClient_error host events url with
  | Some e => throw e
  | None =>
      let libsql := {| client_id := length events; client_url := url |} in
      emit (EvCreateClient libsql) ;;
      ret libsql
  end.

(** [path.resolve(p)] of a value that may be [undefined]. *)
Definition path_resolve (p : option string) : Action string :=
  s <- validateString p "paths[0]" ;;
  ret (NodePath.resolve (cwd host) s).

(** [await libsqlClient.execute(sql)], giving [result.rows]. *)
Definition execute (libsql : LibSQLClient) (sql : string) : Action (list Row) :=
  events <- get_trace ;;
  match libsql_execute host events libsql sql with
  | inl rows => emit (EvExecute libsql sql true) ;; ret rows
  | inr e => emit (EvExecute libsql sql false) ;; throw e
  end.

(** [await connection.destroy()] *)
Definition connection_destroy (connection : Connection) : Action unit :=
  events <- get_trace ;;
  match knex_destroy host events connection with
  | None => emit (EvDestroy connection true)
  | Some e => emit (EvDestroy connection false) ;; throw e
  end.

(** [client.close()] *)
Definition client_close (libsql : LibSQLClient) : Action unit :=
  events <- get_trace ;;
  match libsql_close host events libsql with
  | None => emit (EvClose libsql true)
  | Some e => emit (EvClose libsql false) ;; throw e
  end.

Definition is_sqlite (c : string) : bool :=
  String.eqb c "sqlite3" || String.eqb c "better-sqlite3".

Definition configureSiteDatabase (siteId : Js.Value) (baseDbConfig : DbConfig)
  : Action DbConfig :=
  let dbConfig := baseDbConfig in   (* _.cloneDeep: the base is left as it is *)
  if is_sqlite (client dbConfig) then
    let originalFilename := filename dbConfig in
    ext <- path_extname originalFilename ;;
    baseName <- path_basename originalFilename ext ;;
    dirName <- path_dirname originalFilename ;;
    let siteFilename :=
      NodePath.join dirName (baseName ++ "-" ++ Js.text siteId ++ ext) in
    logging_info
      ("[MultiSite] Site " ++ Js.text siteId ++ " database: " ++ siteFilename) ;;
    ret {| client := client dbConfig;
           filename := Some siteFilename;
           database := database dbConfig;
           useNullAsDefault :=
             match useNullAsDefault dbConfig with
             | Some v => Some v
             | None => Some true
             end;
           pool :=
             if String.eqb (client dbConfig) "better-sqlite3"
             then Some AfterCreateBetterSqlite3
             else Some AfterCreateSqlite3 |}
  else if String.eqb (client dbConfig) "libsql" then
    let siteFilename := "content/data/ghost-" ++ Js.text siteId ++ ".db" in
    logging_info
      ("[MultiSite] LibSQL Site " ++ Js.text siteId ++ " database: "
       ++ siteFilename) ;;
    ret {| client := client dbConfig;
           filename := Some siteFilename;
           database := Some ("ghost_site_" ++ Js.text siteId);
           useNullAsDefault := useNullAsDefault dbConfig;
           pool := pool dbConfig |}
  else ret dbConfig.

Definition getSiteConnection (siteId : Js.Value) : Action Connection :=
  if Js.falsy siteId then
    throw (Js.IncorrectUsageError
             "Site ID is required for multi-site database connection")
  else
    cached <- connections_get siteId ;;
    match cached with
    | Some connection => ret connection
    | None =>
        let baseDbConfig := database_config host in
        siteDbConfig <- configureSiteDatabase siteId baseDbConfig ;;
        connection <- knex siteDbConfig ;;
        connections_set siteId connection ;;
        logging_info
          ("[MultiSite] Created new database connection for site: "
           ++ Js.text siteId) ;;
        ret connection
    end.

Definition getLibSQLClient (siteId : Js.Value) : Action LibSQLClient :=
  if Js.falsy siteId then
    throw (Js.IncorrectUsageError "Site ID is required for libSQL client")
  else
    cached <- libsqlClients_get siteId ;;
    match cached with
    | Some libsql => ret libsql
    | None =>
        let baseDbConfig := database_config host in
        siteDbConfig <- configureSiteDatabase siteId baseDbConfig ;;
        resolved <- path_resolve (filename siteDbConfig) ;;
        libsql <- createClient ("file:" ++ resolved) ;;
        libsqlClients_set siteId libsql ;;
        logging_info ("[MultiSite] Created libSQL client for site: "
                      ++ Js.text siteId) ;;
        ret libsql
    end.

(** The text of the statement that attaches one secondary database. *)
Definition attachQuery (siteConfig : DbConfig) (index : nat) : Action string :=
  resolved <- path_resolve (filename siteConfig) ;;
  ret ("ATTACH DATABASE '" ++ resolved ++ "' AS site" ++ Js.decimal (index + 2)).

(** [for (const [index, siteId] of additionalSiteIds.entries())], from
    [index] on. *)
Fixpoint attach_additional (libsqlClient : LibSQLClient) (index : nat)
    (additionalSiteIds : list Js.Value) : Action unit :=
  match additionalSiteIds with
  | [] => ret tt
  | siteId :: rest =>
      siteConfig <- configureSiteDatabase siteId (database_config host) ;;
      sql <- attachQuery siteConfig index ;;
      execute libsqlClient sql ;;
      attach_additional libsqlClient (S index) rest
  end.

Definition executeCrossSiteQuery (primarySiteId : Js.Value)
    (additionalSiteIds : list Js.Value) (query : string) : Action (list Row) :=
  libsqlClient <- getLibSQLClient primarySiteId ;;
  try_catch
    (attach_additional libsqlClient 0 additionalSiteIds ;;
     rows <- execute libsqlClient query ;;
     ret rows)
    (fun error =>
       logging_error ("[MultiSite] Cross-site query failed: "
                      ++ Js.message error) ;;
       throw error).

Definition setCurrentSite (siteId : Js.Value) : Action unit :=
  fun st =>
    (Return tt,
     {| connections := connections st; libsqlClients := libsqlClients st;
        currentSite := siteId; trace := trace st |}).

Definition getCurrentSite : Action Js.Value :=
  fun st => (Return (currentSite st), st).

Definition createSite (siteId : Js.Value) : Action Connection :=
  exists_already <- connections_has siteId ;;
  if exists_already then
    throw (Js.ValidationError ("Site " ++ Js.text siteId ++ " already exists"))
  else
    connection <- getSiteConnection siteId ;;
    logging_info ("[MultiSite] Site " ++ Js.text siteId
                  ++ " database created and ready") ;;
    ret connection.

(** [for (const [siteId, connection] of this.connections)] *)
Fixpoint destroy_connections (entries : list (Js.Value * Connection))
  : Action unit :=
  match entries with
  | [] => ret tt
  | (siteId, connection) :: rest =>
      connection_destroy connection ;;
      logging_info ("[MultiSite] Destroyed connection for site: "
                    ++ Js.text siteId) ;;
      destroy_connections rest
  end.

(** [for (const [siteId, client] of this.libsqlClients)] *)
Fixpoint close_clients (entries : list (Js.Value * LibSQLClient))
  : Action unit :=
  match entries with
  | [] => ret tt
  | (siteId, libsql) :: rest =>
      client_close libsql ;;
      logging_info ("[MultiSite] Closed libSQL client for site: "
                    ++ Js.text siteId) ;;
      close_clients rest
  end.

(** [this.connections.clear(); this.libsqlClients.clear()] *)
Definition clear_caches : Action unit :=
  fun st =>
    (Return tt,
     {| connections := []; libsqlClients := [];
        currentSite := currentSite st; trace := trace st |}).

Definition destroy : Action unit :=
  tracked <- connections_entries ;;
  destroy_connections tracked ;;
  clients <- libsqlClients_entries ;;
  close_clients clients ;;
  clear_caches.

End Manager.

(** ** Reading a trace *)

(** What [configureSiteDatabase] gives for a site, and the events it leaves
    behind, read off a run of the method itself. *)
Definition configure_outcome (host : Host) (siteId : Js.Value)
  : Completion DbConfig :=
  fst (configureSiteDatabase siteId (database_config host) initial).

(** The configuration of a site; the base configuration when deriving it
    throws. *)
Definition site_config (host : Host) (siteId : Js.Value) : DbConfig :=
  match configure_outcome host siteId with
  | Return config => config
  | Throw _ => database_config host
  end.

Definition configure_events (host : Host) (siteId : Js.Value) : list Event :=
  trace (snd (configureSiteDatabase siteId (database_config host) initial)).

(** The file name in a site's configuration: the locator of the site. *)
Definition locator (host : Host) (siteId : Js.Value) : option string :=
  filename (site_config host siteId).

(** The file a site's handles open: the locator resolved against the
    working directory. *)
Definition resolved_file (host : Host) (siteId : Js.Value) : option string :=
  match locator host siteId with
  | Some file => Some (NodePath.resolve (cwd host) file)
  | None => None
  end.

(** The statement that attaches a site at a position of the list, or what
    is thrown while it is built, read off a run of the two lines that build
    it. *)
Definition attach_statement (host : Host) (siteId : Js.Value) (index : nat)
  : Completion string :=
  fst (bind (configureSiteDatabase siteId (database_config host))
            (fun siteConfig => attachQuery host siteConfig index) initial).

(** The url of the libSQL client of a site, or what is thrown while it is
    built. *)
Definition client_url_for (host : Host) (siteId : Js.Value) : Completion string :=
  fst (bind (configureSiteDatabase siteId (database_config host))
            (fun siteDbConfig =>
               bind (path_resolve host (filename siteDbConfig))
                    (fun resolved => ret ("file:" ++ resolved))) initial).

(** *** How SQLite reads a statement

    A libSQL client on a [file:] url runs the first statement of the text
    it is given.  Two readings are needed: a statement that may detach a
    database, which is every text whose first keyword is DETACH, in any
    letter case, after white space, comments and semicolons; and a
    statement that is known to attach a file under an alias, which is a
    text of the very shape the manager builds, with a file name without a
    quote and a plain name as alias, followed by nothing but the end of the
    statement. *)

Definition is_blank (c : ascii) : bool :=
  let n := nat_of_ascii c in
  Nat.eqb n 32 || Nat.eqb n 9 || Nat.eqb n 10 || Nat.eqb n 12 || Nat.eqb n 13
  || Nat.eqb n 59.

Inductive Lexing : Type := InCode | InLineComment | InBlockComment.

(** The text from its first character that is not white space, a
    semicolon, or inside a comment. *)
Fixpoint skip_blank (mode : Lexing) (s : string) : string :=
  match s with
  | EmptyString => EmptyString
  | String c r =>
      match mode with
      | InCode =>
          if is_blank c then skip_blank InCode r
          else if Ascii.eqb c "-"%char then
            match r with
            | String d r' =>
                if Ascii.eqb d "-"%char then skip_blank InLineComment r' else s
            | EmptyString => s
            end
          else if Ascii.eqb c "/"%char then
            match r with
            | String d r' =>
                if Ascii.eqb d "*"%char then skip_blank InBlockComment r' else s
            | EmptyString => s
            end
          else s
      | InLineComment =>
          if Nat.eqb (nat_of_ascii c) 10 then skip_blank InCode r
          else skip_blank InLineComment r
      | InBlockComment =>
          if Ascii.eqb c "*"%char then
            match r with
            | String d r' =>
                if Ascii.eqb d "/"%char then skip_blank InCode r'
                else skip_blank InBlockComment r
            | EmptyString => EmptyString
            end
          else skip_blank InBlockComment r
      end
  end.

Definition upper (c : ascii) : ascii :=
  let n := nat_of_ascii c in
  if Nat.leb 97 n && Nat.leb n 122 then ascii_of_nat (n - 32) else c.

(** Whether the text starts with the keyword, in any letter case. *)
Fixpoint keyword_prefix (keyword s : string) : bool :=
  match keyword, s with
  | EmptyString, _ => true
  | String k keyword', String c r =>
      Ascii.eqb k (upper c) && keyword_prefix keyword' r
  | String _ _, EmptyString => false
  end.

(** A statement that may detach a database. *)
Definition may_detach (sql : string) : bool :=
  keyword_prefix "DETACH" (skip_blank InCode sql).

Fixpoint strip_prefix (prefix s : string) : option string :=
  match prefix, s with
  | EmptyString, _ => Some s
  | String a p, String b r => if Ascii.eqb a b then strip_prefix p r else None
  | String _ _, EmptyString => None
  end.

(** The text before the first single quote, and the text after it. *)
Fixpoint split_at_quote (s : string) : option (string * string) :=
  match s with
  | EmptyString => None
  | String c r =>
      if Ascii.eqb c "'"%char then Some (EmptyString, r)
      else match split_at_quote r with
           | Some (before, after) => Some (String c before, after)
           | None => None
           end
  end.

Definition is_digit (c : ascii) : bool :=
  let n := nat_of_ascii c in Nat.leb 48 n && Nat.leb n 57.

Definition is_name_char (c : ascii) : bool :=
  let n := nat_of_ascii c in
  is_digit c || (Nat.leb 65 n && Nat.leb n 90) || (Nat.leb 97 n && Nat.leb n 122)
  || Nat.eqb n 95.

(** The longest plain name the text starts with, and the rest. *)
Fixpoint name_prefix (s : string) : string * string :=
  match s with
  | EmptyString => (EmptyString, EmptyString)
  | String c r =>
      if is_name_char c then
        let (name, rest) := name_prefix r in (String c name, rest)
      else (EmptyString, s)
  end.

Definition is_name (s : string) : bool :=
  match s with
  | EmptyString => false
  | String c _ => negb (is_digit c)
  end.

(** [ATTACH DATABASE '<file>' AS <alias>], with nothing after it but white
    space, comments and semicolons. *)
Definition parse_attach (sql : string) : option (string * string) :=
  match strip_prefix "ATTACH DATABASE '" sql with
  | None => None
  | Some r =>
      match split_at_quote r with
      | None => None
      | Some (file, after) =>
          match strip_prefix " AS " after with
          | None => None
          | Some named =>
              let (alias, rest) := name_prefix named in
              if is_name alias && String.eqb (skip_blank InCode rest) EmptyString
              then Some (file, alias)
              else None
          end
      end
  end.

Definition same_client (a b : LibSQLClient) : bool :=
  Nat.eqb (client_id a) (client_id b).

(** Whether an event attaches the alias on the client. *)
Definition attaches (libsql : LibSQLClient) (alias : string) (e : Event) : bool :=
  match e with
  | EvExecute c sql true =>
      same_client c libsql &&
      match parse_attach sql with
      | Some (_, a) => String.eqb a alias
      | None => false
      end
  | _ => false
  end.

(** Whether an event may end attachments of the client: a statement that
    may detach, or the closing of the client. *)
Definition detaches (libsql : LibSQLClient) (e : Event) : bool :=
  match e with
  | EvExecute c sql true => same_client c libsql && may_detach sql
  | EvClose c true => same_client c libsql
  | _ => false
  end.

Definition attachment_step (libsql : LibSQLClient) (alias : string)
    (attached : bool) (e : Event) : bool :=
  if attaches libsql alias e then true
  else if detaches libsql e then false
  else attached.

(** Whether the alias is known to be attached on the client once the
    events have happened: a statement known to attach it has succeeded, and
    since then the client has not been closed and has run no statement
    that may detach. *)
Definition alias_attached (events : list Event) (libsql : LibSQLClient)
    (alias : string) : bool :=
  fold_left (attachment_step libsql alias) events false.


(** The knex instances made so far. *)
Definition sessions_opened (events : list Event) : list Connection :=
  flat_map (fun e => match e with EvKnex c => [c] | _ => [] end) events.

(** The libSQL clients made so far. *)
Definition clients_created (events : list Event) : list LibSQLClient :=
  flat_map (fun e => match e with EvCreateClient c => [c] | _ => [] end) events.

(** The statements sent to the libSQL clients, in order. *)
Definition statements (events : list Event) : list string :=
  flat_map (fun e => match e with EvExecute _ sql _ => [sql] | _ => [] end)
           events.

(** The events of attaching the secondaries [siteIds], numbered from
    [index], when the driver accepts every ATTACH: they stop at a site
    whose statement cannot be built. *)
Fixpoint attach_events (host : Host) (libsql : LibSQLClient) (index : nat)
    (siteIds : list Js.Value) : list Event :=
  match siteIds with
  | [] => []
  | siteId :: rest =>
      (configure_events host siteId
       ++ match attach_statement host siteId index with
          | Return sql =>
              EvExecute libsql sql true
              :: attach_events host libsql (S index) rest
          | Throw _ => []
          end)%list
  end.

(** The ATTACH statements of the additional sites, numbered from [index],
    up to a site whose statement cannot be built. *)
Fixpoint attach_statements (host : Host) (index : nat)
    (siteIds : list Js.Value) : list string :=
  match siteIds with
  | [] => []
  | siteId :: rest =>
      match attach_statement host siteId index with
      | Return sql => sql :: attach_statements host (S index) rest
      | Throw _ => []
      end
  end.

(** The alias under which the additional site at position [index] is to be
    attached. *)
Definition attach_alias (index : nat) : string :=
  "site" ++ Js.decimal (index + 2).

(** A handle the manager tracks, with the key it is tracked under. *)
Inductive Handle : Type :=
| KnexHandle (siteId : Js.Value) (connection : Connection)
| ClientHandle (siteId : Js.Value) (libsql : LibSQLClient).

Definition knex_handles (entries : list (Js.Value * Connection)) : list Handle :=
  map (fun '(siteId, c) => KnexHandle siteId c) entries.

Definition client_handles (entries : list (Js.Value * LibSQLClient))
  : list Handle :=
  map (fun '(siteId, c) => ClientHandle siteId c) entries.

(** The tracked handles in the order [destroy] visits them. *)
Definition handles (st : State) : list Handle :=
  (knex_handles (connections st) ++ client_handles (libsqlClients st))%list.

Definition close_event (h : Handle) (ok : bool) : Event :=
  match h with
  | KnexHandle _ c => EvDestroy c ok
  | ClientHandle _ c => EvClose c ok
  end.

Definition close_line (h : Handle) : string :=
  match h with
  | KnexHandle siteId _ =>
      "[MultiSite] Destroyed connection for site: " ++ Js.text siteId
  | ClientHandle siteId _ =>
      "[MultiSite] Closed libSQL client for site: " ++ Js.text siteId
  end.

(** What the driver answers when the handle is closed after [events]. *)
Definition close_answer (host : Host) (events : list Event) (h : Handle)
  : option Js.Error :=
  match h with
  | KnexHandle _ c => knex_destroy host events c
  | ClientHandle _ c => libsql_close host events c
  end.

(** The events of closing the handles one after the other, all with
    success. *)
Definition closed_events (hs : list Handle) : list Event :=
  flat_map (fun h => [close_event h true; EvInfo (close_line h)]) hs.

Definition is_error_line (e : Event) : bool :=
  match e with
  | EvError _ => true
  | _ => false
  end.

(** The state once more events have happened. *)
Definition extend (st : State) (events : list Event) : State :=
  {| connections := connections st; libsqlClients := libsqlClients st;
     currentSite := currentSite st; trace := (trace st ++ events)%list |}.

(** A run of a closing loop over the handles [all]: it closes them all, or
    stops at the first one the driver fails to close. *)
Definition closing_run (host : Host) (all : list Handle) (st : State)
    (outcome : Completion unit * State) : Prop :=
  match outcome with
  | (Return _, st') => st' = extend st (closed_events all)
  | (Throw e, st') =>
      exists done h rest,
        all = (done ++ h :: rest)%list
        /\ close_answer host (trace st ++ closed_events done) h = Some e
        /\ st' = extend st (closed_events done ++ [close_event h false])
  end.

(** The state with another stored current site. *)
Definition with_current_site (st : State) (siteId : Js.Value) : State :=
  {| connections := connections st; libsqlClients := libsqlClients st;
     currentSite := siteId; trace := trace st |}.

(** An action whose outcome does not depend on the stored current site,
    and which leaves that field as it found it. *)
Definition ignores_current_site {A : Type} (c : Action A) : Prop :=
  forall st siteId,
    c (with_current_site st siteId)
    = (fst (c st), with_current_site (snd (c st)) siteId).

(** The events that make a handle. *)
Definition makes_handle (e : Event) : bool :=
  match e with
  | EvKnex _ => true
  | EvCreateClient _ => true
  | _ => false
  end.

(** Events among which no handle is made. *)
Definition quiet (events : list Event) : Prop :=
  forallb (fun e => negb (makes_handle e)) events = true.

(** Events that are log lines of [logging.info] only. *)
Definition only_info (events : list Event) : Prop :=
  forallb (fun e => match e with EvInfo _ => true | _ => false end) events
  = true.

Fixpoint has_slash (s : string) : bool :=
  match s with
  | EmptyString => false
  | String c r => NodePath.is_slash c || has_slash r
  end.

Fixpoint has_quote (s : string) : bool :=
  match s with
  | EmptyString => false
  | String c r => Ascii.eqb c "'"%char || has_quote r
  end.

(** ** Users of the manager *)

(** A call on the exported manager. *)
Inductive Call : Type :=
| CallConfigureSiteDatabase (siteId : Js.Value) (baseDbConfig : DbConfig)
| CallGetSiteConnection (siteId : Js.Value)
| CallGetLibSQLClient (siteId : Js.Value)
| CallExecuteCrossSiteQuery (primarySiteId : Js.Value)
    (additionalSiteIds : list Js.Value) (query : string)
| CallSetCurrentSite (siteId : Js.Value)
| CallGetCurrentSite
| CallCreateSite (siteId : Js.Value)
| CallDestroy.

(** The state a call leaves behind, whether it returns or throws. *)
Definition perform (host : Host) (call : Call) (st : State) : State :=
  match call with
  | CallConfigureSiteDatabase siteId base =>
      snd (configureSiteDatabase siteId base st)
  | CallGetSiteConnection siteId => snd (getSiteConnection host siteId st)
  | CallGetLibSQLClient siteId => snd (getLibSQLClient host siteId st)
  | CallExecuteCrossSiteQuery primary additional query =>
      snd (executeCrossSiteQuery host primary additional query st)
  | CallSetCurrentSite siteId => snd (setCurrentSite siteId st)
  | CallGetCurrentSite => snd (getCurrentSite st)
  | CallCreateSite siteId => snd (createSite host siteId st)
  | CallDestroy => snd (destroy host st)
  end.

Definition perform_all (host : Host) (calls : list Call) (st : State) : State :=
  fold_left (fun st call => perform host call st) calls st.

Definition sets_current_site (call : Call) : bool :=
  match call with
  | CallSetCurrentSite _ => true
  | _ => false
  end.

(** Every handle made in the trace carries its place in the trace as its
    identity. *)
Definition stamped (events : list Event) : Prop :=
  forall i e,
    nth_error events i = Some e ->
    match e with
    | EvKnex c => conn_id c = i
    | EvCreateClient c => client_id c = i
    | _ => True
    end.

(** What holds of the caches of a manager that is only used through its
    methods. *)
Record coherent (host : Host) (st : State) : Prop := {
  coherent_stamped : stamped (trace st);
  coherent_connection_keys : NoDup (map fst (connections st));
  coherent_client_keys : NoDup (map fst (libsqlClients st));
  coherent_connection_ids :
    NoDup (map (fun entry => conn_id (snd entry)) (connections st));
  coherent_client_ids :
    NoDup (map (fun entry => client_id (snd entry)) (libsqlClients st));
  coherent_connections :
    forall k c,
      In (k, c) (connections st) ->
      Js.falsy k = false
      /\ configure_outcome host k = Return (conn_config c)
      /\ In (EvKnex c) (trace st);
  coherent_clients :
    forall k c,
      In (k, c) (libsqlClients st) ->
      Js.falsy k = false
      /\ client_url_for host k = Return (client_url c)
      /\ In (EvCreateClient c) (trace st)
}.

(** ** The words of the specification *)



(** Modelled from the spec: "executing [query] directly against [t]'s
    handle" is what the storage driver answers when the query is sent to
    that handle after [events], rows or an error. *)
Definition direct_result (host : Host) (events : list Event)
    (handle : LibSQLClient) (query : string) : Completion (list Row) :=
  match libsql_execute host events handle query with
  | inl rows => Return rows
  | inr e => Throw e
  end.

(** Modelled from the spec: a tenant is registered once a [RegisterTenant]
    for it, here a call of [createSite], has returned, and it stays
    registered; [registered] follows the calls made on a manager from the
    state [st] on. *)
Fixpoint registered (host : Host) (calls : list Call) (st : State)
    (siteId : Js.Value) : bool :=
  match calls with
  | [] => false
  | call :: rest =>
      match call with
      | CallCreateSite created =>
          Js.value_eqb created siteId
          && match fst (createSite host created st) with
             | Return _ => true
             | Throw _ => false
             end
      | _ => false
      end
      || registered host rest (perform host call st) siteId
  end.

(** ** Hosts to run the manager on *)

(** The database configuration of the repository's own test of the
    manager. *)
Definition test_database_config : DbConfig :=
  {| client := "better-sqlite3";
     filename := Some "content/data/ghost-dev.db";
     database := None;
     useNullAsDefault := Some true;
     pool := None |}.

(** A knex that knows its stock clients and throws for any other. *)
Definition knex_clients : list string :=
  ["better-sqlite3"; "cockroachdb"; "mssql"; "mysql"; "mysql2"; "oracledb";
   "pg"; "pgnative"; "postgres"; "postgresql"; "redshift"; "sqlite";
   "sqlite3"].

Definition stock_knex_error (events : list Event) (config : DbConfig)
  : option Js.Error :=
  if existsb (String.eqb (client config)) knex_clients then None
  else Some (Js.DriverError
               ("knex: Unknown configuration option 'client' value "
                ++ client config
                ++ ". Note that it is case-sensitive, check documentation for supported values.")).

Fixpoint has_question_mark (s : string) : bool :=
  match s with
  | EmptyString => false
  | String c r => Ascii.eqb c "?"%char || has_question_mark r
  end.

(** A libSQL client library that takes what follows a question mark in the
    url for parameters it does not know. *)
Definition stock_createClient_error (events : list Event) (url : string)
  : option Js.Error :=
  if has_question_mark url
  then Some (Js.DriverError "URL_PARAM_NOT_SUPPORTED")
  else None.

(** A driver that behaves like SQLite on ATTACH: an alias already in use on
    the client is refused, and so is a file listed as [unreachable]; every
    other statement gives one row that repeats it.  Closing never fails,
    destroying fails for the connections listed in [stuck]. *)
Definition sqlite_execute (unreachable : list string) (events : list Event)
    (libsql : LibSQLClient) (sql : string) : list Row + Js.Error :=
  match parse_attach sql with
  | Some (file, alias) =>
      if alias_attached events libsql alias then
        inr (Js.DriverError ("database " ++ alias ++ " is already in use"))
      else if existsb (String.eqb file) unreachable then
        inr (Js.DriverError "unable to open database file")
      else inl []
  | None => inl [[("statement", sql)]]
  end.

Definition sqlite_host (unreachable : list string) (stuck : list nat) : Host :=
  {| database_config := test_database_config;
     cwd := "/var/lib/ghost";
     knex_error := stock_knex_error;
     createClient_error := stock_createClient_error;
     libsql_execute := sqlite_execute unreachable;
     knex_destroy := fun _ c =>
       if existsb (Nat.eqb (conn_id c)) stuck
       then Some (Js.DriverError "aborted") else None;
     libsql_close := fun _ _ => None |}.

(** Ghost's stock production configuration, MySQL, which names a server
    and a database and no file. *)
Definition mysql_host : Host :=
  {| database_config :=
       {| client := "mysql"; filename := None; database := Some "ghost";
          useNullAsDefault := None; pool := None |};
     cwd := "/var/lib/ghost";
     knex_error := stock_knex_error;
     createClient_error := stock_createClient_error;
     libsql_execute := sqlite_execute [];
     knex_destroy := fun _ _ => None;
     libsql_close := fun _ _ => None |}.

(** The same libraries over a libSQL configuration. *)
Definition libsql_host : Host :=
  {| database_config :=
       {| client := "libsql"; filename := Some "content/data/ghost.db";
          database := None; useNullAsDefault := None; pool := None |};
     cwd := "/var/lib/ghost";
     knex_error := stock_knex_error;
     createClient_error := stock_createClient_error;
     libsql_execute := sqlite_execute [];
     knex_destroy := fun _ _ => None;
     libsql_close := fun _ _ => None |}.

(** The libSQL client the manager makes first for site [creator1] on
    [sqlite_host]. *)
Definition creator1_client : LibSQLClient :=
  {| client_id := 1;
     client_url := "file:/var/lib/ghost/content/data/ghost-dev-creator1.db" |}.

(** The database file of site [creator3] on [sqlite_host]. *)
Definition creator3_file : string :=
  "/var/lib/ghost/content/data/ghost-dev-creator3.db".

(** A host on which the first connection made cannot be destroyed, and the
    state once the sites [creator1] and [creator2] have been created and a
    libSQL client made for [creator1]. *)
Definition stuck_host : Host := sqlite_host [] [1].

Definition three_handles : State :=
  snd (getLibSQLClient stuck_host (Js.Str "creator1")
         (snd (createSite stuck_host (Js.Str "creator2")
                 (snd (createSite stuck_host (Js.Str "creator1") initial))))).

(** A host on which the second connection made cannot be destroyed. *)
Definition stuck_second_host : Host := sqlite_host [] [5].

(** The connection of [creator1] in [three_handles]. *)
Definition creator1_connection : Connection :=
  {| conn_id := 1;
     conn_config :=
       {| client := "better-sqlite3";
          filename := Some "content/data/ghost-dev-creator1.db";
          database := None;
          useNullAsDefault := Some true;
          pool := Some AfterCreateBetterSqlite3 |} |}.

(** A site id that climbs out of its own file name. *)
Definition climbing_id : string := "x/../../data/ghost-dev-creator2".


(** The state once the client of [creator1] has been made on
    [sqlite_host]. *)
Definition creator1_ready : State :=
  snd (getLibSQLClient (sqlite_host [] []) (Js.Str "creator1") initial).

(** A host on which the database of [creator3] cannot be opened, the state
    once the client of [creator1] is there, and the state once [creator2]
    has been attached to it. *)
Definition abort_host : Host := sqlite_host [creator3_file] [].

Definition abort_st0 : State :=
  snd (getLibSQLClient abort_host (Js.Str "creator1") initial).

Definition abort_st1 : State :=
  snd (attach_additional abort_host creator1_client 0 [Js.Str "creator2"]
         abort_st0).

(** ** The database class of the implementation notes

    [MultiSiteDatabase], the database abstraction layer sketched for
    [core/server/data/db/connection.js]: one knex instance per object,
    SQLite in development and PostgreSQL otherwise. *)

Module SiteDatabase.

(** The variables of [process.env] the class reads, [None] when unset. *)
Record Environment : Type := {
  NODE_ENV : option string;
  DB_HOST : option string;
  DB_USER : option string;
  DB_PASSWORD : option string
}.

(** The [connection] entry given to knex. *)
Inductive ConnectionSettings : Type :=
| SqliteFile (filename : string)
| PgServer (host : option string) (database : string)
    (user password : option string).

Record KnexConfig : Type := {
  knex_client : string;
  knex_connection : ConnectionSettings
}.

(** A knex instance; [instance_id] is its identity as an object.  The
    state of the model is the list of the instances made so far. *)
Record Instance : Type := {
  instance_id : nat;
  instance_config : KnexConfig
}.

Definition Make (A : Type) : Type := list Instance -> A * list Instance.

(** [knex(config)] *)
Definition knex (config : KnexConfig) : Make Instance :=
  fun made =>
    let instance := {| instance_id := length made; instance_config := config |} in
    (instance, (made ++ [instance])%list).

Section Class.

Variable env : Environment.

Definition getSQLiteConnection (siteId : Js.Value) : Make Instance :=
  knex {| knex_client := "better-sqlite3";
          knex_connection :=
            SqliteFile ("content/data/" ++ Js.text siteId ++ "-ghost.db") |}.

Definition getPostgreSQLConnection (siteId : Js.Value) : Make Instance :=
  knex {| knex_client := "pg";
          knex_connection :=
            PgServer (DB_HOST env) ("ghost_site_" ++ Js.text siteId)
              (DB_USER env) (DB_PASSWORD env) |}.

Definition is_development : bool :=
  match NODE_ENV env with
  | Some v => String.eqb v "development"
  | None => false
  end.

Definition getConnection (siteId : Js.Value) : Make Instance :=
  if is_development then getSQLiteConnection siteId
  else getPostgreSQLConnection siteId.

(** The object [new MultiSiteDatabase(siteId)] makes. *)
Record MultiSiteDatabase : Type := {
  siteId : Js.Value;
  connection : Instance
}.

Definition constructor (id : Js.Value) : Make MultiSiteDatabase :=
  fun made =>
    let (instance, made') := getConnection id made in
    ({| siteId := id; connection := instance |}, made').

End Class.

End SiteDatabase.

(** ** The start script of the container

    [wait_for_service] of [docker/start-multisite.sh]: poll a port with
    curl until it answers, thirty times at most, two seconds apart. *)

Module StartScript.

Inductive Step : Type :=
| Echo (line : string)
| Curl (url : string) (answered : bool)
| Sleep (seconds : nat).

Definition max_attempts : nat := 30.

(** The [while [ $attempt -le $max_attempts ]] loop with [remaining] turns
    to go; [curl] says whether the attempt of each number is answered. *)
Fixpoint wait_loop (curl : nat -> bool) (service port : string)
    (remaining attempt : nat) : list Step * nat :=
  match remaining with
  | 0 =>
      ([Echo ("❌ " ++ service ++ " failed to start within timeout")], 1)
  | S remaining' =>
      if curl attempt then
        ([Curl ("http://localhost:" ++ port) true;
          Echo ("✅ " ++ service ++ " is ready!")], 0)
      else
        let (steps, status) :=
          wait_loop curl service port remaining' (S attempt) in
        (Curl ("http://localhost:" ++ port) false
         :: Echo ("Attempt " ++ Js.decimal attempt ++ "/"
                  ++ Js.decimal max_attempts ++ ": " ++ service
                  ++ " not ready yet...")
         :: Sleep 2 :: steps,
         status)
  end.

(** The steps taken and the status returned. *)
Definition wait_for_service (curl : nat -> bool) (service port : string)
  : list Step * nat :=
  let (steps, status) := wait_loop curl service port max_attempts 1 in
  (Echo ("Waiting for " ++ service ++ " on port " ++ port ++ "...") :: steps,
   status).

Definition attempts (steps : list Step) : nat :=
  length (filter (fun s => match s with Curl _ _ => true | _ => false end) steps).

Fixpoint seconds_slept (steps : list Step) : nat :=
  match steps with
  | [] => 0
  | Sleep n :: rest => n + seconds_slept rest
  | _ :: rest => seconds_slept rest
  end.

End StartScript.

(** ** The setup script

    [.github/scripts/setup.js]: [runAndStream] and the script body, run in
    an environment that says what the child processes, the prompts and the
    file system answer. *)

Module Setup.

Definition double_quote : string := String (ascii_of_nat 34) EmptyString.
Definition newline : string := String (ascii_of_nat 10) EmptyString.

(** [chalk] colours, and the two consoles. *)
Inductive Color : Type := Yellow | Blue | Green | Red.
Inductive Console : Type := Log | Error.

(** A value under a key of [config.local.json]: what the file had, or the
    [database] entry the script puts there, client [mysql] with
    [docker: true] and the connection of the Docker container. *)
Inductive ConfigValue : Type :=
| Existing (json : string)
| MysqlDocker.

(** What is written to a file: the SQLite development configuration
    (client [sqlite3], file [content/data/ghost-dev.db], server port 2368 on
    127.0.0.1), or the entries of the local configuration. *)
Inductive FileContent : Type :=
| SqliteDevelopment
| LocalConfig (entries : list (string * ConfigValue)).

(** What is printed after the text of a line. *)
Inductive Payload : Type :=
| NoPayload
| ErrorObject (message : string)
| ConfigJson (content : FileContent).

(** The options a caller gives to [runAndStream], each one there or not,
    and the options [spawn] gets. *)
Record Options : Type := {
  options_stdio : option string;
  options_cwd : option string
}.

Record SpawnOptions : Type := {
  stdio : string;
  cwd : option string
}.

(** [{stdio: 'inherit', ...options}] *)
Definition spread (options : Options) : SpawnOptions :=
  {| stdio := match options_stdio options with
              | Some s => s
              | None => "inherit"
              end;
     cwd := options_cwd options |}.

(** How [spawn] fails to start a child.  For the errors of the operating
    system that Node takes for errors of the run (the command is not found
    or may not be executed, no process or file descriptor is left) [spawn]
    returns a child that emits ['error']; any other error [spawn] throws
    itself. *)
Inductive SpawnFailure : Type :=
| ErrorEvent (message : string)
| SpawnThrows (message : string).

(** [Spawn] is a child that was started and has closed with a code, or
    with [null] when a signal ended it; [NoSpawn] is a call of [spawn] that
    started no child. *)
Inductive Event : Type :=
| Print (console : Console) (color : Color) (text : string) (payload : Payload)
| Spawn (command : string) (args : list string) (options : SpawnOptions)
    (code : option nat)
| NoSpawn (command : string) (args : list string) (options : SpawnOptions)
    (failure : SpawnFailure)
| Asked (name : string)
| WriteFile (path : string) (content : FileContent) (ok : bool)
| Mkdir (path : string) (ok : bool)
| ArgvPush (arg : string).

(** The answer to a prompt. *)
Inductive Answer (A : Type) : Type :=
| Answered (a : A)
| PromptError (message : string).
Arguments Answered {A} a.
Arguments PromptError {A} message.

Record Env : Type := {
  NODE_ENV : option string;                  (* process.env.NODE_ENV *)
  DEVCONTAINER : option string;              (* process.env.DEVCONTAINER *)
  dirname : string;                          (* __dirname *)
  argv : list string;                        (* process.argv *)
  database_client : option string;           (* config.get('database:client') *)
  database_docker : bool;                    (* config.get('database:docker') *)
  local_config : option (list (string * ConfigValue));
                                             (* require(config.local.json) *)
  spawn_failure : list Event -> string -> list string -> option SpawnFailure;
                                             (* of spawn(command, args) *)
  exit_code : list Event -> string -> list string -> option nat;
                                             (* of the child's close event *)
  chosen_database : list Event -> Answer string;
  confirmed : list Event -> Answer bool;
  write_error : list Event -> string -> option string;   (* fs.writeFile *)
  mkdir_error : list Event -> string -> option string    (* fs.mkdir *)
}.

(** How the script ends: its promise resolves, the process exits through
    [process.exit], the promise rejects, or an error is thrown outside the
    promise and, nothing catching it, Node ends the process. *)
Inductive Outcome : Type :=
| Resolved
| Exited (code : nat)
| Rejected (message : string)
| Crashed (message : string).

Inductive Result (A : Type) : Type :=
| Next (a : A)
| Thrown (message : string)
| Stopped (outcome : Outcome).
Arguments Next {A} a.
Arguments Thrown {A} message.
Arguments Stopped {A} outcome.

(** A piece of the script: from what has happened so far to its result and
    what it adds. *)
Definition Script (A : Type) : Type := list Event -> Result A * list Event.

Definition ret {A : Type} (a : A) : Script A := fun _ => (Next a, []).

Definition bind {A B : Type} (c : Script A) (k : A -> Script B) : Script B :=
  fun history =>
    match c history with
    | (Next a, added) =>
        let (r, more) := k a (history ++ added)%list in (r, (added ++ more)%list)
    | (Thrown m, added) => (Thrown m, added)
    | (Stopped o, added) => (Stopped o, added)
    end.

(** [try { c } catch (err) { handler }] *)
Definition try_catch {A : Type} (c : Script A) (handler : string -> Script A)
  : Script A :=
  fun history =>
    match c history with
    | (Thrown m, added) =>
        let (r, more) := handler m (history ++ added)%list in
        (r, (added ++ more)%list)
    | other => other
    end.

Declare Scope script_scope.
Delimit Scope script_scope with script.
Notation "x <- c ;; k" := (bind c (fun x => k))
  (at level 61, c at next level, right associativity) : script_scope.
Notation "c ;; k" := (bind c (fun _ => k))
  (at level 61, right associativity) : script_scope.
Local Open Scope script_scope.

Definition emit (e : Event) : Script unit := fun _ => (Next tt, [e]).

(** [return] from the script body, and [process.exit(code)]. *)
Definition return_ {A : Type} : Script A := fun _ => (Stopped Resolved, []).
Definition process_exit {A : Type} (code : nat) : Script A :=
  fun _ => (Stopped (Exited code), []).

Definition print (console : Console) (color : Color) (text : string) : Script unit :=
  emit (Print console color text NoPayload).

Definition code_text (code : option nat) : string :=
  match code with
  | Some n => Js.decimal n
  | None => "null"
  end.

(** [haystack.includes(needle)] on strings. *)
Fixpoint includes (needle haystack : string) : bool :=
  String.prefix needle haystack
  || match haystack with
     | EmptyString => false
     | String _ rest => includes needle rest
     end.

Section Body.

Variable env : Env.

(** [process.argv.includes(arg)] *)
Definition argv_includes (arg : string) : bool :=
  existsb (String.eqb arg) (argv env).

(** Resolves with the code when the child closes with code 0 and rejects
    when it closes otherwise; a child that was started is taken to close.
    An error [spawn] throws is thrown inside the promise's executor, and the
    promise rejects with it.  The child has a listener for ['close'] only:
    an ['error'] it emits is thrown from the event loop, where nothing of
    the script catches it, while the promise stays pending. *)
Definition runAndStream (command : string) (args : list string)
    (options : Options) : Script nat :=
  fun history =>
    match spawn_failure env history command args with
    | Some (SpawnThrows m) =>
        (Thrown m, [NoSpawn command args (spread options) (SpawnThrows m)])
    | Some (ErrorEvent m) =>
        (Stopped (Crashed m),
         [NoSpawn command args (spread options) (ErrorEvent m)])
    | None =>
        let code := exit_code env history command args in
        match code with
        | Some 0 => (Next 0, [Spawn command args (spread options) code])
        | _ =>
            (Thrown ("'" ++ command ++ " " ++ String.concat " " args
                     ++ "' exited with code " ++ code_text code),
             [Spawn command args (spread options) code])
        end
    end.

(** [await fs.writeFile(path, JSON.stringify(content, null, 4))] *)
Definition writeFile (path : string) (content : FileContent) : Script unit :=
  fun history =>
    match write_error env history path with
    | None => (Next tt, [WriteFile path content true])
    | Some m => (Thrown m, [WriteFile path content false])
    end.

(** [await fs.mkdir(path, {recursive: true})] *)
Definition mkdir (path : string) : Script unit :=
  fun history =>
    match mkdir_error env history path with
    | None => (Next tt, [Mkdir path true])
    | Some m => (Thrown m, [Mkdir path false])
    end.

(** [await inquirer.prompt(...)] for the database, giving
    [response.database]. *)
Definition prompt_database : Script string :=
  fun history =>
    match chosen_database env history with
    | Answered choice => (Next choice, [Asked "database"])
    | PromptError m => (Thrown m, [Asked "database"])
    end.

(** [await inquirer.prompt(...)] for the reset, giving [confirmed]. *)
Definition prompt_confirmed : Script bool :=
  fun history =>
    match confirmed env history with
    | Answered yes => (Next yes, [Asked "confirmed"])
    | PromptError m => (Thrown m, [Asked "confirmed"])
    end.

Definition coreFolder : string := NodePath.join (dirname env) "../../ghost/core".
Definition rootFolder : string := NodePath.join (dirname env) "../..".

(** [path.join(__dirname, '../../')], where the yarn scripts are run. *)
Definition repoFolder : string := NodePath.join (dirname env) "../../".

(** [{cwd: folder}] *)
Definition in_folder (folder : string) : Options :=
  {| options_stdio := None; options_cwd := Some folder |}.

(** [currentConfig.database = value] *)
Fixpoint set_database (entries : list (string * ConfigValue))
    (value : ConfigValue) : list (string * ConfigValue) :=
  match entries with
  | [] => [("database", value)]
  | (k, v) :: rest =>
      if String.eqb k "database" then (k, value) :: rest
      else (k, v) :: set_database rest value
  end.

(** [currentConfig[key]] *)
Fixpoint property (entries : list (string * ConfigValue)) (key : string)
  : option ConfigValue :=
  match entries with
  | [] => None
  | (k, v) :: rest => if String.eqb k key then Some v else property rest key
  end.

(** [!dbClient || !dbClient.includes('mysql') && !dbClient.includes('sqlite')] *)
Definition no_database_configured : bool :=
  match database_client env with
  | None => true
  | Some dbClient =>
      String.eqb dbClient EmptyString
      || (negb (includes "mysql" dbClient) && negb (includes "sqlite" dbClient))
  end.

(** The SQLite branch: write the development configuration and make the
    data directory. *)
Definition setup_sqlite : Script unit :=
  print Log Blue "Setting up SQLite database..." ;;
  let configPath := NodePath.join coreFolder "config.development.json" in
  try_catch
    (writeFile configPath SqliteDevelopment ;;
     print Log Green "SQLite configuration written to config.development.json" ;;
     let dataDir := NodePath.join coreFolder "content/data" in
     mkdir dataDir)
    (fun err =>
       emit (Print Error Red "Failed to create SQLite configuration"
               (ErrorObject err)) ;;
       process_exit 1).

(** [config.local.json] as the script found it, or [{}], with the
    [database] entry of the Docker container. *)
Definition credentials : list (string * ConfigValue) :=
  set_database
    (match local_config env with
     | Some entries => entries
     | None => []
     end) MysqlDocker.

(** The MySQL branch: reset the Docker container and put the credentials
    in [config.local.json]; gives [resetData]. *)
Definition setup_mysql : Script bool :=
  print Log Blue "Setting up MySQL via Docker..." ;;
  mysqlSetup <-
    try_catch
      (runAndStream "yarn" ["docker:reset"] (in_folder repoFolder) ;;
       ret true)
      (fun err =>
         emit (Print Error Red "Failed to run MySQL Docker container"
                 (ErrorObject err)) ;;
         print Error Red "Hint: is Docker installed and running?" ;;
         print Log Yellow "Falling back to SQLite..." ;;
         emit (ArgvPush "--sqlite") ;;
         return_) ;;
  if mysqlSetup then
    print Log Blue "Adding MySQL credentials to config.local.json" ;;
    let currentConfigPath := NodePath.join coreFolder "config.local.json" in
    let currentConfig := credentials in
    try_catch
      (writeFile currentConfigPath (LocalConfig currentConfig))
      (fun err =>
         emit (Print Error Red "Failed to write config.local.json"
                 (ErrorObject err)) ;;
         emit (Print Log Yellow
                 ("Please add the following to config.local.json:" ++ newline)
                 (ConfigJson (LocalConfig currentConfig))) ;;
         process_exit 1) ;;
    ret true
  else ret false.

(** The part of the body before the migrations; gives [resetData]. *)
Definition setup_database : Script bool :=
  if no_database_configured then
    print Log Blue "No database configured. Setting up development database..." ;;
    dockerAvailable <-
      try_catch
        (runAndStream "docker" ["--version"]
           {| options_stdio := Some "ignore"; options_cwd := None |} ;;
         ret true)
        (fun _ =>
           print Log Yellow "Docker not found - will use SQLite" ;;
           ret false) ;;
    dbChoice <-
      (if dockerAvailable && negb (argv_includes "--sqlite") then
         try_catch prompt_database
           (fun _ =>
              print Log Yellow "Interactive mode unavailable, using SQLite" ;;
              ret "sqlite")
       else ret "sqlite") ;;
    if String.eqb dbChoice "sqlite" then setup_sqlite ;; ret false
    else setup_mysql
  else if database_docker env then
    confirmed <-
      (if argv_includes "-y" then ret true
       else if argv_includes "-n" then ret false
       else prompt_confirmed) ;;
    if confirmed then
      print Log Yellow "Resetting Docker container" ;;
      try_catch
        (runAndStream "yarn" ["docker:reset"] (in_folder repoFolder) ;;
         ret true)
        (fun err =>
           emit (Print Error Red "Failed to run MySQL Docker container"
                   (ErrorObject err)) ;;
           print Error Red "Hint: is Docker installed and running?" ;;
           ret false)
    else ret false
  else
    print Log Green
      ("MySQL already configured locally. Stop your local database and delete your "
       ++ double_quote ++ "database" ++ double_quote
       ++ " configuration in config.local.json to switch to Docker.") ;;
    ret false.

(** The part of the body from the migrations on. *)
Definition migrate_build_seed (resetData : bool) : Script unit :=
  print Log Blue "Running knex-migrator init" ;;
  runAndStream "yarn" ["knex-migrator"; "init"] (in_folder coreFolder) ;;
  print Log Blue "Building admin interface and apps..." ;;
  runAndStream "yarn" ["build"] (in_folder repoFolder) ;;
  if argv_includes "--no-seed" then
    print Log Yellow "Skipping seed data" ;;
    print Log Yellow "Done" ;;
    return_
  else if resetData then
    if argv_includes "--xxl" then
      print Log Blue "Resetting all data (with xxl)" ;;
      runAndStream "yarn" ["reset:data:xxl"] (in_folder rootFolder) ;;
      ret tt
    else
      print Log Blue "Resetting all data" ;;
      runAndStream "yarn" ["reset:data"] (in_folder rootFolder) ;;
      ret tt
  else ret tt.

Definition is_value (variable : option string) (value : string) : bool :=
  match variable with
  | Some v => String.eqb v value
  | None => false
  end.

(** The body of the script. *)
Definition body : Script unit :=
  if negb (is_value (NODE_ENV env) "development") then
    print Log Yellow "NODE_ENV is not development, skipping setup" ;;
    return_
  else if is_value (DEVCONTAINER env) "true" then
    print Log Yellow "Devcontainer detected, skipping setup" ;;
    return_
  else
    resetData <- setup_database ;;
    migrate_build_seed resetData.

(** A run of the script from the start: how it ends and what it did. *)
Definition run : Outcome * list Event :=
  match body [] with
  | (Next _, events) => (Resolved, events)
  | (Thrown m, events) => (Rejected m, events)
  | (Stopped o, events) => (o, events)
  end.

End Body.

(** ** Reading what a run did *)

(** [spawn] was called with this command line. *)
Definition is_spawn (command : string) (args : list string) (e : Event) : bool :=
  match e with
  | Spawn c a _ _ | NoSpawn c a _ _ =>
      String.eqb c command
      && Nat.eqb (length a) (length args)
      && forallb (fun p => String.eqb (fst p) (snd p)) (combine a args)
  | _ => false
  end.

(** A call of [spawn] whose child emitted ['error']. *)
Definition is_error_event (e : Event) : bool :=
  match e with
  | NoSpawn _ _ _ (ErrorEvent _) => true
  | _ => false
  end.

Definition succeeded (e : Event) : bool :=
  match e with
  | Spawn _ _ _ (Some 0) => true
  | _ => false
  end.

(** The script called [spawn] with this command line. *)
Definition started (command : string) (args : list string)
    (events : list Event) : bool :=
  existsb (is_spawn command args) events.

(** A child process of this command line closed with code 0. *)
Definition completed (command : string) (args : list string)
    (events : list Event) : bool :=
  existsb (fun e => is_spawn command args e && succeeded e) events.

(** A child process of this command line could not be started and emitted
    ['error']. *)
Definition unspawnable (command : string) (args : list string)
    (events : list Event) : bool :=
  existsb (fun e => is_spawn command args e && is_error_event e) events.

(** Every event of the second kind comes after an event of the first. *)
Fixpoint preceded (first second : Event -> bool) (seen : bool)
    (events : list Event) : bool :=
  match events with
  | [] => true
  | e :: rest =>
      (negb (second e) || seen) && preceded first second (seen || first e) rest
  end.

Definition touches_world (e : Event) : bool :=
  match e with
  | Print _ _ _ _ => false
  | _ => true
  end.

Definition is_write (e : Event) : bool :=
  match e with
  | WriteFile _ _ _ => true
  | Mkdir _ _ => true
  | _ => false
  end.

Definition failed_write (e : Event) : bool :=
  match e with
  | WriteFile _ _ false => true
  | Mkdir _ false => true
  | _ => false
  end.

(** The script called [spawn] for a command that resets the data. *)
Definition reset_started (events : list Event) : bool :=
  started "yarn" ["reset:data"] events || started "yarn" ["reset:data:xxl"] events.

Definition is_reset (e : Event) : bool :=
  is_spawn "yarn" ["reset:data"] e || is_spawn "yarn" ["reset:data:xxl"] e.

Definition done (command : string) (args : list string) (e : Event) : bool :=
  is_spawn command args e && succeeded e.

Definition is_ask (e : Event) : bool :=
  match e with
  | Asked _ => true
  | _ => false
  end.

(** How the script ends when a part of it ends with this result. *)
Definition outcome_of {A : Type} (result : Result A) : Outcome :=
  match result with
  | Next _ => Resolved
  | Thrown m => Rejected m
  | Stopped o => o
  end.

(** The script got past its two checks of the environment. *)
Definition proceeds (env : Env) : bool :=
  is_value (NODE_ENV env) "development"
  && negb (is_value (DEVCONTAINER env) "true").

(** An environment for the examples: development, every command there
    and closing with the code [codes] gives, every write going well, the
    user choosing what [choice] says. *)
Definition plain_env (arguments : list string) (client : option string)
    (docker : bool) (choice : string) (codes : string -> list string -> option nat)
  : Env :=
  {| NODE_ENV := Some "development";
     DEVCONTAINER := None;
     dirname := "/repo/.github/scripts";
     argv := arguments;
     database_client := client;
     database_docker := docker;
     local_config := None;
     spawn_failure := fun _ _ _ => None;
     exit_code := fun _ => codes;
     chosen_database := fun _ => Answered choice;
     confirmed := fun _ => Answered true;
     write_error := fun _ _ => None;
     mkdir_error := fun _ _ => None |}.

(** A machine where the command [missing] is not installed and every
    other command closes with code 0. *)
Definition env_without (missing : string) (arguments : list string)
    (client : option string) (docker : bool) (choice : string) : Env :=
  {| NODE_ENV := Some "development";
     DEVCONTAINER := None;
     dirname := "/repo/.github/scripts";
     argv := arguments;
     database_client := client;
     database_docker := docker;
     local_config := None;
     spawn_failure :=
       fun _ command _ =>
         if String.eqb command missing
         then Some (ErrorEvent ("spawn " ++ command ++ " ENOENT"))
         else None;
     exit_code := fun _ _ _ => Some 0;
     chosen_database := fun _ => Answered choice;
     confirmed := fun _ => Answered true;
     write_error := fun _ _ => None;
     mkdir_error := fun _ _ => None |}.

End Setup.

(** * Properties *)

(** ** The cache as a map *)

Lemma value_eqb_refl (v : Js.Value) : Js.value_eqb v v = true.
Proof. destruct v; simpl; auto using String.eqb_refl. Qed.

Lemma value_eqb_eq (a b : Js.Value) : Js.value_eqb a b = true <-> a = b.
Proof.
  split.
  - destruct a, b; simpl; try discriminate; auto.
    intros E. apply String.eqb_eq in E. now subst.
  - intros ->. apply value_eqb_refl.
Qed.

Lemma get_set_same {V : Type} (m : list (Js.Value * V)) k v :
  JsMap.get (JsMap.set m k v) k = Some v.
Proof.
  induction m as [|[k' v'] m IH]; simpl.
  - now rewrite value_eqb_refl.
  - destruct (Js.value_eqb k' k) eqn:E; simpl.
    + now rewrite value_eqb_refl.
    + now rewrite E.
Qed.

Lemma set_absent {V : Type} (m : list (Js.Value * V)) k v :
  JsMap.get m k = None -> JsMap.set m k v = (m ++ [(k, v)])%list.
Proof.
  induction m as [|[k' v'] m IH]; simpl; auto.
  destruct (Js.value_eqb k' k); [discriminate|].
  intros E. now rewrite IH.
Qed.

Lemma get_set_other {V : Type} (m : list (Js.Value * V)) k k' v :
  k <> k' -> JsMap.get (JsMap.set m k' v) k = JsMap.get m k.
Proof.
  intros N. induction m as [|[k0 v0] m IH]; simpl.
  - destruct (Js.value_eqb k' k) eqn:E; [|reflexivity].
    apply value_eqb_eq in E. congruence.
  - destruct (Js.value_eqb k0 k') eqn:E; simpl.
    + apply value_eqb_eq in E. subst k0.
      destruct (Js.value_eqb k' k) eqn:E2; [|reflexivity].
      apply value_eqb_eq in E2. congruence.
    + destruct (Js.value_eqb k0 k); [reflexivity | exact IH].
Qed.

Lemma has_get {V : Type} (m : list (Js.Value * V)) k :
  JsMap.has m k = false <-> JsMap.get m k = None.
Proof.
  unfold JsMap.has. destruct (JsMap.get m k); split; congruence.
Qed.

(** ** Running the methods *)

Ltac flatten := repeat first [rewrite <- app_assoc | progress cbn [app]].
Ltac flatten_in H :=
  repeat first [rewrite <- app_assoc in H | progress cbn [app] in H].

Lemma extend_nil st : extend st [] = st.
Proof. destruct st. unfold extend. simpl. now rewrite app_nil_r. Qed.

Lemma extend_extend st a b : extend (extend st a) b = extend st (a ++ b)%list.
Proof. unfold extend. simpl. now rewrite app_assoc. Qed.

Lemma logging_info_run line st :
  logging_info line st = (Return tt, extend st [EvInfo line]).
Proof. reflexivity. Qed.

(** [configureSiteDatabase] reads nothing of the state and adds its log
    line to the trace. *)
Lemma configureSiteDatabase_frame siteId base st :
  configureSiteDatabase siteId base st
  = (fst (configureSiteDatabase siteId base initial),
     extend st (trace (snd (configureSiteDatabase siteId base initial)))).
Proof.
  unfold configureSiteDatabase.
  destruct (is_sqlite (client base)).
  - destruct (filename base) as [original|].
    + reflexivity.
    + cbn. now rewrite extend_nil.
  - destruct (String.eqb (client base) "libsql").
    + reflexivity.
    + cbn. now rewrite extend_nil.
Qed.

Lemma configureSiteDatabase_run host siteId st :
  configureSiteDatabase siteId (database_config host) st
  = (configure_outcome host siteId, extend st (configure_events host siteId)).
Proof. apply configureSiteDatabase_frame. Qed.

(** The three ways [configureSiteDatabase] goes: an SQLite configuration
    without a file name throws in [path.extname]; an SQLite or a libSQL
    configuration gets a file name and a log line; any other configuration
    comes back as it is. *)
Lemma configure_cases host siteId :
  (is_sqlite (client (database_config host)) = true
   /\ filename (database_config host) = None
   /\ configure_outcome host siteId = Throw (Js.invalid_arg_type "path")
   /\ configure_events host siteId = [])
  \/ (exists config file line,
         configure_outcome host siteId = Return config
         /\ filename config = Some file
         /\ client config = client (database_config host)
         /\ configure_events host siteId = [EvInfo line]
         /\ (is_sqlite (client (database_config host)) = true
             \/ String.eqb (client (database_config host)) "libsql" = true))
  \/ (is_sqlite (client (database_config host)) = false
      /\ String.eqb (client (database_config host)) "libsql" = false
      /\ configure_outcome host siteId = Return (database_config host)
      /\ configure_events host siteId = []).
Proof.
  unfold configure_outcome, configure_events, configureSiteDatabase.
  destruct (is_sqlite (client (database_config host))) eqn:S.
  - destruct (filename (database_config host)) as [original|] eqn:F.
    + right. left. eexists. eexists. eexists. cbn.
      repeat split; try reflexivity. now left.
    + left. cbn. auto.
  - destruct (String.eqb (client (database_config host)) "libsql") eqn:L.
    + right. left. eexists. eexists. eexists. cbn.
      repeat split; try reflexivity. now right.
    + right. right. cbn. auto.
Qed.

Lemma site_config_outcome host siteId config :
  configure_outcome host siteId = Return config ->
  site_config host siteId = config.
Proof. unfold site_config. now intros ->. Qed.

Lemma configure_events_only_info host siteId :
  only_info (configure_events host siteId).
Proof.
  destruct (configure_cases host siteId)
    as [(_ & _ & _ & ->)|[(c & f & l & _ & _ & _ & -> & _)|(_ & _ & _ & ->)]];
    reflexivity.
Qed.

Lemma only_info_existsb events (f : Event -> bool) :
  only_info events ->
  (forall line, f (EvInfo line) = false) ->
  existsb f events = false.
Proof.
  unfold only_info. intros H Hf. induction events as [|e events IH];
    [reflexivity|].
  simpl in H. apply andb_true_iff in H. destruct H as [He H].
  simpl. rewrite (IH H). destruct e; try discriminate He. now rewrite Hf.
Qed.

Lemma only_info_flat_map {A : Type} events (f : Event -> list A) :
  only_info events ->
  (forall line, f (EvInfo line) = []) ->
  flat_map f events = [].
Proof.
  unfold only_info. intros H Hf. induction events as [|e events IH];
    [reflexivity|].
  simpl in H. apply andb_true_iff in H. destruct H as [He H].
  simpl. rewrite (IH H). destruct e; try discriminate He. now rewrite Hf.
Qed.

Lemma only_info_quiet events : only_info events -> quiet events.
Proof.
  unfold only_info, quiet. intros H. induction events as [|e events IH];
    [reflexivity|].
  simpl in H. apply andb_true_iff in H. destruct H as [He H].
  simpl. rewrite (IH H). destruct e; try discriminate He. reflexivity.
Qed.

Lemma configure_events_info host siteId (f : Event -> bool) :
  (forall line, f (EvInfo line) = false) ->
  existsb f (configure_events host siteId) = false.
Proof. apply only_info_existsb, configure_events_only_info. Qed.

Lemma configure_events_quiet host siteId :
  sessions_opened (configure_events host siteId) = []
  /\ clients_created (configure_events host siteId) = []
  /\ statements (configure_events host siteId) = [].
Proof.
  repeat split; apply only_info_flat_map;
    try apply configure_events_only_info; reflexivity.
Qed.

Lemma statements_configure host siteId :
  statements (configure_events host siteId) = [].
Proof. apply configure_events_quiet. Qed.

Lemma quiet_configure host siteId : quiet (configure_events host siteId).
Proof. apply only_info_quiet, configure_events_only_info. Qed.

Lemma sessions_opened_app a b :
  sessions_opened (a ++ b) = (sessions_opened a ++ sessions_opened b)%list.
Proof. apply flat_map_app. Qed.

Lemma clients_created_app a b :
  clients_created (a ++ b) = (clients_created a ++ clients_created b)%list.
Proof. apply flat_map_app. Qed.

Lemma statements_app a b :
  statements (a ++ b) = (statements a ++ statements b)%list.
Proof. apply flat_map_app. Qed.

Lemma statements_execute c sql ok events :
  statements (EvExecute c sql ok :: events) = sql :: statements events.
Proof. reflexivity. Qed.

Lemma quiet_app a b : quiet a -> quiet b -> quiet (a ++ b).
Proof. unfold quiet. intros Ha Hb. now rewrite forallb_app, Ha, Hb. Qed.

Lemma quiet_sessions events : quiet events -> sessions_opened events = [].
Proof.
  unfold quiet. induction events as [|e events IH]; simpl; [reflexivity|].
  intros H. apply andb_true_iff in H. destruct H as [He H].
  destruct e; simpl in *; try discriminate; auto.
Qed.

Lemma quiet_clients events : quiet events -> clients_created events = [].
Proof.
  unfold quiet. induction events as [|e events IH]; simpl; [reflexivity|].
  intros H. apply andb_true_iff in H. destruct H as [He H].
  destruct e; simpl in *; try discriminate; auto.
Qed.

(** The text of an ATTACH statement for a resolved file. *)
Lemma attachQuery_run host config index st :
  attachQuery host config index st
  = (match filename config with
     | Some file =>
         Return ("ATTACH DATABASE '" ++ NodePath.resolve (cwd host) file
                 ++ "' AS " ++ attach_alias index)
     | None => Throw (Js.invalid_arg_type "paths[0]")
     end, st).
Proof.
  unfold attachQuery, path_resolve, validateString, bind, ret, throw.
  destruct (filename config); reflexivity.
Qed.

Lemma attach_statement_eq host siteId index :
  attach_statement host siteId index
  = match configure_outcome host siteId with
    | Return config =>
        match filename config with
        | Some file =>
            Return ("ATTACH DATABASE '" ++ NodePath.resolve (cwd host) file
                    ++ "' AS " ++ attach_alias index)
        | None => Throw (Js.invalid_arg_type "paths[0]")
        end
    | Throw e => Throw e
    end.
Proof.
  unfold attach_statement, bind. rewrite configureSiteDatabase_run.
  destruct (configure_outcome host siteId) as [config|e]; [|reflexivity].
  now rewrite attachQuery_run.
Qed.

Lemma client_url_for_eq host siteId :
  client_url_for host siteId
  = match configure_outcome host siteId with
    | Return config =>
        match filename config with
        | Some file => Return ("file:" ++ NodePath.resolve (cwd host) file)
        | None => Throw (Js.invalid_arg_type "paths[0]")
        end
    | Throw e => Throw e
    end.
Proof.
  unfold client_url_for, bind. rewrite configureSiteDatabase_run.
  destruct (configure_outcome host siteId) as [config|e]; [|reflexivity].
  unfold path_resolve, validateString, bind, ret, throw.
  destruct (filename config); reflexivity.
Qed.

(** A site has a file to open exactly when its ATTACH statement and the
    url of its client can be built. *)
Lemma resolved_file_statement host siteId index :
  match resolved_file host siteId with
  | Some resolved =>
      attach_statement host siteId index
      = Return ("ATTACH DATABASE '" ++ resolved ++ "' AS " ++ attach_alias index)
      /\ client_url_for host siteId = Return ("file:" ++ resolved)
      /\ configure_outcome host siteId = Return (site_config host siteId)
  | None =>
      exists e,
        attach_statement host siteId index = Throw e
        /\ client_url_for host siteId = Throw e
        /\ e = Js.invalid_arg_type
                 (if is_sqlite (client (database_config host))
                  then "path" else "paths[0]")
  end.
Proof.
  rewrite attach_statement_eq, client_url_for_eq.
  unfold resolved_file, locator, site_config.
  destruct (configure_cases host siteId)
    as [(S & F & -> & _)|[(c & f & l & -> & Fc & _)|(S & L & -> & _)]].
  - rewrite F, S. eexists. auto.
  - rewrite Fc. auto.
  - destruct (filename (database_config host)) as [file|] eqn:F.
    + auto.
    + rewrite S. eexists. auto.
Qed.

Lemma getSiteConnection_cached host siteId st connection :
  Js.falsy siteId = false ->
  JsMap.get (connections st) siteId = Some connection ->
  getSiteConnection host siteId st = (Return connection, st).
Proof.
  intros F G. unfold getSiteConnection. rewrite F.
  unfold bind, connections_get. now rewrite G.
Qed.

(** What [getSiteConnection] does when the site has no cached connection:
    it throws what [configureSiteDatabase] or [knex] throws, and caches
    nothing, or makes a connection and caches it. *)
Lemma getSiteConnection_fresh host siteId st :
  Js.falsy siteId = false ->
  JsMap.get (connections st) siteId = None ->
  getSiteConnection host siteId st
  = match configure_outcome host siteId with
    | Throw e => (Throw e, extend st (configure_events host siteId))
    | Return config =>
        match knex_error host (trace st ++ configure_events host siteId) config with
        | Some e => (Throw e, extend st (configure_events host siteId))
        | None =>
            let connection :=
              {| conn_id := length (trace st ++ configure_events host siteId);
                 conn_config := config |} in
            (Return connection,
             {| connections := JsMap.set (connections st) siteId connection;
                libsqlClients := libsqlClients st;
                currentSite := currentSite st;
                trace :=
                  (trace st ++ configure_events host siteId
                   ++ [EvKnex connection;
                       EvInfo ("[MultiSite] Created new database connection for site: "
                               ++ Js.text siteId)])%list |})
        end
    end.
Proof.
  intros F G. unfold getSiteConnection. rewrite F.
  unfold bind at 1. unfold connections_get at 1. rewrite G.
  unfold bind at 1. rewrite configureSiteDatabase_run.
  destruct (configure_outcome host siteId) as [config|e]; [|reflexivity].
  unfold bind at 1. unfold knex. unfold bind at 1. unfold get_trace.
  cbn [extend trace].
  destruct (knex_error host (trace st ++ configure_events host siteId) config);
    [reflexivity|].
  cbv [bind emit connections_set logging_info ret extend
       connections libsqlClients currentSite trace].
  repeat rewrite <- app_assoc. reflexivity.
Qed.

Lemma getLibSQLClient_cached host siteId st libsql :
  Js.falsy siteId = false ->
  JsMap.get (libsqlClients st) siteId = Some libsql ->
  getLibSQLClient host siteId st = (Return libsql, st).
Proof.
  intros F G. unfold getLibSQLClient. rewrite F.
  unfold bind, libsqlClients_get. now rewrite G.
Qed.

(** What [getLibSQLClient] does when the site has no cached client: it
    throws what [configureSiteDatabase], [path.resolve] or [createClient]
    throws, and caches nothing, or makes a client and caches it. *)
Lemma getLibSQLClient_fresh host siteId st :
  Js.falsy siteId = false ->
  JsMap.get (libsqlClients st) siteId = None ->
  getLibSQLClient host siteId st
  = match client_url_for host siteId with
    | Throw e => (Throw e, extend st (configure_events host siteId))
    | Return url =>
        match createClient_error host (trace st ++ configure_events host siteId)
                url with
        | Some e => (Throw e, extend st (configure_events host siteId))
        | None =>
            let libsql :=
              {| client_id := length (trace st ++ configure_events host siteId);
                 client_url := url |} in
            (Return libsql,
             {| connections := connections st;
                libsqlClients := JsMap.set (libsqlClients st) siteId libsql;
                currentSite := currentSite st;
                trace :=
                  (trace st ++ configure_events host siteId
                   ++ [EvCreateClient libsql;
                       EvInfo ("[MultiSite] Created libSQL client for site: "
                               ++ Js.text siteId)])%list |})
        end
    end.
Proof.
  intros F G. unfold getLibSQLClient. rewrite F.
  unfold bind at 1. unfold libsqlClients_get at 1. rewrite G.
  unfold bind at 1. rewrite configureSiteDatabase_run.
  rewrite client_url_for_eq.
  destruct (configure_outcome host siteId) as [config|e]; [|reflexivity].
  unfold bind at 1. unfold path_resolve, validateString.
  destruct (filename config) as [file|]; [|reflexivity].
  cbn [bind ret]. unfold bind at 1. unfold createClient. unfold bind at 1.
  unfold get_trace. cbn [extend trace].
  destruct (createClient_error host (trace st ++ configure_events host siteId)
              ("file:" ++ NodePath.resolve (cwd host) file));
    [reflexivity|].
  cbv [bind emit libsqlClients_set logging_info ret extend
       connections libsqlClients currentSite trace].
  repeat rewrite <- app_assoc. reflexivity.
Qed.

(** ** Missing site identifiers *)

(** C10: with a missing or empty site id, [getSiteConnection] and
    [getLibSQLClient] throw [IncorrectUsageError] with their "Site ID is
    required" messages and leave the state, both caches included, exactly
    as it was. *)
Theorem missing_site_id_rejected host siteId st :
  Js.falsy siteId = true ->
  getSiteConnection host siteId st
  = (Throw (Js.IncorrectUsageError
              "Site ID is required for multi-site database connection"), st)
  /\ getLibSQLClient host siteId st
     = (Throw (Js.IncorrectUsageError "Site ID is required for libSQL client"),
        st).
Proof.
  intros F. unfold getSiteConnection, getLibSQLClient. rewrite F.
  split; reflexivity.
Qed.

Lemma missing_site_id_rejected_witness :
  Js.falsy (Js.Str EmptyString) = true
  /\ getSiteConnection (sqlite_host [] []) (Js.Str EmptyString) initial
     = (Throw (Js.IncorrectUsageError
                 "Site ID is required for multi-site database connection"),
        initial)
  /\ getLibSQLClient (sqlite_host [] []) (Js.Str EmptyString) initial
     = (Throw (Js.IncorrectUsageError "Site ID is required for libSQL client"),
        initial).
Proof.
  split; [reflexivity|].
  apply (missing_site_id_rejected (sqlite_host [] []) (Js.Str EmptyString) initial).
  reflexivity.
Defined.

(** ** One connection per site *)

(** C5: for a site id that is given, a cached connection comes back as it
    is, with the state untouched.  Without one, [getSiteConnection] returns
    whenever the site's configuration can be derived and knex accepts it:
    exactly one instance is made, put in the cache under the site id and
    returned, and a second call right after it returns the same object and
    changes nothing.  When deriving the configuration or knex throws, that
    error is thrown, no instance is made and nothing is cached. *)
Theorem getSiteConnection_twice host siteId st :
  Js.falsy siteId = false ->
  match JsMap.get (connections st) siteId with
  | Some cached => getSiteConnection host siteId st = (Return cached, st)
  | None =>
      match getSiteConnection host siteId st with
      | (Return connection, st1) =>
          getSiteConnection host siteId st1 = (Return connection, st1)
          /\ JsMap.get (connections st1) siteId = Some connection
          /\ sessions_opened (trace st1)
             = (sessions_opened (trace st) ++ [connection])%list
          /\ connections st1 = (connections st ++ [(siteId, connection)])%list
          /\ configure_outcome host siteId = Return (conn_config connection)
      | (Throw e, st1) =>
          connections st1 = connections st
          /\ sessions_opened (trace st1) = sessions_opened (trace st)
          /\ (configure_outcome host siteId = Throw e
              \/ exists config,
                  configure_outcome host siteId = Return config
                  /\ knex_error host (trace st ++ configure_events host siteId)
                       config = Some e)
      end
      /\ forall config,
          configure_outcome host siteId = Return config ->
          knex_error host (trace st ++ configure_events host siteId) config
          = None ->
          exists connection st1,
            getSiteConnection host siteId st = (Return connection, st1)
  end.
Proof.
  intros F. destruct (JsMap.get (connections st) siteId) as [cached|] eqn:G.
  - now apply getSiteConnection_cached.
  - rewrite (getSiteConnection_fresh host siteId st F G).
    destruct (configure_outcome host siteId) as [config|e] eqn:C.
    + destruct (knex_error host (trace st ++ configure_events host siteId) config)
        as [e|] eqn:K.
      * split.
        -- cbn [extend connections trace]. split; [reflexivity|].
           rewrite sessions_opened_app.
           destruct (configure_events_quiet host siteId) as [-> _].
           rewrite app_nil_r. split; [reflexivity|]. right. eauto.
        -- intros config' E. injection E as <-. congruence.
      * cbv zeta. split.
        -- assert (Hit : forall c,
                      JsMap.get (JsMap.set (connections st) siteId c) siteId
                      = Some c) by (intros; apply get_set_same).
           split; [|split; [|split; [|split]]].
           ++ apply getSiteConnection_cached; [exact F|]. simpl. apply Hit.
           ++ simpl. apply Hit.
           ++ simpl. rewrite !sessions_opened_app.
              destruct (configure_events_quiet host siteId) as [-> _].
              reflexivity.
           ++ simpl. now apply set_absent.
           ++ reflexivity.
        -- intros config' E K'. eexists. eexists. reflexivity.
    + split.
      * cbn [extend connections trace]. split; [reflexivity|].
        rewrite sessions_opened_app.
        destruct (configure_events_quiet host siteId) as [-> _].
        rewrite app_nil_r. split; [reflexivity|]. now left.
      * intros config' E. discriminate E.
Qed.

Lemma getSiteConnection_twice_witness :
  Js.falsy (Js.Str "creator1") = false
  /\ exists connection st1,
       getSiteConnection (sqlite_host [] []) (Js.Str "creator1") initial
       = (Return connection, st1)
       /\ getSiteConnection (sqlite_host [] []) (Js.Str "creator1") st1
          = (Return connection, st1)
       /\ sessions_opened (trace st1) = [connection].
Proof.
  split; [reflexivity|].
  pose proof (getSiteConnection_twice (sqlite_host [] []) (Js.Str "creator1")
                initial eq_refl) as H.
  cbn [JsMap.get connections initial] in H. destruct H as [H Ex].
  destruct (Ex (site_config (sqlite_host [] []) (Js.Str "creator1")))
    as (connection & st1 & R); [reflexivity | reflexivity |].
  rewrite R in H. destruct H as (A & _ & B & _).
  exists connection, st1. split; [exact R|]. split; [exact A | exact B].
Defined.

(** ** Creating a site twice *)

Lemma createSite_run host siteId st :
  createSite host siteId st
  = if JsMap.has (connections st) siteId then
      (Throw (Js.ValidationError
                ("Site " ++ Js.text siteId ++ " already exists")), st)
    else
      match getSiteConnection host siteId st with
      | (Return connection, st1) =>
          (Return connection,
           extend st1 [EvInfo ("[MultiSite] Site " ++ Js.text siteId
                               ++ " database created and ready")])
      | (Throw e, st1) => (Throw e, st1)
      end.
Proof.
  unfold createSite, bind at 1, connections_has.
  destruct (JsMap.has (connections st) siteId); [reflexivity|].
  unfold bind at 1.
  destruct (getSiteConnection host siteId st) as [[c|e] st1]; reflexivity.
Qed.

(** C6, as the code has it: what [createSite] refuses is a site id with a
    connection in the cache, however the connection got there; it then
    throws the [ValidationError] "Site ... already exists" and leaves the
    state as it was.  For a site id that is given and has no cached
    connection, it returns a new connection whenever the configuration can
    be derived and knex accepts it, after which the site is in the cache and
    creating it again is refused; when it throws instead, the error is the
    one of deriving the configuration or of knex, and no cache has
    changed. *)
Theorem createSite_duplicate host siteId st :
  (JsMap.has (connections st) siteId = true ->
   createSite host siteId st
   = (Throw (Js.ValidationError ("Site " ++ Js.text siteId ++ " already exists")),
      st))
  /\ (JsMap.has (connections st) siteId = false ->
      Js.falsy siteId = false ->
      match createSite host siteId st with
      | (Return connection, st1) =>
          connections st1 = (connections st ++ [(siteId, connection)])%list
          /\ JsMap.get (connections st1) siteId = Some connection
          /\ createSite host siteId st1
             = (Throw (Js.ValidationError
                         ("Site " ++ Js.text siteId ++ " already exists")), st1)
      | (Throw e, st1) =>
          connections st1 = connections st
          /\ libsqlClients st1 = libsqlClients st
          /\ (configure_outcome host siteId = Throw e
              \/ exists config,
                  configure_outcome host siteId = Return config
                  /\ knex_error host (trace st ++ configure_events host siteId)
                       config = Some e)
      end
      /\ forall config,
          configure_outcome host siteId = Return config ->
          knex_error host (trace st ++ configure_events host siteId) config
          = None ->
          exists connection st1,
            createSite host siteId st = (Return connection, st1)).
Proof.
  assert (Dup : forall s, JsMap.has (connections s) siteId = true ->
    createSite host siteId s
    = (Throw (Js.ValidationError ("Site " ++ Js.text siteId ++ " already exists")),
       s)).
  { intros s E. rewrite createSite_run. now rewrite E. }
  split; [apply Dup|].
  intros E F. rewrite createSite_run, E.
  assert (G : JsMap.get (connections st) siteId = None) by now apply has_get.
  rewrite (getSiteConnection_fresh host siteId st F G).
  destruct (configure_outcome host siteId) as [config|e] eqn:C.
  - destruct (knex_error host (trace st ++ configure_events host siteId) config)
      as [e|] eqn:K.
    + split; [|intros config' E'; injection E' as <-; congruence].
      cbn [extend connections libsqlClients].
      split; [reflexivity|]. split; [reflexivity|]. right. eauto.
    + cbv zeta. split; [|intros; eexists; eexists; reflexivity].
      cbn [extend connections]. split; [now apply set_absent|].
      split; [apply get_set_same|].
      apply Dup. unfold JsMap.has. cbn [extend connections].
      now rewrite get_set_same.
  - split; [|intros config' E'; discriminate E'].
    cbn [extend connections libsqlClients]. auto.
Qed.

(** C6 as stated fails, since the code keeps no record of registrations
    apart from the cache of connections: a site that was never registered
    but whose connection was asked for is refused as existing, and a site
    that was registered is registered once more after a shutdown. *)
Lemma registration_follows_the_cache :
  registered (sqlite_host [] []) [CallGetSiteConnection (Js.Str "creator1")]
    initial (Js.Str "creator1") = false
  /\ fst (createSite (sqlite_host [] []) (Js.Str "creator1")
            (perform_all (sqlite_host [] [])
               [CallGetSiteConnection (Js.Str "creator1")] initial))
     = Throw (Js.ValidationError "Site creator1 already exists")
  /\ registered (sqlite_host [] [])
       [CallCreateSite (Js.Str "creator1"); CallDestroy] initial
       (Js.Str "creator1") = true
  /\ fst (createSite (sqlite_host [] []) (Js.Str "creator1")
            (perform_all (sqlite_host [] [])
               [CallCreateSite (Js.Str "creator1"); CallDestroy] initial))
     = Return {| conn_id := 7;
                 conn_config :=
                   {| client := "better-sqlite3";
                      filename := Some "content/data/ghost-dev-creator1.db";
                      database := None;
                      useNullAsDefault := Some true;
                      pool := Some AfterCreateBetterSqlite3 |} |}.
Proof. repeat split; vm_compute; reflexivity. Qed.

(** ** The stored current site *)

Section IgnoresCurrentSite.

Context {A B : Type}.

Lemma ignores_ret (a : A) : ignores_current_site (ret a).
Proof. intros st v. reflexivity. Qed.

Lemma ignores_throw (e : Js.Error) : ignores_current_site (@throw A e).
Proof. intros st v. reflexivity. Qed.

Lemma ignores_bind (c : Action A) (k : A -> Action B) :
  ignores_current_site c ->
  (forall a, ignores_current_site (k a)) ->
  ignores_current_site (bind c k).
Proof.
  intros Hc Hk st v. unfold bind. rewrite Hc.
  destruct (c st) as [[a|e] st']; simpl.
  - apply Hk.
  - reflexivity.
Qed.

Lemma ignores_try_catch (c : Action A) (handler : Js.Error -> Action A) :
  ignores_current_site c ->
  (forall e, ignores_current_site (handler e)) ->
  ignores_current_site (try_catch c handler).
Proof.
  intros Hc Hh st v. unfold try_catch. rewrite Hc.
  destruct (c st) as [[a|e] st']; simpl.
  - reflexivity.
  - apply Hh.
Qed.

End IgnoresCurrentSite.

Lemma ignores_emit e : ignores_current_site (emit e).
Proof. intros st v. reflexivity. Qed.

Lemma ignores_get_trace : ignores_current_site get_trace.
Proof. intros st v. reflexivity. Qed.

Lemma ignores_cache_access :
  (forall siteId, ignores_current_site (connections_get siteId))
  /\ (forall siteId, ignores_current_site (connections_has siteId))
  /\ (forall siteId, ignores_current_site (libsqlClients_get siteId))
  /\ ignores_current_site connections_entries
  /\ ignores_current_site libsqlClients_entries
  /\ (forall siteId c, ignores_current_site (connections_set siteId c))
  /\ (forall siteId c, ignores_current_site (libsqlClients_set siteId c))
  /\ ignores_current_site clear_caches.
Proof. repeat split; intros; intros st v; reflexivity. Qed.

Ltac ignores :=
  repeat match goal with
    | |- ignores_current_site (bind _ _) => apply ignores_bind; [|intros]
    | |- ignores_current_site (try_catch _ _) =>
        apply ignores_try_catch; [|intros]
    | |- ignores_current_site (ret _) => apply ignores_ret
    | |- ignores_current_site (throw _) => apply ignores_throw
    | |- ignores_current_site (emit _) => apply ignores_emit
    | |- ignores_current_site (logging_info _) => apply ignores_emit
    | |- ignores_current_site (logging_error _) => apply ignores_emit
    | |- ignores_current_site get_trace => apply ignores_get_trace
    | |- ignores_current_site (match ?x with _ => _ end) => destruct x
    | |- ignores_current_site _ =>
        solve [apply ignores_cache_access | assumption | auto]
    end.

Lemma ignores_drivers host :
  (forall c sql, ignores_current_site (execute host c sql))
  /\ (forall c, ignores_current_site (connection_destroy host c))
  /\ (forall c, ignores_current_site (client_close host c))
  /\ (forall config, ignores_current_site (knex host config))
  /\ (forall url, ignores_current_site (createClient host url)).
Proof.
  repeat split; intros;
    unfold execute, connection_destroy, client_close, knex, createClient;
    ignores.
Qed.

Lemma ignores_path :
  (forall p, ignores_current_site (path_extname p))
  /\ (forall p suffix, ignores_current_site (path_basename p suffix))
  /\ (forall p, ignores_current_site (path_dirname p))
  /\ (forall host p, ignores_current_site (path_resolve host p)).
Proof.
  repeat split; intros;
    unfold path_extname, path_basename, path_dirname, path_resolve,
      validateString; ignores.
Qed.

Lemma ignores_configureSiteDatabase siteId base :
  ignores_current_site (configureSiteDatabase siteId base).
Proof. unfold configureSiteDatabase. ignores; apply ignores_path. Qed.

Lemma ignores_getSiteConnection host siteId :
  ignores_current_site (getSiteConnection host siteId).
Proof.
  unfold getSiteConnection. ignores.
  - apply ignores_configureSiteDatabase.
  - apply ignores_drivers.
Qed.

Lemma ignores_getLibSQLClient host siteId :
  ignores_current_site (getLibSQLClient host siteId).
Proof.
  unfold getLibSQLClient. ignores.
  - apply ignores_configureSiteDatabase.
  - apply ignores_path.
  - apply ignores_drivers.
Qed.

Lemma ignores_attach_additional host c l :
  forall index, ignores_current_site (attach_additional host c index l).
Proof.
  induction l as [|siteId rest IH]; intros index; simpl; ignores.
  - apply ignores_configureSiteDatabase.
  - unfold attachQuery. ignores. apply ignores_path.
  - apply ignores_drivers.
Qed.

Lemma ignores_executeCrossSiteQuery host primary additional query :
  ignores_current_site (executeCrossSiteQuery host primary additional query).
Proof.
  unfold executeCrossSiteQuery. ignores.
  - apply ignores_getLibSQLClient.
  - apply ignores_attach_additional.
  - apply ignores_drivers.
Qed.

Lemma ignores_createSite host siteId :
  ignores_current_site (createSite host siteId).
Proof.
  unfold createSite. ignores. apply ignores_getSiteConnection.
Qed.

Lemma ignores_destroy_connections host entries :
  ignores_current_site (destroy_connections host entries).
Proof.
  induction entries as [|[siteId c] rest IH]; simpl; ignores.
  apply ignores_drivers.
Qed.

Lemma ignores_close_clients host entries :
  ignores_current_site (close_clients host entries).
Proof.
  induction entries as [|[siteId c] rest IH]; simpl; ignores.
  apply ignores_drivers.
Qed.

Lemma ignores_destroy host : ignores_current_site (destroy host).
Proof.
  unfold destroy. ignores.
  - apply ignores_destroy_connections.
  - apply ignores_close_clients.
Qed.

(** C4, as the code has it: the manager does keep a current site, set by
    [setCurrentSite] and read by [getCurrentSite], but no other operation
    reads it.  The site acted on is a parameter of [configureSiteDatabase],
    [getSiteConnection], [getLibSQLClient], [executeCrossSiteQuery] and
    [createSite], and these and [destroy] give the same result from two
    states that differ only in the stored current site, and leave that
    field alone. *)
Theorem operations_ignore_current_site host :
  (forall siteId base, ignores_current_site (configureSiteDatabase siteId base))
  /\ (forall siteId, ignores_current_site (getSiteConnection host siteId))
  /\ (forall siteId, ignores_current_site (getLibSQLClient host siteId))
  /\ (forall primary additional query,
         ignores_current_site
           (executeCrossSiteQuery host primary additional query))
  /\ (forall siteId, ignores_current_site (createSite host siteId))
  /\ ignores_current_site (destroy host).
Proof.
  repeat split; intros.
  - apply ignores_configureSiteDatabase.
  - apply ignores_getSiteConnection.
  - apply ignores_getLibSQLClient.
  - apply ignores_executeCrossSiteQuery.
  - apply ignores_createSite.
  - apply ignores_destroy.
Qed.

(** C4 as stated fails: a current site is stored in the manager, and
    [getCurrentSite] answers differently in two states that differ only in
    it. *)
Lemma current_site_is_maintained :
  fst (getCurrentSite (snd (setCurrentSite (Js.Str "creator1") initial)))
  = Return (Js.Str "creator1")
  /\ fst (getCurrentSite initial) = Return Js.Null
  /\ ~ ignores_current_site getCurrentSite.
Proof.
  split; [reflexivity|]. split; [reflexivity|].
  intros H. specialize (H initial (Js.Str "creator1")).
  discriminate H.
Qed.

(** ** The statements of a cross-site query *)

Lemma execute_run host c sql st :
  execute host c sql st
  = match libsql_execute host (trace st) c sql with
    | inl rows => (Return rows, extend st [EvExecute c sql true])
    | inr e => (Throw e, extend st [EvExecute c sql false])
    end.
Proof.
  unfold execute, bind, get_trace.
  destruct (libsql_execute host (trace st) c sql); reflexivity.
Qed.

(** One turn of the attach loop: the statement cannot be built, or the
    driver refuses it, or the loop goes on with the next site. *)
Lemma attach_step_run host c index siteId rest st :
  attach_additional host c index (siteId :: rest) st
  = match attach_statement host siteId index with
    | Throw e => (Throw e, extend st (configure_events host siteId))
    | Return sql =>
        match libsql_execute host (trace st ++ configure_events host siteId)
                c sql with
        | inr e =>
            (Throw e,
             extend st (configure_events host siteId ++ [EvExecute c sql false]))
        | inl _ =>
            attach_additional host c (S index) rest
              (extend st (configure_events host siteId ++ [EvExecute c sql true]))
        end
    end.
Proof.
  cbn [attach_additional]. unfold bind at 1. rewrite configureSiteDatabase_run.
  rewrite attach_statement_eq.
  destruct (configure_outcome host siteId) as [config|e]; [|reflexivity].
  unfold bind at 1. rewrite attachQuery_run.
  destruct (filename config) as [file|]; [|reflexivity].
  unfold bind at 1. rewrite execute_run. cbn [extend trace].
  destruct (libsql_execute host (trace st ++ configure_events host siteId) c _);
    rewrite extend_extend; reflexivity.
Qed.

Lemma attach_additional_app host c done rest :
  forall index st,
    attach_additional host c index (done ++ rest) st
    = bind (attach_additional host c index done)
           (fun _ => attach_additional host c (index + length done) rest) st.
Proof.
  induction done as [|siteId done IH]; intros index st.
  - cbn [app attach_additional length]. unfold bind, ret.
    now rewrite Nat.add_0_r.
  - cbn [app length]. unfold bind. rewrite !attach_step_run.
    destruct (attach_statement host siteId index) as [sql|e]; [|reflexivity].
    destruct (libsql_execute host _ c sql) as [rows|e]; [|reflexivity].
    rewrite IH. unfold bind. now rewrite Nat.add_succ_r.
Qed.

(** A run of the attach loop either attaches every secondary, or stops at
    the first site whose statement cannot be built or is refused by the
    driver. *)
Lemma attach_additional_run host c additional :
  forall index st,
    match attach_additional host c index additional st with
    | (Return _, st') =>
        st' = extend st (attach_events host c index additional)
        /\ length (attach_statements host index additional) = length additional
    | (Throw e, st') =>
        exists done siteId rest,
          additional = (done ++ siteId :: rest)%list
          /\ length (attach_statements host index done) = length done
          /\ let before :=
               (attach_events host c index done
                ++ configure_events host siteId)%list in
             match attach_statement host siteId (index + length done) with
             | Return sql =>
                 libsql_execute host (trace st ++ before) c sql = inr e
                 /\ st' = extend st (before ++ [EvExecute c sql false])
             | Throw e' => e = e' /\ st' = extend st before
             end
    end.
Proof.
  induction additional as [|siteId rest IH]; intros index st.
  - cbn. unfold ret. now rewrite extend_nil.
  - rewrite attach_step_run. cbn [attach_events attach_statements].
    destruct (attach_statement host siteId index) as [sql|e] eqn:B.
    + destruct (libsql_execute host (trace st ++ configure_events host siteId)
                  c sql) as [rows|e] eqn:E.
      * specialize (IH (S index)
                      (extend st (configure_events host siteId
                                  ++ [EvExecute c sql true]))).
        destruct (attach_additional host c (S index) rest _) as [[u|e] st'].
        -- destruct IH as [-> L]. rewrite extend_extend. flatten.
           split; [reflexivity|]. cbn [length]. now rewrite L.
        -- destruct IH as (done & siteId' & rest' & -> & L & Ho).
           exists (siteId :: done), siteId', rest'. split; [reflexivity|].
           cbn [attach_events attach_statements length]. rewrite B.
           split; [cbn [length]; now rewrite L|].
           cbv zeta in *. rewrite Nat.add_succ_r.
           cbn [Nat.add extend trace] in Ho.
           destruct (attach_statement host siteId' (S (index + length done)))
             as [sql'|e'].
           ++ destruct Ho as [Ho ->]. rewrite extend_extend.
              flatten_in Ho. flatten. split; [exact Ho | reflexivity].
           ++ destruct Ho as [-> ->]. rewrite extend_extend.
              flatten. split; reflexivity.
      * exists [], siteId, rest. split; [reflexivity|]. split; [reflexivity|].
        cbn [attach_events length app]. rewrite Nat.add_0_r, B.
        split; [exact E | reflexivity].
    + exists [], siteId, rest. split; [reflexivity|]. split; [reflexivity|].
      cbn [attach_events length app]. rewrite Nat.add_0_r, B.
      split; reflexivity.
Qed.

Lemma statements_attach_events_exact host c additional :
  forall index,
    statements (attach_events host c index additional)
    = attach_statements host index additional.
Proof.
  induction additional as [|siteId rest IH]; intros index; simpl;
    [reflexivity|].
  rewrite statements_app, statements_configure. simpl.
  destruct (attach_statement host siteId index); [|reflexivity].
  simpl. now rewrite IH.
Qed.

Lemma quiet_attach_events host c additional :
  forall index, quiet (attach_events host c index additional).
Proof.
  induction additional as [|siteId rest IH]; intros index; simpl.
  - reflexivity.
  - apply quiet_app; [apply quiet_configure|].
    destruct (attach_statement host siteId index); [|reflexivity].
    unfold quiet. simpl. apply IH.
Qed.

(** What [getLibSQLClient] does for a site id that is given: it sends no
    statement, logs no error, makes no connection, and either returns the
    client that is then cached for the site, or throws what building the
    url or [createClient] throws and leaves both caches as they were. *)
Lemma getLibSQLClient_outcome host siteId st :
  Js.falsy siteId = false ->
  exists events,
    trace (snd (getLibSQLClient host siteId st)) = (trace st ++ events)%list
    /\ statements events = []
    /\ sessions_opened events = []
    /\ existsb is_error_line events = false
    /\ (forall c alias, existsb (attaches c alias) events = false)
    /\ (forall c, existsb (detaches c) events = false)
    /\ connections (snd (getLibSQLClient host siteId st)) = connections st
    /\ match fst (getLibSQLClient host siteId st) with
       | Return libsql =>
           JsMap.get (libsqlClients (snd (getLibSQLClient host siteId st)))
             siteId = Some libsql
       | Throw e =>
           snd (getLibSQLClient host siteId st) = extend st events
           /\ quiet events
           /\ JsMap.get (libsqlClients st) siteId = None
           /\ (client_url_for host siteId = Throw e
               \/ exists url,
                   client_url_for host siteId = Return url
                   /\ createClient_error host
                        (trace st ++ configure_events host siteId) url = Some e)
       end.
Proof.
  intros F. destruct (JsMap.get (libsqlClients st) siteId) as [cached|] eqn:G.
  - exists []. rewrite (getLibSQLClient_cached host siteId st cached F G).
    cbn [fst snd]. rewrite app_nil_r. auto 10.
  - rewrite (getLibSQLClient_fresh host siteId st F G).
    pose proof (configure_events_only_info host siteId) as O.
    assert (Q : forall (f : Event -> bool),
               (forall line, f (EvInfo line) = false) ->
               existsb f (configure_events host siteId) = false)
      by (intros f Hf; now apply only_info_existsb).
    assert (T : (Throw (A:=LibSQLClient) = Throw (A:=LibSQLClient))) by reflexivity.
    destruct (client_url_for host siteId) as [url|e] eqn:U.
    + destruct (createClient_error host
                  (trace st ++ configure_events host siteId) url) as [e|] eqn:K.
      * exists (configure_events host siteId). cbn [fst snd extend trace connections].
        split; [reflexivity|]. split; [apply statements_configure|].
        split; [apply configure_events_quiet|].
        split; [now apply Q|]. split; [intros; now apply Q|].
        split; [intros; now apply Q|]. split; [reflexivity|].
        split; [reflexivity|]. split; [apply quiet_configure|].
        split; [reflexivity|]. right. eauto.
      * cbv zeta. eexists. cbn [fst snd trace connections libsqlClients].
        split; [reflexivity|].
        split; [rewrite statements_app, statements_configure; reflexivity|].
        split; [rewrite sessions_opened_app;
                destruct (configure_events_quiet host siteId) as [-> _];
                reflexivity|].
        split; [rewrite existsb_app, Q by reflexivity; reflexivity|].
        split; [intros; rewrite existsb_app, Q by reflexivity; reflexivity|].
        split; [intros; rewrite existsb_app, Q by reflexivity; reflexivity|].
        split; [reflexivity|]. apply get_set_same.
    + exists (configure_events host siteId). cbn [fst snd extend trace connections].
      split; [reflexivity|]. split; [apply statements_configure|].
      split; [apply configure_events_quiet|].
      split; [now apply Q|]. split; [intros; now apply Q|].
      split; [intros; now apply Q|]. split; [reflexivity|].
      split; [reflexivity|]. split; [apply quiet_configure|].
      split; [reflexivity|]. now left.
Qed.

(** What a cross-site query does once the primary's client is there. *)
Lemma executeCrossSiteQuery_run host primary additional query st c st0 :
  getLibSQLClient host primary st = (Return c, st0) ->
  executeCrossSiteQuery host primary additional query st
  = match attach_additional host c 0 additional st0 with
    | (Return _, st1) =>
        match libsql_execute host (trace st1) c query with
        | inl rows => (Return rows, extend st1 [EvExecute c query true])
        | inr e =>
            (Throw e,
             extend st1 [EvExecute c query false;
                         EvError ("[MultiSite] Cross-site query failed: "
                                  ++ Js.message e)])
        end
    | (Throw e, st1) =>
        (Throw e,
         extend st1 [EvError ("[MultiSite] Cross-site query failed: "
                              ++ Js.message e)])
    end.
Proof.
  intros G. unfold executeCrossSiteQuery. unfold bind at 1. rewrite G.
  unfold try_catch. unfold bind at 1.
  destruct (attach_additional host c 0 additional st0) as [[u|e] st1].
  - unfold bind. rewrite execute_run.
    destruct (libsql_execute host (trace st1) c query) as [rows|e].
    + reflexivity.
    + unfold logging_error, emit, throw, extend. simpl.
      flatten. reflexivity.
  - reflexivity.
Qed.

(** A cross-site query whose primary client cannot be had throws before
    its [try]: nothing is logged as an error. *)
Lemma executeCrossSiteQuery_early host primary additional query st e st0 :
  getLibSQLClient host primary st = (Throw e, st0) ->
  executeCrossSiteQuery host primary additional query st = (Throw e, st0).
Proof.
  intros G. unfold executeCrossSiteQuery. unfold bind at 1. now rewrite G.
Qed.

(** ** A cross-site query without secondaries *)

(** C8: a cross-site query with no additional site gives what the storage
    driver gives when the query is sent directly to the primary site's own
    handle, the same rows or the same error thrown, and sends that one
    statement only, no ATTACH and no DETACH.  The handle is the client
    cached for the site, or, when there is none, a client made in the call
    for the resolved file of the site and cached; when that client cannot
    be made, what making it throws is thrown and no statement is sent. *)
Theorem federate_alone host primary query st :
  Js.falsy primary = false ->
  let federated := executeCrossSiteQuery host primary [] query st in
  match JsMap.get (libsqlClients st) primary with
  | Some handle =>
      fst federated = direct_result host (trace st) handle query
      /\ statements (trace (snd federated))
         = (statements (trace st) ++ [query])%list
      /\ libsqlClients (snd federated) = libsqlClients st
      /\ exists ok logged,
          trace (snd federated)
          = (trace st ++ EvExecute handle query ok :: logged)%list
          /\ statements logged = []
  | None =>
      let ready := (trace st ++ configure_events host primary)%list in
      match resolved_file host primary with
      | Some resolved =>
          let handle :=
            {| client_id := length ready; client_url := "file:" ++ resolved |} in
          match createClient_error host ready ("file:" ++ resolved) with
          | None =>
              let opened :=
                (ready
                 ++ [EvCreateClient handle;
                     EvInfo ("[MultiSite] Created libSQL client for site: "
                             ++ Js.text primary)])%list in
              fst federated = direct_result host opened handle query
              /\ statements (trace (snd federated))
                 = (statements (trace st) ++ [query])%list
              /\ JsMap.get (libsqlClients (snd federated)) primary = Some handle
              /\ exists ok logged,
                  trace (snd federated)
                  = (opened ++ EvExecute handle query ok :: logged)%list
                  /\ statements logged = []
          | Some e =>
              federated = (Throw e, extend st (configure_events host primary))
          end
      | None =>
          exists e,
            federated = (Throw e, extend st (configure_events host primary))
      end
  end.
Proof.
  intros F. cbv zeta.
  assert (Run : forall c st0,
             getLibSQLClient host primary st = (Return c, st0) ->
             fst (executeCrossSiteQuery host primary [] query st)
             = direct_result host (trace st0) c query
             /\ exists ok logged,
                 trace (snd (executeCrossSiteQuery host primary [] query st))
                 = (trace st0 ++ EvExecute c query ok :: logged)%list
                 /\ statements logged = []
                 /\ libsqlClients
                      (snd (executeCrossSiteQuery host primary [] query st))
                    = libsqlClients st0).
  { intros c st0 G.
    rewrite (executeCrossSiteQuery_run host primary [] query st c st0 G).
    cbn [attach_additional ret]. unfold direct_result.
    destruct (libsql_execute host (trace st0) c query) as [rows|e];
      (split; [reflexivity|]); eexists; eexists; cbn [snd extend trace];
      (split; [reflexivity|]); split; reflexivity. }
  destruct (JsMap.get (libsqlClients st) primary) as [handle|] eqn:G.
  - destruct (Run handle st (getLibSQLClient_cached host primary st handle F G))
      as (R & ok & logged & T & S & L).
    split; [exact R|]. split.
    + rewrite T, statements_app, statements_execute. now rewrite S.
    + split; [exact L|]. exists ok, logged. auto.
  - pose proof (getLibSQLClient_fresh host primary st F G) as Fresh.
    pose proof (resolved_file_statement host primary 0) as U.
    destruct (resolved_file host primary) as [resolved|].
    + destruct U as (_ & U & _). rewrite U in Fresh.
      destruct (createClient_error host
                  (trace st ++ configure_events host primary)
                  ("file:" ++ resolved)) as [e|].
      * now apply executeCrossSiteQuery_early.
      * cbv zeta in Fresh.
        destruct (Run _ _ Fresh) as (R & ok & logged & T & S & L).
        cbn [trace libsqlClients] in *.
        split; [rewrite R, app_assoc; reflexivity|].
        split.
        -- rewrite T, !statements_app, statements_configure,
             statements_execute, S.
           change (statements [EvCreateClient _; EvInfo _]) with (@nil string).
           now rewrite !app_nil_r.
        -- split; [rewrite L; apply get_set_same|].
           exists ok, logged. split; [|exact S].
           rewrite T, (app_assoc (trace st)). reflexivity.
    + destruct U as (e & _ & U & _). rewrite U in Fresh.
      exists e. now apply executeCrossSiteQuery_early.
Qed.

Lemma federate_alone_witness :
  Js.falsy (Js.Str "creator1") = false
  /\ fst (executeCrossSiteQuery (sqlite_host [] []) (Js.Str "creator1") []
            "SELECT 1" initial)
     = direct_result (sqlite_host [] []) (trace creator1_ready) creator1_client
         "SELECT 1"
  /\ statements
       (trace
          (snd (executeCrossSiteQuery (sqlite_host [] []) (Js.Str "creator1") []
                  "SELECT 1" initial)))
     = ["SELECT 1"].
Proof.
  split; [reflexivity|].
  pose proof (federate_alone (sqlite_host [] []) (Js.Str "creator1") "SELECT 1"
                initial eq_refl) as H.
  cbv zeta in H.
  change (JsMap.get (libsqlClients initial) (Js.Str "creator1"))
    with (@None LibSQLClient) in H.
  assert (E : resolved_file (sqlite_host [] []) (Js.Str "creator1")
              = Some "/var/lib/ghost/content/data/ghost-dev-creator1.db")
    by (vm_compute; reflexivity).
  rewrite E in H.
  assert (K : createClient_error (sqlite_host [] [])
                (trace initial
                 ++ configure_events (sqlite_host [] []) (Js.Str "creator1"))
                ("file:" ++ "/var/lib/ghost/content/data/ghost-dev-creator1.db")
              = None)
    by (vm_compute; reflexivity).
  rewrite K in H. destruct H as (A & B & _).
  split; [exact A | exact B].
Defined.

(** ** Attachments stay *)











Lemma attach_statements_short host additional :
  forall index,
    length (attach_statements host index additional) <= length additional.
Proof.
  induction additional as [|siteId rest IH]; intros index; simpl; [lia|].
  destruct (attach_statement host siteId index); simpl; [|lia].
  specialize (IH (S index)). lia.
Qed.


Lemma attach_events_app host c done rest :
  forall index,
    length (attach_statements host index done) = length done ->
    attach_events host c index (done ++ rest)
    = (attach_events host c index done
       ++ attach_events host c (index + length done) rest)%list.
Proof.
  induction done as [|siteId done IH]; intros index L.
  - cbn. now rewrite Nat.add_0_r.
  - cbn [app attach_statements attach_events length] in *.
    destruct (attach_statement host siteId index) as [sql|e];
      [|discriminate L].
    cbn [length] in L. injection L as L.
    rewrite (IH (S index) L). rewrite Nat.add_succ_r. flatten. reflexivity.
Qed.

(** The ATTACH statement at a position of the list is the one of the site
    at that position, for its resolved file and under the alias of the
    position. *)
Lemma attach_statements_nth host additional :
  forall index i sql,
    nth_error (attach_statements host index additional) i = Some sql ->
    exists siteId resolved,
      nth_error additional i = Some siteId
      /\ resolved_file host siteId = Some resolved
      /\ sql = "ATTACH DATABASE '" ++ resolved ++ "' AS "
               ++ attach_alias (index + i).
Proof.
  induction additional as [|siteId rest IH]; intros index i sql H.
  - destruct i; discriminate H.
  - cbn [attach_statements] in H.
    pose proof (resolved_file_statement host siteId index) as R.
    destruct (attach_statement host siteId index) as [sql0|e] eqn:B.
    + destruct i as [|i].
      * cbn in H. injection H as <-. exists siteId.
        destruct (resolved_file host siteId) as [resolved|].
        -- exists resolved. destruct R as (R & _). injection R as ->.
           rewrite Nat.add_0_r. auto.
        -- destruct R as (e & R & _). discriminate R.
      * cbn [nth_error] in H. destruct (IH (S index) i sql H)
          as (s & r & N & F & ->).
        exists s, r. rewrite Nat.add_succ_r. auto.
    + destruct i; discriminate H.
Qed.

(** Without an event that may detach, an alias is attached after the
    events when it was before or when one of them attaches it. *)
Lemma attached_without_detach libsql alias events :
  forall before,
    existsb (detaches libsql) events = false ->
    fold_left (attachment_step libsql alias) events before
    = before || existsb (attaches libsql alias) events.
Proof.
  induction events as [|e events IH]; intros before D; simpl.
  - now rewrite orb_false_r.
  - simpl in D. apply orb_false_elim in D. destruct D as [De D].
    rewrite IH by exact D. unfold attachment_step. rewrite De.
    destruct (attaches libsql alias e); simpl.
    + now rewrite orb_true_r.
    + reflexivity.
Qed.

Lemma alias_attached_app a b libsql alias :
  alias_attached (a ++ b) libsql alias
  = fold_left (attachment_step libsql alias) b (alias_attached a libsql alias).
Proof. unfold alias_attached. apply fold_left_app. Qed.





(** ** An ATTACH that fails *)

(** C2, as the code has it: when the secondaries [done] have been attached
    and the driver refuses the ATTACH of the next one with the error [e],
    the cross-site query logs "[MultiSite] Cross-site query failed: ..." and
    throws [e] itself, the driver's error as it came.  Nothing else
    happens: the sites after the failing one are not attached, the query is
    not run, and the aliases attached so far are not detached, so every
    alias is attached or not at the end of the call as it was right after
    the last successful ATTACH. *)
Theorem failed_attach_aborts host primary done siteId rest query st c st0 st1
    sql e :
  getLibSQLClient host primary st = (Return c, st0) ->
  attach_additional host c 0 done st0 = (Return tt, st1) ->
  attach_statement host siteId (length done) = Return sql ->
  libsql_execute host (trace st1 ++ configure_events host siteId) c sql
  = inr e ->
  executeCrossSiteQuery host primary (done ++ siteId :: rest) query st
  = (Throw e,
     extend st1
       (configure_events host siteId
        ++ [EvExecute c sql false;
            EvError ("[MultiSite] Cross-site query failed: " ++ Js.message e)]))
  /\ st1 = extend st0 (attach_events host c 0 done)
  /\ forall libsql alias,
      alias_attached
        (trace st1 ++ configure_events host siteId
         ++ [EvExecute c sql false;
             EvError ("[MultiSite] Cross-site query failed: " ++ Js.message e)])
        libsql alias
      = alias_attached (trace st1) libsql alias.
Proof.
  intros G A B E. split; [|split].
  - rewrite (executeCrossSiteQuery_run host primary _ query st c st0 G).
    rewrite attach_additional_app. unfold bind at 1. rewrite A.
    cbn [Nat.add]. rewrite attach_step_run, B, E.
    rewrite !extend_extend. flatten. reflexivity.
  - pose proof (attach_additional_run host c done 0 st0) as R.
    rewrite A in R. apply R.
  - intros libsql alias. rewrite alias_attached_app.
    rewrite attached_without_detach.
    + rewrite existsb_app. rewrite configure_events_info by reflexivity.
      simpl. now rewrite orb_false_r.
    + rewrite existsb_app. rewrite configure_events_info by reflexivity.
      reflexivity.
Qed.

Lemma failed_attach_aborts_witness :
  getLibSQLClient abort_host (Js.Str "creator1") initial
  = (Return creator1_client, abort_st0)
  /\ attach_additional abort_host creator1_client 0 [Js.Str "creator2"] abort_st0
     = (Return tt, abort_st1)
  /\ attach_statement abort_host (Js.Str "creator3") 1
     = Return ("ATTACH DATABASE '" ++ creator3_file ++ "' AS site3")
  /\ libsql_execute abort_host
       (trace abort_st1 ++ configure_events abort_host (Js.Str "creator3"))
       creator1_client ("ATTACH DATABASE '" ++ creator3_file ++ "' AS site3")
     = inr (Js.DriverError "unable to open database file")
  /\ executeCrossSiteQuery abort_host (Js.Str "creator1")
       [Js.Str "creator2"; Js.Str "creator3"; Js.Str "creator4"] "SELECT 1"
       initial
     = (Throw (Js.DriverError "unable to open database file"),
        extend abort_st1
          (configure_events abort_host (Js.Str "creator3")
           ++ [EvExecute creator1_client
                 ("ATTACH DATABASE '" ++ creator3_file ++ "' AS site3") false;
               EvError "[MultiSite] Cross-site query failed: unable to open database file"])).
Proof.
  assert (G : getLibSQLClient abort_host (Js.Str "creator1") initial
              = (Return creator1_client, abort_st0)) by reflexivity.
  assert (A : attach_additional abort_host creator1_client 0 [Js.Str "creator2"]
                abort_st0 = (Return tt, abort_st1)) by reflexivity.
  assert (B : attach_statement abort_host (Js.Str "creator3")
                (length [Js.Str "creator2"])
              = Return ("ATTACH DATABASE '" ++ creator3_file ++ "' AS site3"))
    by (vm_compute; reflexivity).
  assert (E : libsql_execute abort_host
                (trace abort_st1 ++ configure_events abort_host (Js.Str "creator3"))
                creator1_client
                ("ATTACH DATABASE '" ++ creator3_file ++ "' AS site3")
              = inr (Js.DriverError "unable to open database file"))
    by (vm_compute; reflexivity).
  split; [exact G|]. split; [exact A|]. split; [exact B|]. split; [exact E|].
  exact (proj1 (failed_attach_aborts abort_host (Js.Str "creator1")
                  [Js.Str "creator2"] (Js.Str "creator3") [Js.Str "creator4"]
                  "SELECT 1" initial creator1_client abort_st0 abort_st1
                  _ (Js.DriverError "unable to open database file") G A B E)).
Defined.

(** C2 as stated fails: on a host where the database of [creator3] cannot
    be opened, the query of [creator1] with [creator2] and [creator3] throws
    the driver's own error, [site2] stays attached on the cached client, and
    the next query of [creator1] with [creator2] alone is refused because
    the alias is still in use. *)
Lemma aborted_call_leaves_alias :
  fst (executeCrossSiteQuery abort_host (Js.Str "creator1")
         [Js.Str "creator2"; Js.Str "creator3"] "SELECT 1" initial)
  = Throw (Js.DriverError "unable to open database file")
  /\ alias_attached
       (trace
          (snd (executeCrossSiteQuery abort_host (Js.Str "creator1")
                  [Js.Str "creator2"; Js.Str "creator3"] "SELECT 1" initial)))
       creator1_client "site2" = true
  /\ statements
       (trace
          (snd (executeCrossSiteQuery abort_host (Js.Str "creator1")
                  [Js.Str "creator2"; Js.Str "creator3"] "SELECT 1" initial)))
     = ["ATTACH DATABASE '/var/lib/ghost/content/data/ghost-dev-creator2.db' AS site2";
        "ATTACH DATABASE '/var/lib/ghost/content/data/ghost-dev-creator3.db' AS site3"]
  /\ fst (executeCrossSiteQuery abort_host (Js.Str "creator1")
            [Js.Str "creator2"] "SELECT 1"
            (snd (executeCrossSiteQuery abort_host (Js.Str "creator1")
                    [Js.Str "creator2"; Js.Str "creator3"] "SELECT 1" initial)))
     = Throw (Js.DriverError "database site2 is already in use").
Proof. repeat split; vm_compute; reflexivity. Qed.

(** ** Shutting down *)

Lemma connection_destroy_run host c st :
  connection_destroy host c st
  = match knex_destroy host (trace st) c with
    | None => (Return tt, extend st [EvDestroy c true])
    | Some e => (Throw e, extend st [EvDestroy c false])
    end.
Proof.
  unfold connection_destroy, bind, get_trace.
  destruct (knex_destroy host (trace st) c); reflexivity.
Qed.

Lemma client_close_run host c st :
  client_close host c st
  = match libsql_close host (trace st) c with
    | None => (Return tt, extend st [EvClose c true])
    | Some e => (Throw e, extend st [EvClose c false])
    end.
Proof.
  unfold client_close, bind, get_trace.
  destruct (libsql_close host (trace st) c); reflexivity.
Qed.

Lemma closing_run_step host h all st outcome :
  close_answer host (trace st) h = None ->
  closing_run host all
    (extend st [close_event h true; EvInfo (close_line h)]) outcome ->
  closing_run host (h :: all) st outcome.
Proof.
  intros Ok R. destruct outcome as [[u|e] st']; simpl in *.
  - subst st'. now rewrite extend_extend.
  - destruct R as (done & h' & rest & -> & A & ->).
    exists (h :: done), h', rest. split; [reflexivity|].
    rewrite extend_extend. cbn [closed_events flat_map]. flatten.
    flatten_in A. split; [exact A | reflexivity].
Qed.

Lemma destroy_connections_run host entries :
  forall st,
    closing_run host (knex_handles entries) st
      (destroy_connections host entries st).
Proof.
  induction entries as [|[siteId c] rest IH]; intros st.
  - simpl. unfold ret. now rewrite extend_nil.
  - cbn [destroy_connections knex_handles map]. unfold bind at 1.
    rewrite connection_destroy_run.
    destruct (knex_destroy host (trace st) c) as [e|] eqn:E.
    + exists [], (KnexHandle siteId c), (knex_handles rest).
      split; [reflexivity|]. simpl. rewrite app_nil_r. auto.
    + apply closing_run_step; [exact E|].
      unfold bind. rewrite logging_info_run, extend_extend. apply IH.
Qed.

Lemma close_clients_run host entries :
  forall st,
    closing_run host (client_handles entries) st (close_clients host entries st).
Proof.
  induction entries as [|[siteId c] rest IH]; intros st.
  - simpl. unfold ret. now rewrite extend_nil.
  - cbn [close_clients client_handles map]. unfold bind at 1.
    rewrite client_close_run.
    destruct (libsql_close host (trace st) c) as [e|] eqn:E.
    + exists [], (ClientHandle siteId c), (client_handles rest).
      split; [reflexivity|]. simpl. rewrite app_nil_r. auto.
    + apply closing_run_step; [exact E|].
      unfold bind. rewrite logging_info_run, extend_extend. apply IH.
Qed.

Lemma closed_events_app a b :
  closed_events (a ++ b) = (closed_events a ++ closed_events b)%list.
Proof. apply flat_map_app. Qed.

(** C7, as the code has it: [destroy] closes the tracked connections in
    insertion order and then the tracked libSQL clients, logging each one.
    When it returns, every tracked handle has been closed and both caches
    are empty.  When the driver fails to close a handle, [destroy] throws
    that error at once: the failure is not logged, the handles after it are
    not closed, and both caches keep all their entries. *)
Theorem destroy_outcome host st :
  match destroy host st with
  | (Return _, st') =>
      st' = {| connections := []; libsqlClients := [];
               currentSite := currentSite st;
               trace := (trace st ++ closed_events (handles st))%list |}
  | (Throw e, st') =>
      exists done h rest,
        handles st = (done ++ h :: rest)%list
        /\ close_answer host (trace st ++ closed_events done) h = Some e
        /\ st' = extend st (closed_events done ++ [close_event h false])
  end.
Proof.
  unfold destroy. unfold bind at 1. unfold connections_entries.
  pose proof (destroy_connections_run host (connections st) st) as R1.
  unfold bind at 1.
  destruct (destroy_connections host (connections st) st) as [[u|e] st1];
    simpl in R1.
  - subst st1. unfold bind at 1. unfold libsqlClients_entries.
    cbn [extend libsqlClients].
    pose proof (close_clients_run host (libsqlClients st)
                  (extend st (closed_events (knex_handles (connections st)))))
      as R2.
    unfold bind at 1. fold (extend st (closed_events (knex_handles (connections st)))).
    destruct (close_clients host (libsqlClients st) _) as [[u2|e] st2];
      simpl in R2.
    + subst st2. unfold clear_caches, handles. simpl.
      rewrite closed_events_app, app_assoc. reflexivity.
    + destruct R2 as (done & h & rest & Hs & A & ->).
      exists (knex_handles (connections st) ++ done)%list, h, rest.
      unfold handles. rewrite Hs, <- app_assoc. split; [reflexivity|].
      rewrite closed_events_app. flatten_in A. rewrite extend_extend.
      flatten. auto.
  - destruct R1 as (done & h & rest & Hs & A & ->).
    exists done, h, (rest ++ client_handles (libsqlClients st))%list.
    unfold handles. rewrite Hs, <- app_assoc. auto.
Qed.

(** C7 as stated fails: with two connections and one client tracked, and a
    driver that fails to destroy the first connection, [destroy] throws;
    nothing is logged about the failure, the second connection and the
    client are not closed, and all three handles are still tracked. *)
Lemma failed_close_stops_shutdown :
  length (handles three_handles) = 3
  /\ fst (destroy stuck_host three_handles) = Throw (Js.DriverError "aborted")
  /\ trace (snd (destroy stuck_host three_handles))
     = (trace three_handles ++ [EvDestroy creator1_connection false])%list
  /\ handles (snd (destroy stuck_host three_handles)) = handles three_handles.
Proof. repeat split; vm_compute; reflexivity. Qed.

(** ** The file names [configureSiteDatabase] builds *)

Lemma locator_libsql host siteId :
  String.eqb (client (database_config host)) "libsql" = true ->
  configure_outcome host siteId = Return (site_config host siteId)
  /\ locator host siteId
     = Some ("content/data/ghost-" ++ Js.text siteId ++ ".db").
Proof.
  intros L. unfold locator, site_config, configure_outcome,
    configureSiteDatabase.
  rewrite L. apply String.eqb_eq in L. rewrite L. split; reflexivity.
Qed.

Lemma locator_sqlite host siteId original :
  is_sqlite (client (database_config host)) = true ->
  filename (database_config host) = Some original ->
  configure_outcome host siteId = Return (site_config host siteId)
  /\ locator host siteId
     = Some (NodePath.join (NodePath.dirname original)
               (NodePath.basename original (NodePath.extname original)
                ++ "-" ++ Js.text siteId ++ NodePath.extname original)).
Proof.
  intros S F. unfold locator, site_config, configure_outcome,
    configureSiteDatabase.
  rewrite S, F. split; reflexivity.
Qed.

Lemma locator_resolved host siteId file :
  locator host siteId = Some file ->
  resolved_file host siteId = Some (NodePath.resolve (cwd host) file).
Proof. unfold resolved_file. now intros ->. Qed.

(** ** Site identifiers are not validated *)




(** ** The file of a site *)

Module PathFacts.

Import NodePath.
Local Open Scope list_scope.

Lemma chars_eqb_eq (a b : chars) : chars_eqb a b = true <-> a = b.
Proof.
  unfold chars_eqb. rewrite String.eqb_eq. split.
  - intros H. apply (f_equal list_ascii_of_string) in H.
    now rewrite !list_ascii_of_string_of_list_ascii in H.
  - now intros ->.
Qed.

Lemma chars_eqb_neq (a b : chars) : a <> b -> chars_eqb a b = false.
Proof.
  intros N. destruct (chars_eqb a b) eqn:E; [|reflexivity].
  apply chars_eqb_eq in E. contradiction.
Qed.

Lemma split_nonempty p : split p <> [].
Proof.
  destruct p as [|c r]; simpl; [discriminate|].
  destruct (is_slash c); [discriminate|].
  destruct (split r); discriminate.
Qed.

Lemma split_no_slash n : no_slash n -> split n = [n].
Proof.
  induction 1 as [|c r Hc Hr IH]; simpl; [reflexivity|].
  now rewrite Hc, IH.
Qed.

Lemma split_app_slash d n :
  no_slash n -> split (d ++ slash :: n) = split d ++ [n].
Proof.
  intros Hn. induction d as [|c d IH]; simpl.
  - now rewrite split_no_slash.
  - destruct (is_slash c); rewrite IH; [reflexivity|].
    pose proof (split_nonempty d) as Ne.
    destruct (split d) as [|h t]; [contradiction | reflexivity].
Qed.

Lemma normalize_step_plain allow stack n :
  plain_component n -> normalize_step allow stack n = n :: stack.
Proof.
  intros (N0 & _ & N1 & N2). unfold normalize_step.
  now rewrite !chars_eqb_neq.
Qed.

Lemma normalize_components_plain allow l n :
  plain_component n ->
  normalize_components allow (l ++ [n]) = normalize_components allow l ++ [n].
Proof.
  intros P. unfold normalize_components. rewrite fold_left_app. simpl.
  now rewrite normalize_step_plain.
Qed.

Lemma join_components_last l n :
  join_components (l ++ [n])
  = match l with
    | [] => n
    | _ => join_components l ++ slash :: n
    end.
Proof.
  induction l as [|x l IH]; [reflexivity|].
  cbn [app join_components]. rewrite IH.
  destruct l as [|y l]; [reflexivity|].
  cbn [app]. now rewrite <- app_assoc.
Qed.

(** The normal form of a path that ends in a plain component is that
    component after a prefix which the rest of the path decides. *)
Lemma normalize_string_plain d n allow :
  plain_component n ->
  normalize_string (d ++ slash :: n) allow
  = match normalize_components allow (split d) with
    | [] => []
    | l => join_components l ++ [slash]
    end ++ n.
Proof.
  intros P. unfold normalize_string.
  rewrite split_app_slash by apply P.
  rewrite normalize_components_plain by exact P.
  rewrite join_components_last.
  destruct (normalize_components allow (split d)); [reflexivity|].
  now rewrite <- app_assoc.
Qed.

Lemma no_trailing_slash p n :
  n <> [] -> no_slash n -> has_trailing_slash (p ++ n) = false.
Proof.
  intros Ne Hn. unfold has_trailing_slash. rewrite rev_app_distr.
  apply Forall_rev in Hn. destruct (rev n) as [|c r] eqn:E.
  - apply (f_equal (@rev ascii)) in E. rewrite rev_involutive in E.
    simpl in E. contradiction.
  - simpl. now inversion Hn.
Qed.

Lemma normalize_chars_plain d n :
  plain_component n ->
  d <> [] ->
  normalize_chars (d ++ slash :: n)
  = ((if is_absolute d then [slash] else [])
     ++ match normalize_components (negb (is_absolute d)) (split d) with
        | [] => []
        | l => join_components l ++ [slash]
        end) ++ n.
Proof.
  intros P Nd. destruct d as [|c d]; [contradiction|].
  unfold normalize_chars. cbn [app].
  change (c :: d ++ slash :: n) with ((c :: d) ++ slash :: n).
  rewrite normalize_string_plain by exact P.
  replace (has_trailing_slash ((c :: d) ++ slash :: n)) with false.
  2:{ symmetry. change (slash :: n) with ([slash] ++ n). rewrite app_assoc.
      apply no_trailing_slash; apply P. }
  cbn [is_absolute app].
  set (q := match normalize_components (negb (is_slash c)) (split (c :: d)) with
            | [] => []
            | _ :: _ => _
            end).
  destruct P as (Ne & _).
  destruct (q ++ n) as [|x r] eqn:E.
  - apply app_eq_nil in E. destruct E as [_ E]. contradiction.
  - rewrite <- E. destruct (is_slash c); [|reflexivity].
    now rewrite <- app_assoc.
Qed.

Lemma normalize_chars_alone n :
  plain_component n -> normalize_chars n = n.
Proof.
  intros P. pose proof P as (Ne & Hs & _).
  destruct n as [|c r]; [contradiction|].
  unfold normalize_chars, normalize_string.
  rewrite split_no_slash by exact Hs.
  change [c :: r] with ([] ++ [c :: r]).
  rewrite normalize_components_plain by exact P.
  replace (has_trailing_slash (c :: r)) with false.
  2:{ symmetry. apply (no_trailing_slash [] (c :: r)); assumption. }
  cbn [normalize_components fold_left rev app join_components is_absolute].
  inversion Hs as [|? ? Hc _]; subst. now rewrite Hc.
Qed.

(** [path.join] of a directory and a plain component is that component
    after a prefix which the directory decides, empty or ending in a
    separator. *)
Lemma join_chars_plain d :
  exists prefix,
    (prefix = [] \/ exists y, prefix = y ++ [slash])
    /\ forall n, plain_component n -> join_chars d n = prefix ++ n.
Proof.
  destruct d as [|c d].
  - exists []. split; [now left|]. intros n P. pose proof P as (Ne & _).
    destruct n as [|x r]; [contradiction|].
    cbn [join_chars app]. now apply normalize_chars_alone.
  - eexists. split.
    2:{ intros n P. pose proof P as (Ne & _).
        destruct n as [|x r]; [contradiction|].
        cbn [join_chars]. apply normalize_chars_plain; [exact P | discriminate]. }
    destruct (normalize_components (negb (is_absolute (c :: d)))
                (split (c :: d))) as [|h t].
    + destruct (is_absolute (c :: d)).
      * right. exists []. reflexivity.
      * left. reflexivity.
    + right. eexists. rewrite app_assoc. reflexivity.
Qed.

Lemma normalize_components_empty allow l :
  normalize_components allow (l ++ [[]]) = normalize_components allow l.
Proof.
  unfold normalize_components. rewrite fold_left_app. reflexivity.
Qed.

Lemma split_trailing d : split (d ++ [slash]) = split d ++ [[]].
Proof. apply (split_app_slash d []). constructor. Qed.

(** The normal form of a path that ends in a plain component and a
    separator. *)
Lemma normalize_string_trailing z n allow :
  plain_component n ->
  normalize_string (z ++ slash :: n ++ [slash]) allow
  = match normalize_components allow (split z) with
    | [] => []
    | l => join_components l ++ [slash]
    end ++ n.
Proof.
  intros P. rewrite <- (normalize_string_plain z n allow P).
  unfold normalize_string.
  change (z ++ slash :: n ++ [slash]) with (z ++ (slash :: n) ++ [slash]).
  rewrite app_assoc, split_trailing, normalize_components_empty.
  reflexivity.
Qed.

Lemma normalize_string_alone_trailing n allow :
  plain_component n -> normalize_string (n ++ [slash]) allow = n.
Proof.
  intros P. pose proof P as (_ & Hs & _). unfold normalize_string.
  rewrite split_trailing, normalize_components_empty.
  rewrite split_no_slash by exact Hs.
  change [n] with ([] ++ [n]).
  rewrite normalize_components_plain by exact P. reflexivity.
Qed.

Lemma plain_not_absolute n rest :
  plain_component n -> is_absolute (n ++ rest) = false.
Proof.
  intros (Ne & Hs & _). destruct n as [|c r]; [contradiction|].
  inversion Hs; subst. assumption.
Qed.

Lemma is_absolute_app z rest :
  is_absolute (z ++ slash :: rest)
  = match z with [] => true | c :: _ => is_slash c end.
Proof. destruct z; reflexivity. Qed.

(** [path.resolve] of a path that ends in a plain component is that
    component after a prefix which the rest of the path and the working
    directory decide. *)
Lemma resolve_chars_plain cwd prefix :
  (prefix = [] \/ exists y, prefix = y ++ [slash]) ->
  exists front, forall n, plain_component n ->
    resolve_chars cwd (prefix ++ n) = front ++ n.
Proof.
  assert (Dir : forall z, exists front, forall n, plain_component n ->
            (let resolved := z ++ slash :: n ++ [slash] in
             let absolute := is_absolute resolved in
             let q := normalize_string resolved (negb absolute) in
             if absolute then slash :: q
             else match q with [] => [dot] | _ => q end) = front ++ n).
  { intros z.
    set (a := match z with [] => true | c :: _ => is_slash c end).
    exists ((if a then [slash] else [])
            ++ match normalize_components (negb a) (split z) with
               | [] => []
               | l => join_components l ++ [slash]
               end).
    intros n P. cbv zeta.
    rewrite is_absolute_app. rewrite normalize_string_trailing by exact P.
    fold a.
    set (l := match normalize_components (negb a) (split z) with
              | [] => []
              | _ :: _ => _
              end).
    destruct a; [now rewrite <- app_assoc|].
    cbn [app]. destruct P as (Ne & _).
    destruct (l ++ n) as [|x r] eqn:E; [|reflexivity].
    apply app_eq_nil in E. destruct E as [_ E]. contradiction. }
  assert (Alone : forall n, plain_component n ->
            (let resolved := n ++ [slash] in
             let absolute := is_absolute resolved in
             let q := normalize_string resolved (negb absolute) in
             if absolute then slash :: q
             else match q with [] => [dot] | _ => q end) = n).
  { intros n P. cbv zeta. rewrite plain_not_absolute by exact P.
    rewrite normalize_string_alone_trailing by exact P.
    destruct P as (Ne & _). destruct n; [contradiction | reflexivity]. }
  intros [->|(y & ->)].
  - destruct cwd as [|c cwd].
    + exists []. intros n P. cbn [app].
      pose proof (plain_not_absolute n [] P) as NA. rewrite app_nil_r in NA.
      pose proof (Alone n P) as R.
      pose proof P as (Ne & _). destruct n as [|x r]; [contradiction|].
      unfold resolve_chars. rewrite NA. exact R.
    + destruct (Dir (c :: cwd)) as (front & D). exists front. intros n P.
      cbn [app].
      pose proof (plain_not_absolute n [] P) as NA. rewrite app_nil_r in NA.
      pose proof (D n P) as R.
      pose proof P as (Ne & _). destruct n as [|x r]; [contradiction|].
      unfold resolve_chars. rewrite NA. exact R.
  - destruct (is_absolute (y ++ [slash])) eqn:A.
    + destruct (Dir y) as (front & D). exists front. intros n P.
      unfold resolve_chars. rewrite <- app_assoc. cbn [app].
      rewrite is_absolute_app. rewrite is_absolute_app in A. rewrite A.
      destruct (y ++ slash :: n) eqn:E;
        [destruct y; discriminate E|]. rewrite <- E.
      rewrite <- app_assoc. exact (D n P).
    + destruct cwd as [|c cwd].
      * destruct (Dir y) as (front & D). exists front. intros n P.
        unfold resolve_chars. rewrite <- app_assoc. cbn [app].
        rewrite is_absolute_app. rewrite is_absolute_app in A. rewrite A.
        destruct (y ++ slash :: n) eqn:E;
          [destruct y; discriminate E|]. rewrite <- E.
        rewrite <- app_assoc. exact (D n P).
      * destruct (Dir ((c :: cwd) ++ slash :: y)) as (front & D).
        exists front. intros n P.
        unfold resolve_chars. rewrite <- app_assoc. cbn [app].
        rewrite is_absolute_app. rewrite is_absolute_app in A. rewrite A.
        destruct (y ++ slash :: n) eqn:E;
          [destruct y; discriminate E|]. rewrite <- E.
        specialize (D n P). cbv zeta in D.
        rewrite <- !app_assoc in D. cbn [app] in D.
        rewrite <- !app_assoc. cbn [app]. exact D.
Qed.

End PathFacts.

Module NameFacts.

Import NodePath.
Local Open Scope list_scope.

Lemma no_slash_until_slash p : no_slash (until_slash p).
Proof.
  induction p as [|c r IH]; simpl; [constructor|].
  destruct (is_slash c) eqn:E; constructor; assumption.
Qed.

Lemma no_slash_last_component p : no_slash (last_component p).
Proof. apply Forall_rev, no_slash_until_slash. Qed.

Lemma until_dot_prefix p before :
  until_dot p = Some before -> exists rest, p = before ++ dot :: rest.
Proof.
  revert before. induction p as [|c r IH]; simpl; intros before H;
    [discriminate|].
  destruct (is_dot c) eqn:E.
  - injection H as <-. exists r. simpl. f_equal.
    now apply Ascii.eqb_eq in E.
  - destruct (until_dot r) as [s|]; [|discriminate].
    injection H as <-. destruct (IH s eq_refl) as (rest & ->).
    now exists rest.
Qed.

Lemma component_ext_suffix comp :
  exists before, comp = before ++ component_ext comp.
Proof.
  unfold component_ext. destruct (until_dot (rev comp)) as [after|] eqn:E.
  - destruct (until_dot_prefix _ _ E) as (rest & R).
    apply (f_equal (@rev ascii)) in R. rewrite rev_involutive in R.
    rewrite rev_app_distr in R. simpl in R. rewrite <- app_assoc in R.
    simpl in R.
    destruct (Nat.eqb (length after + 1) (length comp));
      [exists comp; now rewrite app_nil_r|].
    destruct (chars_eqb comp [dot; dot]);
      [exists comp; now rewrite app_nil_r|].
    now exists (rev rest).
  - exists comp. now rewrite app_nil_r.
Qed.

Lemma no_slash_app a b : no_slash (a ++ b) <-> no_slash a /\ no_slash b.
Proof. apply Forall_app. Qed.

Lemma no_slash_extname p : no_slash (extname_chars p).
Proof.
  unfold extname_chars.
  destruct (component_ext_suffix (last_component p)) as (before & E).
  pose proof (no_slash_last_component p) as H. rewrite E in H.
  now apply no_slash_app in H.
Qed.

Lemma no_slash_basename p :
  no_slash (basename_chars p (extname_chars p)).
Proof.
  pose proof (no_slash_last_component p) as Hc.
  unfold basename_chars. destruct (extname_chars p) as [|x ext] eqn:Ex;
    [exact Hc|].
  destruct (Nat.ltb (length p) (length (x :: ext))); [exact Hc|].
  destruct (chars_eqb p (x :: ext)); [constructor|].
  destruct (Nat.ltb (length (x :: ext)) (length (last_component p))
            && ends_with (last_component p) (x :: ext)).
  - rewrite <- (firstn_skipn (length (last_component p) - length (x :: ext))
                  (last_component p)) in Hc.
    now apply no_slash_app in Hc.
  - destruct (component_ext_suffix (last_component p)) as (before & E).
    fold (extname_chars p) in E. rewrite Ex in E.
    assert (L : length (x :: ext) <= length (last_component p)).
    { rewrite E. rewrite length_app. lia. }
    apply Nat.ltb_ge in L. rewrite L. exact Hc.
Qed.

Lemma chars_append (a b : string) :
  list_ascii_of_string (a ++ b)%string
  = list_ascii_of_string a ++ list_ascii_of_string b.
Proof. induction a as [|c a IH]; simpl; [reflexivity | now rewrite IH]. Qed.

Lemma chars_injective (a b : string) :
  list_ascii_of_string a = list_ascii_of_string b -> a = b.
Proof.
  intros H. apply (f_equal string_of_list_ascii) in H.
  now rewrite !string_of_list_ascii_of_string in H.
Qed.

Lemma string_of_chars_injective (a b : chars) :
  string_of_list_ascii a = string_of_list_ascii b -> a = b.
Proof.
  intros H. apply (f_equal list_ascii_of_string) in H.
  now rewrite !list_ascii_of_string_of_list_ascii in H.
Qed.

Lemma no_slash_chars (s : string) :
  has_slash s = false -> no_slash (list_ascii_of_string s).
Proof.
  induction s as [|c s IH]; simpl; intros H; [constructor|].
  apply orb_false_elim in H. destruct H as [Hc Hs].
  constructor; [exact Hc | exact (IH Hs)].
Qed.

(** The file name given to a site next to the base file is a plain
    component when the site id has no separator in it. *)
Lemma site_file_plain original id :
  has_slash id = false ->
  let ext := extname original in
  plain_component
    (list_ascii_of_string (basename original ext ++ "-" ++ id ++ ext)%string).
Proof.
  intros Hid ext. rewrite !chars_append.
  assert (In "-"%char (list_ascii_of_string (basename original ext)
                       ++ list_ascii_of_string "-"
                       ++ list_ascii_of_string id
                       ++ list_ascii_of_string ext)) as Hin.
  { apply in_or_app. right. simpl. now left. }
  repeat split.
  - intros E. rewrite E in Hin. contradiction.
  - apply no_slash_app. split.
    + unfold basename, lift2, ext, extname, lift1.
      rewrite !list_ascii_of_string_of_list_ascii. apply no_slash_basename.
    + apply no_slash_app. split; [repeat constructor|].
      apply no_slash_app. split; [now apply no_slash_chars|].
      unfold ext, extname, lift1.
      rewrite list_ascii_of_string_of_list_ascii. apply no_slash_extname.
  - intros E. rewrite E in Hin. simpl in Hin.
    destruct Hin as [H|[]]. discriminate H.
  - intros E. rewrite E in Hin. simpl in Hin.
    destruct Hin as [H|[H|[]]]; discriminate H.
Qed.

End NameFacts.

Lemma string_app_inv_head (p a b : string) : p ++ a = p ++ b -> a = b.
Proof.
  induction p as [|c p IH]; simpl; intros H; [exact H|].
  injection H as H. auto.
Qed.

Lemma string_app_inv_tail (a b s : string) : a ++ s = b ++ s -> a = b.
Proof.
  intros H. apply NameFacts.chars_injective.
  apply (f_equal list_ascii_of_string) in H.
  rewrite !NameFacts.chars_append in H.
  now apply app_inv_tail in H.
Qed.

Lemma libsql_file_plain id :
  has_slash id = false ->
  NodePath.plain_component (list_ascii_of_string ("ghost-" ++ id ++ ".db")).
Proof.
  intros Hid. change ("ghost-" ++ id ++ ".db") with ("ghost" ++ "-" ++ id ++ ".db").
  rewrite !NameFacts.chars_append.
  assert (In "-"%char (list_ascii_of_string "ghost" ++ list_ascii_of_string "-"
                       ++ list_ascii_of_string id
                       ++ list_ascii_of_string ".db")%list) as Hin.
  { apply in_or_app. right. simpl. now left. }
  repeat split.
  - intros E. rewrite E in Hin. contradiction.
  - apply NameFacts.no_slash_app. split; [repeat constructor|].
    apply NameFacts.no_slash_app. split; [repeat constructor|].
    apply NameFacts.no_slash_app. split; [now apply NameFacts.no_slash_chars|].
    repeat constructor.
  - intros E. rewrite E in Hin. simpl in Hin.
    destruct Hin as [H|[]]. discriminate H.
  - intros E. rewrite E in Hin. simpl in Hin.
    destruct Hin as [H|[H|[]]]; discriminate H.
Qed.

(** Two paths that differ in their last, plain component only resolve to
    different paths. *)
Lemma resolve_plain_injective cwd prefix n m :
  (prefix = [] \/ exists y, prefix = (y ++ [NodePath.slash])%list) ->
  NodePath.plain_component n ->
  NodePath.plain_component m ->
  NodePath.resolve cwd (string_of_list_ascii (prefix ++ n))
  = NodePath.resolve cwd (string_of_list_ascii (prefix ++ m)) ->
  n = m.
Proof.
  intros Shape Pn Pm H. unfold NodePath.resolve, NodePath.lift2 in H.
  apply NameFacts.string_of_chars_injective in H.
  rewrite !list_ascii_of_string_of_list_ascii in H.
  destruct (PathFacts.resolve_chars_plain (list_ascii_of_string cwd) prefix Shape)
    as (front & R).
  rewrite (R n Pn), (R m Pm) in H. now apply app_inv_head in H.
Qed.

(** C9, as the code has it: the configuration of a site is a function of
    the site id and the base configuration alone, the same in every state.
    For a libSQL configuration the file name it gives is different for
    different string ids, and so is the file that is opened, the resolved
    file name, for ids that have no [/] in them; the same holds for an
    SQLite configuration with a file name, for ids without a [/].  For any
    other client the base configuration comes back as it is, whatever the
    site, and an SQLite configuration without a file name makes the
    derivation throw for every site. *)
Theorem locator_deterministic_injective host :
  (forall siteId base st1 st2,
      fst (configureSiteDatabase siteId base st1)
      = fst (configureSiteDatabase siteId base st2))
  /\ (String.eqb (client (database_config host)) "libsql" = true ->
      (forall a b,
          locator host (Js.Str a) = locator host (Js.Str b) -> a = b)
      /\ (forall a b,
             has_slash a = false -> has_slash b = false ->
             resolved_file host (Js.Str a) = resolved_file host (Js.Str b) ->
             a = b))
  /\ (is_sqlite (client (database_config host)) = true ->
      filename (database_config host) <> None ->
      forall a b,
        has_slash a = false -> has_slash b = false ->
        (locator host (Js.Str a) = locator host (Js.Str b) -> a = b)
        /\ (resolved_file host (Js.Str a) = resolved_file host (Js.Str b) ->
            a = b))
  /\ (is_sqlite (client (database_config host)) = false ->
      String.eqb (client (database_config host)) "libsql" = false ->
      forall siteId st,
        configureSiteDatabase siteId (database_config host) st
        = (Return (database_config host), st))
  /\ (is_sqlite (client (database_config host)) = true ->
      filename (database_config host) = None ->
      forall siteId st,
        configureSiteDatabase siteId (database_config host) st
        = (Throw (Js.invalid_arg_type "path"), st)).
Proof.
  split; [|split; [|split; [|split]]].
  - intros siteId base st1 st2.
    rewrite (configureSiteDatabase_frame siteId base st1).
    rewrite (configureSiteDatabase_frame siteId base st2). reflexivity.
  - intros L. split.
    + intros a b. rewrite !(proj2 (locator_libsql host _ L)). cbn [Js.text].
      intros H. injection H as H.
      now apply string_app_inv_tail in H.
    + intros a b Ha Hb.
      rewrite !(locator_resolved _ _ _ (proj2 (locator_libsql host _ L))).
      intros H. injection H as H.
      assert (H' : NodePath.resolve (cwd host)
                     (string_of_list_ascii
                        (list_ascii_of_string "content/data/"
                         ++ list_ascii_of_string ("ghost-" ++ a ++ ".db"))%list)
                   = NodePath.resolve (cwd host)
                       (string_of_list_ascii
                          (list_ascii_of_string "content/data/"
                           ++ list_ascii_of_string ("ghost-" ++ b ++ ".db"))%list)).
      { rewrite <- !NameFacts.chars_append, !string_of_list_ascii_of_string.
        exact H. }
      apply resolve_plain_injective in H'.
      * apply NameFacts.chars_injective in H'.
        apply (string_app_inv_head "ghost-") in H'.
        now apply string_app_inv_tail in H'.
      * right. exists (list_ascii_of_string "content/data"). reflexivity.
      * now apply libsql_file_plain.
      * now apply libsql_file_plain.
  - intros S F a b Ha Hb.
    destruct (filename (database_config host)) as [original|] eqn:O;
      [|contradiction].
    destruct (PathFacts.join_chars_plain
                (list_ascii_of_string (NodePath.dirname original)))
      as (prefix & Shape & J).
    assert (Loc : forall id,
               has_slash id = false ->
               locator host (Js.Str id)
               = Some (string_of_list_ascii
                         (prefix
                          ++ list_ascii_of_string
                               (NodePath.basename original
                                  (NodePath.extname original)
                                ++ "-" ++ id ++ NodePath.extname original))%list)).
    { intros id Hid.
      rewrite (proj2 (locator_sqlite host (Js.Str id) original S O)).
      cbn [Js.text]. unfold NodePath.join, NodePath.lift2.
      rewrite J by (apply NameFacts.site_file_plain; assumption).
      reflexivity. }
    assert (Name : forall x y : string,
               list_ascii_of_string
                 (NodePath.basename original (NodePath.extname original)
                  ++ "-" ++ x ++ NodePath.extname original)
               = list_ascii_of_string
                   (NodePath.basename original (NodePath.extname original)
                    ++ "-" ++ y ++ NodePath.extname original) ->
               x = y).
    { intros x y H. apply NameFacts.chars_injective in H.
      apply string_app_inv_head in H. apply string_app_inv_head in H.
      now apply string_app_inv_tail in H. }
    split.
    + rewrite (Loc a Ha), (Loc b Hb). intros H. injection H as H.
      apply NameFacts.string_of_chars_injective in H.
      apply app_inv_head in H. now apply Name.
    + rewrite (locator_resolved _ _ _ (Loc a Ha)).
      rewrite (locator_resolved _ _ _ (Loc b Hb)).
      intros H. injection H as H.
      apply resolve_plain_injective in H;
        [now apply Name | exact Shape | |];
        apply NameFacts.site_file_plain; assumption.
  - intros S L siteId st. rewrite configureSiteDatabase_run.
    destruct (configure_cases host siteId)
      as [(S' & _)|[(c & f & l & _ & _ & _ & _ & [S'|L'])|(_ & _ & -> & ->)]];
      try congruence.
    now rewrite extend_nil.
  - intros S F siteId st. rewrite configureSiteDatabase_run.
    destruct (configure_cases host siteId)
      as [(_ & _ & -> & ->)|[(c & f & l & C & Fc & _)|(S' & _)]];
      try congruence.
    + now rewrite extend_nil.
    + exfalso. unfold configure_outcome, configureSiteDatabase in C.
      rewrite S, F in C. discriminate C.
Qed.

Lemma locator_deterministic_injective_witness :
  (String.eqb (client (database_config libsql_host)) "libsql" = true
   /\ forall a b,
       locator libsql_host (Js.Str a) = locator libsql_host (Js.Str b) -> a = b)
  /\ (is_sqlite (client (database_config (sqlite_host [] []))) = true
      /\ filename (database_config (sqlite_host [] [])) <> None
      /\ has_slash "creator1" = false
      /\ forall b,
          has_slash b = false ->
          resolved_file (sqlite_host [] []) (Js.Str "creator1")
          = resolved_file (sqlite_host [] []) (Js.Str b) ->
          "creator1" = b).
Proof.
  split.
  - split; [reflexivity|].
    apply (proj1 (proj1 (proj2 (locator_deterministic_injective libsql_host))
                    eq_refl)).
  - split; [reflexivity|]. split; [discriminate|]. split; [reflexivity|].
    intros b Hb.
    assert (F : filename (database_config (sqlite_host [] [])) <> None)
      by discriminate.
    apply (proj2 (proj1 (proj2 (proj2
                    (locator_deterministic_injective (sqlite_host [] []))))
                    eq_refl F "creator1" b eq_refl Hb)).
Defined.

(** C9 as stated fails: locator derivation is not injective.  With a
    MySQL base configuration every site gets the base configuration itself;
    with the SQLite one a site id that climbs out of its file name gets the
    file of site [creator2]; and with a libSQL one two sites whose file
    names differ open one and the same file. *)
Lemma distinct_sites_share_locator :
  Js.Str "creator1" <> Js.Str "creator2"
  /\ configure_outcome mysql_host (Js.Str "creator1")
     = configure_outcome mysql_host (Js.Str "creator2")
  /\ configure_outcome mysql_host (Js.Str "creator1")
     = Return (database_config mysql_host)
  /\ Js.Str climbing_id <> Js.Str "creator2"
  /\ locator (sqlite_host [] []) (Js.Str climbing_id)
     = Some "content/data/ghost-dev-creator2.db"
  /\ locator (sqlite_host [] []) (Js.Str "creator2")
     = Some "content/data/ghost-dev-creator2.db"
  /\ Js.Str "b/../ghost-a" <> Js.Str "a"
  /\ resolved_file libsql_host (Js.Str "b/../ghost-a")
     = Some "/var/lib/ghost/content/data/ghost-a.db"
  /\ resolved_file libsql_host (Js.Str "a")
     = Some "/var/lib/ghost/content/data/ghost-a.db".
Proof.
  split; [discriminate|]. split; [reflexivity|]. split; [reflexivity|].
  split; [discriminate|]. split; [vm_compute; reflexivity|].
  split; [vm_compute; reflexivity|]. split; [discriminate|].
  split; vm_compute; reflexivity.
Qed.


(** * More about the manager *)

(** ** The cache of libSQL clients *)

(** X1: for a site id that is given, a cached libSQL client comes back as
    it is, with the state untouched.  Without one, [getLibSQLClient]
    returns whenever the site has a file name and [createClient] accepts
    the url made of its resolved file: exactly one client is made, for that
    url, put in the cache under the site id and returned, and a second call
    right after it returns the same object and changes nothing.  When
    building the url or [createClient] throws, that error is thrown, no
    client is made and nothing is cached. *)
Theorem getLibSQLClient_twice host siteId st :
  Js.falsy siteId = false ->
  match JsMap.get (libsqlClients st) siteId with
  | Some cached => getLibSQLClient host siteId st = (Return cached, st)
  | None =>
      match getLibSQLClient host siteId st with
      | (Return libsql, st1) =>
          getLibSQLClient host siteId st1 = (Return libsql, st1)
          /\ clients_created (trace st1)
             = (clients_created (trace st) ++ [libsql])%list
          /\ libsqlClients st1 = (libsqlClients st ++ [(siteId, libsql)])%list
          /\ exists resolved,
              resolved_file host siteId = Some resolved
              /\ client_url libsql = "file:" ++ resolved
      | (Throw e, st1) =>
          libsqlClients st1 = libsqlClients st
          /\ clients_created (trace st1) = clients_created (trace st)
          /\ (client_url_for host siteId = Throw e
              \/ exists url,
                  client_url_for host siteId = Return url
                  /\ createClient_error host
                       (trace st ++ configure_events host siteId) url = Some e)
      end
      /\ forall resolved,
          resolved_file host siteId = Some resolved ->
          createClient_error host (trace st ++ configure_events host siteId)
            ("file:" ++ resolved) = None ->
          exists libsql st1,
            getLibSQLClient host siteId st = (Return libsql, st1)
  end.
Proof.
  intros F. destruct (JsMap.get (libsqlClients st) siteId) as [cached|] eqn:G.
  - now apply getLibSQLClient_cached.
  - rewrite (getLibSQLClient_fresh host siteId st F G).
    pose proof (resolved_file_statement host siteId 0) as U.
    assert (Q : clients_created (trace st ++ configure_events host siteId)
                = clients_created (trace st)).
    { rewrite clients_created_app.
      destruct (configure_events_quiet host siteId) as (_ & -> & _).
      apply app_nil_r. }
    destruct (resolved_file host siteId) as [resolved|].
    + destruct U as (_ & -> & _).
      destruct (createClient_error host
                  (trace st ++ configure_events host siteId)
                  ("file:" ++ resolved)) as [e|] eqn:K.
      * split.
        -- cbn [extend libsqlClients trace]. split; [reflexivity|].
           split; [exact Q|]. right. eauto.
        -- intros r E. injection E as <-. congruence.
      * cbv zeta. split.
        -- split; [|split; [|split]].
           ++ apply getLibSQLClient_cached; [exact F|]. simpl.
              apply get_set_same.
           ++ cbn [trace]. rewrite app_assoc, clients_created_app, Q.
              reflexivity.
           ++ simpl. now apply set_absent.
           ++ exists resolved. split; reflexivity.
        -- intros r E K'. eexists. eexists. reflexivity.
    + destruct U as (e & _ & -> & _). split.
      * cbn [extend libsqlClients trace]. split; [reflexivity|].
        split; [exact Q|]. now left.
      * intros r E. discriminate E.
Qed.

Lemma getLibSQLClient_twice_witness :
  Js.falsy (Js.Str "creator1") = false
  /\ exists libsql st1,
       getLibSQLClient (sqlite_host [] []) (Js.Str "creator1") initial
       = (Return libsql, st1)
       /\ getLibSQLClient (sqlite_host [] []) (Js.Str "creator1") st1
          = (Return libsql, st1)
       /\ clients_created (trace st1) = [libsql].
Proof.
  split; [reflexivity|].
  pose proof (getLibSQLClient_twice (sqlite_host [] []) (Js.Str "creator1")
                initial eq_refl) as H.
  cbn [JsMap.get libsqlClients initial] in H. destruct H as [H Ex].
  destruct (Ex "/var/lib/ghost/content/data/ghost-dev-creator1.db")
    as (libsql & st1 & R); [vm_compute; reflexivity | reflexivity |].
  rewrite R in H. destruct H as (A & B & _).
  exists libsql, st1. split; [exact R|]. split; [exact A | exact B].
Defined.

(** ** What each method does to the state *)

Lemma only_info_nil : only_info [].
Proof. reflexivity. Qed.

Lemma quiet_closed_events hs : quiet (closed_events hs).
Proof.
  unfold quiet. induction hs as [|h hs IH]; simpl; [reflexivity|].
  destruct h; simpl; exact IH.
Qed.

(** The state after [getSiteConnection]: as before but for log lines, or
    with one more connection. *)
Lemma getSiteConnection_state host siteId st :
  (exists events,
      only_info events
      /\ snd (getSiteConnection host siteId st) = extend st events)
  \/ (Js.falsy siteId = false
      /\ JsMap.get (connections st) siteId = None
      /\ exists connection,
          conn_id connection = length (trace st ++ configure_events host siteId)
          /\ configure_outcome host siteId = Return (conn_config connection)
          /\ getSiteConnection host siteId st
             = (Return connection,
                {| connections := (connections st ++ [(siteId, connection)])%list;
                   libsqlClients := libsqlClients st;
                   currentSite := currentSite st;
                   trace :=
                     (trace st ++ configure_events host siteId
                      ++ [EvKnex connection;
                          EvInfo ("[MultiSite] Created new database connection for site: "
                                  ++ Js.text siteId)])%list |})).
Proof.
  destruct (Js.falsy siteId) eqn:F.
  - left. exists []. split; [reflexivity|].
    unfold getSiteConnection. rewrite F. cbn. now rewrite extend_nil.
  - destruct (JsMap.get (connections st) siteId) as [c|] eqn:G.
    + left. exists []. split; [reflexivity|].
      rewrite (getSiteConnection_cached host siteId st c F G). cbn.
      now rewrite extend_nil.
    + rewrite (getSiteConnection_fresh host siteId st F G).
      destruct (configure_outcome host siteId) as [config|e] eqn:C.
      * destruct (knex_error host (trace st ++ configure_events host siteId)
                    config) as [e|].
        -- left. eexists. split; [apply configure_events_only_info|].
           reflexivity.
        -- right. split; [reflexivity|]. split; [reflexivity|].
           cbv zeta. eexists. split; [|split]; [| |].
           3:{ rewrite (set_absent _ _ _ G). reflexivity. }
           all: reflexivity.
      * left. eexists. split; [apply configure_events_only_info|].
        reflexivity.
Qed.

(** The state after [getLibSQLClient]: as before but for log lines, or
    with one more client. *)
Lemma getLibSQLClient_state host siteId st :
  (exists events,
      only_info events
      /\ snd (getLibSQLClient host siteId st) = extend st events)
  \/ (Js.falsy siteId = false
      /\ JsMap.get (libsqlClients st) siteId = None
      /\ exists libsql,
          client_id libsql = length (trace st ++ configure_events host siteId)
          /\ client_url_for host siteId = Return (client_url libsql)
          /\ getLibSQLClient host siteId st
             = (Return libsql,
                {| connections := connections st;
                   libsqlClients := (libsqlClients st ++ [(siteId, libsql)])%list;
                   currentSite := currentSite st;
                   trace :=
                     (trace st ++ configure_events host siteId
                      ++ [EvCreateClient libsql;
                          EvInfo ("[MultiSite] Created libSQL client for site: "
                                  ++ Js.text siteId)])%list |})).
Proof.
  destruct (Js.falsy siteId) eqn:F.
  - left. exists []. split; [reflexivity|].
    unfold getLibSQLClient. rewrite F. cbn. now rewrite extend_nil.
  - destruct (JsMap.get (libsqlClients st) siteId) as [c|] eqn:G.
    + left. exists []. split; [reflexivity|].
      rewrite (getLibSQLClient_cached host siteId st c F G). cbn.
      now rewrite extend_nil.
    + rewrite (getLibSQLClient_fresh host siteId st F G).
      destruct (client_url_for host siteId) as [url|e] eqn:C.
      * destruct (createClient_error host
                    (trace st ++ configure_events host siteId) url) as [e|].
        -- left. eexists. split; [apply configure_events_only_info|].
           reflexivity.
        -- right. split; [reflexivity|]. split; [reflexivity|].
           cbv zeta. eexists. split; [|split]; [| |].
           3:{ rewrite (set_absent _ _ _ G). reflexivity. }
           all: reflexivity.
      * left. eexists. split; [apply configure_events_only_info|].
        reflexivity.
Qed.

(** The state after a cross-site query: the state [getLibSQLClient] leaves
    for the primary site, and then events that make no handle. *)
Lemma executeCrossSiteQuery_state host primary additional query st :
  exists events,
    quiet events
    /\ snd (executeCrossSiteQuery host primary additional query st)
       = extend (snd (getLibSQLClient host primary st)) events.
Proof.
  destruct (getLibSQLClient host primary st) as [[c|e0] st0] eqn:G.
  - rewrite (executeCrossSiteQuery_run host primary additional query st c st0 G).
    cbn [snd].
    pose proof (attach_additional_run host c additional 0 st0) as R.
    destruct (attach_additional host c 0 additional st0) as [[u|e] st1].
    + destruct R as [-> _].
      destruct (libsql_execute host _ c query) as [rows|e]; cbn [snd];
        rewrite extend_extend; eexists; (split; [|reflexivity]);
        (apply quiet_app; [apply quiet_attach_events | reflexivity]).
    + destruct R as (done & siteId & rest & -> & _ & Ho). cbv zeta in Ho.
      destruct (attach_statement host siteId (0 + length done)) as [sql|e'].
      * destruct Ho as [_ ->]. cbn [snd]. rewrite extend_extend.
        eexists. split; [|reflexivity].
        apply quiet_app; [|reflexivity].
        apply quiet_app; [|reflexivity].
        apply quiet_app; [apply quiet_attach_events | apply quiet_configure].
      * destruct Ho as [_ ->]. cbn [snd]. rewrite extend_extend.
        eexists. split; [|reflexivity].
        apply quiet_app; [|reflexivity].
        apply quiet_app; [apply quiet_attach_events | apply quiet_configure].
  - rewrite (executeCrossSiteQuery_early host primary additional query st e0
               st0 G).
    exists []. split; [reflexivity|]. cbn [snd]. now rewrite extend_nil.
Qed.

Lemma destroy_run host st :
  destroy host st
  = match destroy_connections host (connections st) st with
    | (Return _, st1) =>
        match close_clients host (libsqlClients st1) st1 with
        | (Return _, st2) => clear_caches st2
        | (Throw e, st2) => (Throw e, st2)
        end
    | (Throw e, st1) => (Throw e, st1)
    end.
Proof.
  unfold destroy, bind, connections_entries, libsqlClients_entries.
  destruct (destroy_connections host (connections st) st) as [[u|e] st1];
    [|reflexivity].
  destruct (close_clients host (libsqlClients st1) st1) as [[u2|e] st2];
    reflexivity.
Qed.

(** The state after [destroy]: both caches emptied, or both as they were,
    and in either case some events that make no handle. *)
Lemma destroy_state host st :
  exists events,
    quiet events
    /\ let st' := snd (destroy host st) in
       (fst (destroy host st) = Return tt
        /\ st' = {| connections := []; libsqlClients := [];
                    currentSite := currentSite st;
                    trace := (trace st ++ events)%list |})
       \/ ((exists e, fst (destroy host st) = Throw e)
           /\ st' = extend st events).
Proof.
  rewrite destroy_run. cbv zeta.
  pose proof (destroy_connections_run host (connections st) st) as R1.
  destruct (destroy_connections host (connections st) st) as [[u|e] st1];
    simpl in R1.
  - subst st1. cbn [extend libsqlClients].
    pose proof (close_clients_run host (libsqlClients st)
                  (extend st (closed_events (knex_handles (connections st)))))
      as R2.
    fold (extend st (closed_events (knex_handles (connections st)))).
    destruct (close_clients host (libsqlClients st) _) as [[u2|e] st2];
      simpl in R2.
    + subst st2. eexists. split; [|left; split; [reflexivity|]].
      2:{ unfold clear_caches, extend. cbn [snd currentSite trace].
          f_equal. symmetry. apply app_assoc. }
      apply quiet_app; apply quiet_closed_events.
    + destruct R2 as (done & h & rest & Hs & A & ->).
      eexists. split; [|right; split; [eexists; reflexivity|]].
      2:{ cbn [snd]. apply extend_extend. }
      apply quiet_app; [apply quiet_closed_events|].
      apply quiet_app; [apply quiet_closed_events|].
      destruct h; reflexivity.
  - destruct R1 as (done & h & rest & Hs & A & ->).
    eexists. split; [|right; split; [eexists; reflexivity | reflexivity]].
    apply quiet_app; [apply quiet_closed_events|]. destruct h; reflexivity.
Qed.

(** ** The two caches are kept apart *)

Lemma sessions_statements_quiet_info events line :
  sessions_opened (events ++ [EvInfo line]) = sessions_opened events
  /\ clients_created (events ++ [EvInfo line]) = clients_created events
  /\ statements (events ++ [EvInfo line]) = statements events.
Proof.
  rewrite sessions_opened_app, clients_created_app, statements_app. simpl.
  now rewrite !app_nil_r.
Qed.

Lemma only_info_silent st events :
  only_info events ->
  sessions_opened (trace (extend st events)) = sessions_opened (trace st)
  /\ clients_created (trace (extend st events)) = clients_created (trace st)
  /\ statements (trace (extend st events)) = statements (trace st).
Proof.
  intros O. cbn [extend trace].
  rewrite sessions_opened_app, clients_created_app, statements_app.
  unfold sessions_opened at 2, clients_created at 2, statements at 2.
  rewrite !(only_info_flat_map events) by (try exact O; reflexivity).
  now rewrite !app_nil_r.
Qed.

(** X2: [getSiteConnection] and [createSite] leave the cache of libSQL
    clients alone and make no client; [getLibSQLClient] leaves the cache of
    connections alone and makes no knex instance; none of the three sends a
    statement to a database. *)
Theorem caches_do_not_mix host siteId st :
  (libsqlClients (snd (getSiteConnection host siteId st)) = libsqlClients st
   /\ clients_created (trace (snd (getSiteConnection host siteId st)))
      = clients_created (trace st)
   /\ statements (trace (snd (getSiteConnection host siteId st)))
      = statements (trace st))
  /\ (libsqlClients (snd (createSite host siteId st)) = libsqlClients st
      /\ clients_created (trace (snd (createSite host siteId st)))
         = clients_created (trace st)
      /\ statements (trace (snd (createSite host siteId st)))
         = statements (trace st))
  /\ (connections (snd (getLibSQLClient host siteId st)) = connections st
      /\ sessions_opened (trace (snd (getLibSQLClient host siteId st)))
         = sessions_opened (trace st)
      /\ statements (trace (snd (getLibSQLClient host siteId st)))
         = statements (trace st)).
Proof.
  assert (A : libsqlClients (snd (getSiteConnection host siteId st))
              = libsqlClients st
              /\ clients_created (trace (snd (getSiteConnection host siteId st)))
                 = clients_created (trace st)
              /\ statements (trace (snd (getSiteConnection host siteId st)))
                 = statements (trace st)).
  { destruct (getSiteConnection_state host siteId st)
      as [(events & O & ->)|(_ & _ & c & _ & _ & ->)].
    - destruct (only_info_silent st events O) as (_ & B & C). auto.
    - cbn [snd libsqlClients trace]. split; [reflexivity|].
      rewrite !clients_created_app, !statements_app.
      rewrite (quiet_clients _ (quiet_configure host siteId)).
      rewrite statements_configure. simpl. now rewrite !app_nil_r. }
  split; [exact A|]. split.
  - rewrite createSite_run.
    destruct (JsMap.has (connections st) siteId); [auto|].
    destruct (getSiteConnection host siteId st) as [[c|e] st1];
      cbn [snd] in *; [|exact A].
    destruct A as (A1 & A2 & A3). cbn [extend libsqlClients trace].
    destruct (sessions_statements_quiet_info (trace st1)
                ("[MultiSite] Site " ++ Js.text siteId
                 ++ " database created and ready")) as (_ & -> & ->).
    auto.
  - destruct (getLibSQLClient_state host siteId st)
      as [(events & O & ->)|(_ & _ & c & _ & _ & ->)].
    + destruct (only_info_silent st events O) as (B & _ & C). auto.
    + cbn [snd connections trace]. split; [reflexivity|].
      rewrite !sessions_opened_app, !statements_app.
      rewrite (quiet_sessions _ (quiet_configure host siteId)).
      rewrite statements_configure. simpl. now rewrite !app_nil_r.
Qed.

(** X3: a cross-site query makes no connection and caches none, and the
    only libSQL client it can make or cache is the primary site's: the
    cache entry of every other site, the additional sites among them, is
    what it was, and at most one client is made in the call. *)
Theorem cross_site_query_handles host primary additional query st :
  connections (snd (executeCrossSiteQuery host primary additional query st))
  = connections st
  /\ sessions_opened
       (trace (snd (executeCrossSiteQuery host primary additional query st)))
     = sessions_opened (trace st)
  /\ (forall siteId,
         siteId <> primary ->
         JsMap.get
           (libsqlClients
              (snd (executeCrossSiteQuery host primary additional query st)))
           siteId
         = JsMap.get (libsqlClients st) siteId)
  /\ (clients_created
        (trace (snd (executeCrossSiteQuery host primary additional query st)))
      = clients_created (trace st)
      \/ exists libsql,
          JsMap.get (libsqlClients st) primary = None
          /\ JsMap.get
               (libsqlClients
                  (snd (executeCrossSiteQuery host primary additional query st)))
               primary = Some libsql
          /\ clients_created
               (trace
                  (snd (executeCrossSiteQuery host primary additional query st)))
             = (clients_created (trace st) ++ [libsql])%list).
Proof.
  destruct (executeCrossSiteQuery_state host primary additional query st)
    as (events & Q & ->).
  cbn [extend connections libsqlClients trace].
  rewrite sessions_opened_app, clients_created_app.
  rewrite (quiet_sessions _ Q), (quiet_clients _ Q), !app_nil_r.
  destruct (getLibSQLClient_state host primary st)
    as [(ev & O & ->)|(F & G & c & _ & _ & ->)].
  - destruct (only_info_silent st ev O) as (A & B & _).
    cbn [extend connections libsqlClients]. auto.
  - cbn [snd connections libsqlClients trace].
    rewrite !sessions_opened_app, !clients_created_app.
    rewrite (quiet_sessions _ (quiet_configure host primary)).
    rewrite (quiet_clients _ (quiet_configure host primary)).
    simpl. rewrite !app_nil_r.
    split; [reflexivity|]. split; [reflexivity|]. split.
    + intros siteId N. rewrite <- (set_absent _ _ c G).
      now apply get_set_other.
    + right. exists c. split; [exact G|]. split; [|reflexivity].
      rewrite <- (set_absent _ _ c G). apply get_set_same.
Qed.

(** ** The stored current site *)

Lemma ignores_keeps_current_site {A : Type} (c : Action A) st :
  ignores_current_site c -> currentSite (snd (c st)) = currentSite st.
Proof.
  intros H. specialize (H st (currentSite st)).
  assert (E : with_current_site st (currentSite st) = st) by now destruct st.
  rewrite E in H. apply (f_equal snd) in H. simpl in H.
  rewrite H at 1. reflexivity.
Qed.

Lemma perform_keeps_current_site host call st :
  sets_current_site call = false ->
  currentSite (perform host call st) = currentSite st.
Proof.
  destruct call; simpl; intros H; try discriminate;
    try (apply ignores_keeps_current_site).
  - apply ignores_configureSiteDatabase.
  - apply ignores_getSiteConnection.
  - apply ignores_getLibSQLClient.
  - apply ignores_executeCrossSiteQuery.
  - reflexivity.
  - apply ignores_createSite.
  - apply ignores_destroy.
Qed.

(** X4: the current site is what the last [setCurrentSite] stored,
    whatever else has been called since: no other method, [destroy]
    included, changes or resets it. *)
Theorem current_site_survives host siteId calls st :
  forallb (fun call => negb (sets_current_site call)) calls = true ->
  fst (getCurrentSite
         (perform_all host calls (snd (setCurrentSite siteId st))))
  = Return siteId.
Proof.
  intros H. unfold getCurrentSite. cbn [fst]. f_equal.
  assert (G : forall s, currentSite (perform_all host calls s) = currentSite s).
  { induction calls as [|call calls IH]; intros s; [reflexivity|].
    simpl in H. apply andb_true_iff in H. destruct H as [Hc H].
    cbn [perform_all fold_left]. fold (perform_all host calls (perform host call s)).
    rewrite (IH H). apply perform_keeps_current_site.
    now apply negb_true_iff in Hc. }
  rewrite G. reflexivity.
Qed.

Lemma current_site_survives_witness :
  forallb (fun call => negb (sets_current_site call))
    [CallCreateSite (Js.Str "creator2"); CallDestroy] = true
  /\ fst (getCurrentSite
            (perform_all (sqlite_host [] [])
               [CallCreateSite (Js.Str "creator2"); CallDestroy]
               (snd (setCurrentSite (Js.Str "creator1") initial))))
     = Return (Js.Str "creator1").
Proof.
  split; [reflexivity|].
  apply (current_site_survives (sqlite_host [] []) (Js.Str "creator1")
           [CallCreateSite (Js.Str "creator2"); CallDestroy] initial).
  reflexivity.
Defined.

(** ** What the caches always hold *)

Lemma stamped_nil : stamped [].
Proof. intros i e H. destruct i; discriminate. Qed.

Lemma stamped_quiet events more :
  stamped events -> quiet more -> stamped (events ++ more).
Proof.
  intros S Q i e H. destruct (Nat.lt_ge_cases i (length events)) as [L|L].
  - rewrite nth_error_app1 in H by exact L. now apply S.
  - rewrite nth_error_app2 in H by exact L.
    apply nth_error_In in H. unfold quiet in Q.
    rewrite forallb_forall in Q. specialize (Q e H).
    destruct e; simpl in Q; try discriminate; exact I.
Qed.

Lemma stamped_handle events e :
  stamped events ->
  match e with
  | EvKnex c => conn_id c = length events
  | EvCreateClient c => client_id c = length events
  | _ => True
  end ->
  stamped (events ++ [e]).
Proof.
  intros S He i e' H. destruct (Nat.lt_ge_cases i (length events)) as [L|L].
  - rewrite nth_error_app1 in H by exact L. now apply S.
  - rewrite nth_error_app2 in H by exact L.
    destruct (i - length events) as [|n] eqn:D.
    + simpl in H. injection H as <-.
      assert (i = length events) by lia. subst i. exact He.
    + simpl in H. destruct n; discriminate.
Qed.

Lemma stamped_knex_bound events c :
  stamped events -> In (EvKnex c) events -> conn_id c < length events.
Proof.
  intros S H. apply In_nth_error in H. destruct H as (i & H).
  rewrite (S i _ H). apply nth_error_Some. congruence.
Qed.

Lemma stamped_client_bound events c :
  stamped events -> In (EvCreateClient c) events -> client_id c < length events.
Proof.
  intros S H. apply In_nth_error in H. destruct H as (i & H).
  rewrite (S i _ H). apply nth_error_Some. congruence.
Qed.

Lemma get_none_not_key {V : Type} (m : list (Js.Value * V)) k :
  JsMap.get m k = None -> ~ In k (map fst m).
Proof.
  induction m as [|[k' v] m IH]; simpl; [tauto|].
  destruct (Js.value_eqb k' k) eqn:E; [discriminate|].
  intros G [H|H].
  - subst k'. rewrite value_eqb_refl in E. discriminate.
  - now apply IH.
Qed.

Lemma get_of_entry {V : Type} (m : list (Js.Value * V)) k v :
  NoDup (map fst m) -> In (k, v) m -> JsMap.get m k = Some v.
Proof.
  induction m as [|[k' v'] m IH]; simpl; [tauto|].
  intros N H. inversion N as [|? ? Hn N']; subst.
  destruct H as [H|H].
  - injection H as -> ->. now rewrite value_eqb_refl.
  - destruct (Js.value_eqb k' k) eqn:E.
    + apply value_eqb_eq in E. subst k'. exfalso. apply Hn.
      apply in_map_iff. now exists (k, v).
    + now apply IH.
Qed.

Lemma entry_of_get {V : Type} (m : list (Js.Value * V)) k v :
  JsMap.get m k = Some v -> In (k, v) m.
Proof.
  induction m as [|[k' v'] m IH]; simpl; [discriminate|].
  destruct (Js.value_eqb k' k) eqn:E.
  - intros H. injection H as ->. apply value_eqb_eq in E. subst. now left.
  - intros H. right. now apply IH.
Qed.

Lemma NoDup_snoc {A : Type} (l : list A) x :
  NoDup l -> ~ In x l -> NoDup (l ++ [x]).
Proof.
  induction l as [|a l IH]; simpl; intros N H.
  - repeat constructor. simpl. tauto.
  - inversion N as [|? ? Ha N']; subst. constructor.
    + intros Hin. apply in_app_or in Hin. destruct Hin as [Hin|[Hin|[]]].
      * contradiction.
      * subst. apply H. now left.
    + apply IH; [exact N'|]. intros Hx. apply H. now right.
Qed.

Lemma coherent_initial host : coherent host initial.
Proof.
  constructor; simpl; try constructor; try tauto. apply stamped_nil.
Qed.

Lemma coherent_extend host st events :
  coherent host st -> quiet events -> coherent host (extend st events).
Proof.
  intros [S K1 K2 I1 I2 C1 C2] Q. constructor; simpl; auto.
  - now apply stamped_quiet.
  - intros k c H. destruct (C1 k c H) as (F & E & T).
    repeat split; auto. apply in_or_app. now left.
  - intros k c H. destruct (C2 k c H) as (F & E & T).
    repeat split; auto. apply in_or_app. now left.
Qed.

Lemma coherent_cleared host st events :
  coherent host st -> quiet events ->
  coherent host {| connections := []; libsqlClients := [];
                   currentSite := currentSite st;
                   trace := (trace st ++ events)%list |}.
Proof.
  intros [S _ _ _ _ _ _] Q. constructor; simpl; try constructor; try tauto.
  now apply stamped_quiet.
Qed.

Lemma coherent_getSiteConnection host siteId st :
  coherent host st -> coherent host (snd (getSiteConnection host siteId st)).
Proof.
  intros H. destruct (getSiteConnection_state host siteId st)
    as [(events & O & ->)|(F & G & c & Hid & Hcfg & ->)];
    [apply coherent_extend; [exact H | now apply only_info_quiet]|].
  cbn [snd]. destruct H as [S K1 K2 I1 I2 C1 C2].
  assert (S1 : stamped (trace st ++ configure_events host siteId))
    by (apply stamped_quiet; [exact S | apply quiet_configure]).
  constructor; cbn [connections libsqlClients trace]; auto.
  - rewrite app_assoc.
    change [EvKnex c; EvInfo ("[MultiSite] Created new database connection for site: " ++ Js.text siteId)]
      with ([EvKnex c] ++ [EvInfo ("[MultiSite] Created new database connection for site: " ++ Js.text siteId)])%list.
    rewrite app_assoc. apply stamped_quiet; [|reflexivity].
    apply stamped_handle; [exact S1 | exact Hid].
  - rewrite map_app. simpl. apply NoDup_snoc; [exact K1|].
    now apply get_none_not_key.
  - rewrite map_app. simpl. apply NoDup_snoc; [exact I1|].
    intros Hin. apply in_map_iff in Hin. destruct Hin as ([k c'] & E & Hin).
    simpl in E. destruct (C1 k c' Hin) as (_ & _ & T).
    pose proof (stamped_knex_bound _ _ S T) as B.
    rewrite E, Hid, length_app in B. lia.
  - intros k c' Hin. apply in_app_or in Hin. destruct Hin as [Hin|[Hin|[]]].
    + destruct (C1 k c' Hin) as (F' & E & T). repeat split; auto.
      apply in_or_app. now left.
    + injection Hin as <- <-. repeat split; auto.
      apply in_or_app. right. apply in_or_app. right. now left.
  - intros k c' Hin. destruct (C2 k c' Hin) as (F' & E & T).
    repeat split; auto. apply in_or_app. now left.
Qed.

Lemma coherent_getLibSQLClient host siteId st :
  coherent host st -> coherent host (snd (getLibSQLClient host siteId st)).
Proof.
  intros H. destruct (getLibSQLClient_state host siteId st)
    as [(events & O & ->)|(F & G & c & Hid & Hurl & ->)];
    [apply coherent_extend; [exact H | now apply only_info_quiet]|].
  cbn [snd]. destruct H as [S K1 K2 I1 I2 C1 C2].
  assert (S1 : stamped (trace st ++ configure_events host siteId))
    by (apply stamped_quiet; [exact S | apply quiet_configure]).
  constructor; cbn [connections libsqlClients trace]; auto.
  - rewrite app_assoc.
    change [EvCreateClient c; EvInfo ("[MultiSite] Created libSQL client for site: " ++ Js.text siteId)]
      with ([EvCreateClient c] ++ [EvInfo ("[MultiSite] Created libSQL client for site: " ++ Js.text siteId)])%list.
    rewrite app_assoc. apply stamped_quiet; [|reflexivity].
    apply stamped_handle; [exact S1 | exact Hid].
  - rewrite map_app. simpl. apply NoDup_snoc; [exact K2|].
    now apply get_none_not_key.
  - rewrite map_app. simpl. apply NoDup_snoc; [exact I2|].
    intros Hin. apply in_map_iff in Hin. destruct Hin as ([k c'] & E & Hin).
    simpl in E. destruct (C2 k c' Hin) as (_ & _ & T).
    pose proof (stamped_client_bound _ _ S T) as B.
    rewrite E, Hid, length_app in B. lia.
  - intros k c' Hin. destruct (C1 k c' Hin) as (F' & E & T).
    repeat split; auto. apply in_or_app. now left.
  - intros k c' Hin. apply in_app_or in Hin. destruct Hin as [Hin|[Hin|[]]].
    + destruct (C2 k c' Hin) as (F' & E & T). repeat split; auto.
      apply in_or_app. now left.
    + injection Hin as <- <-. repeat split; auto.
      apply in_or_app. right. apply in_or_app. right. now left.
Qed.

Lemma configureSiteDatabase_state siteId base st :
  exists events,
    quiet events /\ snd (configureSiteDatabase siteId base st) = extend st events.
Proof.
  rewrite configureSiteDatabase_frame. eexists. split; [|reflexivity].
  unfold configureSiteDatabase. destruct (is_sqlite (client base)).
  - destruct (filename base); reflexivity.
  - destruct (String.eqb (client base) "libsql"); reflexivity.
Qed.

Lemma coherent_perform host call st :
  coherent host st -> coherent host (perform host call st).
Proof.
  intros H. destruct call; simpl.
  - destruct (configureSiteDatabase_state siteId baseDbConfig st)
      as (events & Q & ->). now apply coherent_extend.
  - now apply coherent_getSiteConnection.
  - now apply coherent_getLibSQLClient.
  - destruct (executeCrossSiteQuery_state host primarySiteId additionalSiteIds
                query st) as (events & Q & ->).
    apply coherent_extend; [|exact Q]. now apply coherent_getLibSQLClient.
  - destruct H. constructor; auto.
  - exact H.
  - rewrite createSite_run.
    destruct (JsMap.has (connections st) siteId); [exact H|].
    pose proof (coherent_getSiteConnection host siteId st H) as H1.
    destruct (getSiteConnection host siteId st) as [[c|e] st1];
      cbn [snd] in *; [|exact H1].
    apply coherent_extend; [exact H1 | reflexivity].
  - destruct (destroy_state host st) as (events & Q & D). cbv zeta in D.
    destruct D as [(_ & ->)|(_ & ->)].
    + now apply coherent_cleared.
    + now apply coherent_extend.
Qed.

Lemma coherent_perform_all host calls :
  forall st, coherent host st -> coherent host (perform_all host calls st).
Proof.
  induction calls as [|call calls IH]; intros st H; [exact H|].
  apply IH. now apply coherent_perform.
Qed.

Lemma coherent_reachable host calls :
  coherent host (perform_all host calls initial).
Proof. apply coherent_perform_all, coherent_initial. Qed.

Lemma sessions_opened_In events c :
  In c (sessions_opened events) <-> In (EvKnex c) events.
Proof.
  unfold sessions_opened. rewrite in_flat_map. split.
  - intros (e & He & Hc). destruct e; simpl in Hc; try contradiction.
    destruct Hc as [<-|[]]. exact He.
  - intros H. exists (EvKnex c). split; [exact H | now left].
Qed.

(** X5: however the manager has been used since it was made, the
    connection cached for a site carries the configuration
    [configureSiteDatabase] derives from that site id, and the libSQL client
    cached for the same site opens the file of that very configuration,
    resolved against the working directory. *)
Theorem site_handles_share_file host calls siteId connection libsql :
  JsMap.get (connections (perform_all host calls initial)) siteId
  = Some connection ->
  JsMap.get (libsqlClients (perform_all host calls initial)) siteId
  = Some libsql ->
  conn_config connection = site_config host siteId
  /\ exists file,
      filename (conn_config connection) = Some file
      /\ client_url libsql = "file:" ++ NodePath.resolve (cwd host) file.
Proof.
  intros G1 G2. destruct (coherent_reachable host calls)
    as [_ _ _ _ _ C1 C2].
  destruct (C1 _ _ (entry_of_get _ _ _ G1)) as (_ & E1 & _).
  destruct (C2 _ _ (entry_of_get _ _ _ G2)) as (_ & E2 & _).
  split; [symmetry; now apply site_config_outcome|].
  rewrite client_url_for_eq, E1 in E2.
  destruct (filename (conn_config connection)) as [file|]; [|discriminate E2].
  injection E2 as E2. exists file. auto.
Qed.

Lemma site_handles_share_file_witness :
  JsMap.get
    (connections
       (perform_all stuck_host
          [CallCreateSite (Js.Str "creator1");
           CallGetLibSQLClient (Js.Str "creator1")] initial))
    (Js.Str "creator1") = Some creator1_connection
  /\ JsMap.get
       (libsqlClients
          (perform_all stuck_host
             [CallCreateSite (Js.Str "creator1");
              CallGetLibSQLClient (Js.Str "creator1")] initial))
       (Js.Str "creator1")
     = Some {| client_id := 5;
               client_url :=
                 "file:/var/lib/ghost/content/data/ghost-dev-creator1.db" |}
  /\ exists file,
      filename (conn_config creator1_connection) = Some file
      /\ client_url
           {| client_id := 5;
              client_url :=
                "file:/var/lib/ghost/content/data/ghost-dev-creator1.db" |}
         = "file:" ++ NodePath.resolve (cwd stuck_host) file.
Proof.
  assert (G1 : JsMap.get
                 (connections
                    (perform_all stuck_host
                       [CallCreateSite (Js.Str "creator1");
                        CallGetLibSQLClient (Js.Str "creator1")] initial))
                 (Js.Str "creator1") = Some creator1_connection)
    by (vm_compute; reflexivity).
  assert (G2 : JsMap.get
                 (libsqlClients
                    (perform_all stuck_host
                       [CallCreateSite (Js.Str "creator1");
                        CallGetLibSQLClient (Js.Str "creator1")] initial))
                 (Js.Str "creator1")
               = Some {| client_id := 5;
                         client_url :=
                           "file:/var/lib/ghost/content/data/ghost-dev-creator1.db" |})
    by (vm_compute; reflexivity).
  split; [exact G1|]. split; [exact G2|].
  exact (proj2 (site_handles_share_file stuck_host _ _ _ _ G1 G2)).
Defined.

(** X6: however the manager has been used, no cache ever has a missing or
    empty key, so [createSite] without a site id always throws the
    [IncorrectUsageError] of [getSiteConnection], not a [ValidationError],
    and changes nothing. *)
Theorem createSite_without_id host calls siteId :
  Js.falsy siteId = true ->
  JsMap.get (connections (perform_all host calls initial)) siteId = None
  /\ JsMap.get (libsqlClients (perform_all host calls initial)) siteId = None
  /\ createSite host siteId (perform_all host calls initial)
     = (Throw (Js.IncorrectUsageError
                 "Site ID is required for multi-site database connection"),
        perform_all host calls initial).
Proof.
  intros F. destruct (coherent_reachable host calls) as [_ _ _ _ _ C1 C2].
  assert (G1 : JsMap.get (connections (perform_all host calls initial)) siteId
               = None).
  { destruct (JsMap.get (connections (perform_all host calls initial)) siteId)
      as [c|] eqn:G; [|reflexivity].
    destruct (C1 _ _ (entry_of_get _ _ _ G)) as (F' & _). congruence. }
  assert (G2 : JsMap.get (libsqlClients (perform_all host calls initial)) siteId
               = None).
  { destruct (JsMap.get (libsqlClients (perform_all host calls initial)) siteId)
      as [c|] eqn:G; [|reflexivity].
    destruct (C2 _ _ (entry_of_get _ _ _ G)) as (F' & _). congruence. }
  split; [exact G1|]. split; [exact G2|].
  rewrite createSite_run. unfold JsMap.has. rewrite G1.
  unfold getSiteConnection. rewrite F. reflexivity.
Qed.

Lemma createSite_without_id_witness :
  Js.falsy Js.Undefined = true
  /\ createSite (sqlite_host [] []) Js.Undefined
       (perform_all (sqlite_host [] []) [CallCreateSite (Js.Str "creator1")]
          initial)
     = (Throw (Js.IncorrectUsageError
                 "Site ID is required for multi-site database connection"),
        perform_all (sqlite_host [] []) [CallCreateSite (Js.Str "creator1")]
          initial).
Proof.
  split; [reflexivity|].
  apply (createSite_without_id (sqlite_host [] [])
           [CallCreateSite (Js.Str "creator1")] Js.Undefined eq_refl).
Defined.

(** X7: however the manager has been used, two different sites never share
    a handle: the connections cached for two different site ids are two
    different knex instances, and so are their libSQL clients. *)
Theorem sites_do_not_share_handles host calls a b :
  a <> b ->
  (forall ca cb,
      JsMap.get (connections (perform_all host calls initial)) a = Some ca ->
      JsMap.get (connections (perform_all host calls initial)) b = Some cb ->
      conn_id ca <> conn_id cb)
  /\ (forall la lb,
         JsMap.get (libsqlClients (perform_all host calls initial)) a = Some la ->
         JsMap.get (libsqlClients (perform_all host calls initial)) b = Some lb ->
         client_id la <> client_id lb).
Proof.
  intros N. destruct (coherent_reachable host calls) as [_ _ _ I1 I2 _ _].
  assert (Inj : forall (V : Type) (id : V -> nat) (m : list (Js.Value * V))
                  x y vx vy,
             NoDup (map (fun entry => id (snd entry)) m) ->
             In (x, vx) m -> In (y, vy) m -> id vx = id vy -> x = y).
  { intros V id m. induction m as [|[k v] m IH]; simpl; [tauto|].
    intros x y vx vy D Hx Hy E. inversion D as [|? ? Hn D']; subst.
    destruct Hx as [Hx|Hx], Hy as [Hy|Hy].
    - congruence.
    - injection Hx as <- <-. exfalso. apply Hn. rewrite E.
      apply in_map_iff. now exists (y, vy).
    - injection Hy as <- <-. exfalso. apply Hn. rewrite <- E.
      apply in_map_iff. now exists (x, vx).
    - eapply IH; eauto. }
  split.
  - intros ca cb Ga Gb E. apply N.
    exact (Inj _ conn_id _ _ _ _ _ I1 (entry_of_get _ _ _ Ga)
             (entry_of_get _ _ _ Gb) E).
  - intros la lb Ga Gb E. apply N.
    exact (Inj _ client_id _ _ _ _ _ I2 (entry_of_get _ _ _ Ga)
             (entry_of_get _ _ _ Gb) E).
Qed.

Lemma sites_do_not_share_handles_witness :
  Js.Str "creator1" <> Js.Str "creator2"
  /\ forall ca cb,
      JsMap.get
        (connections
           (perform_all stuck_host
              [CallCreateSite (Js.Str "creator1");
               CallCreateSite (Js.Str "creator2")] initial))
        (Js.Str "creator1") = Some ca ->
      JsMap.get
        (connections
           (perform_all stuck_host
              [CallCreateSite (Js.Str "creator1");
               CallCreateSite (Js.Str "creator2")] initial))
        (Js.Str "creator2") = Some cb ->
      conn_id ca <> conn_id cb.
Proof.
  assert (N : Js.Str "creator1" <> Js.Str "creator2") by discriminate.
  split; [exact N|].
  exact (proj1 (sites_do_not_share_handles stuck_host
                  [CallCreateSite (Js.Str "creator1");
                   CallCreateSite (Js.Str "creator2")]
                  (Js.Str "creator1") (Js.Str "creator2") N)).
Defined.

(** ** Shutting down and going on *)

(** X8: after a [destroy] that returns, [getSiteConnection] for a site id
    that is given returns whenever the site's configuration can be derived
    and knex accepts it, and a connection it returns is a knex instance
    made anew in that call, one that was never made before: no connection
    destroyed in the shutdown is handed out again. *)
Theorem connection_after_destroy_is_new host calls siteId :
  fst (destroy host (perform_all host calls initial)) = Return tt ->
  Js.falsy siteId = false ->
  let st1 := snd (destroy host (perform_all host calls initial)) in
  (forall config,
      configure_outcome host siteId = Return config ->
      knex_error host (trace st1 ++ configure_events host siteId) config
      = None ->
      exists connection st2,
        getSiteConnection host siteId st1 = (Return connection, st2))
  /\ forall connection st2,
      getSiteConnection host siteId st1 = (Return connection, st2) ->
      ~ In connection (sessions_opened (trace st1))
      /\ sessions_opened (trace st2)
         = (sessions_opened (trace st1) ++ [connection])%list
      /\ JsMap.get (connections st2) siteId = Some connection.
Proof.
  intros R F.
  pose proof (coherent_reachable host (calls ++ [CallDestroy])) as H.
  unfold perform_all in H. rewrite fold_left_app in H. simpl in H.
  fold (perform_all host calls initial) in H.
  destruct (destroy_state host (perform_all host calls initial))
    as (events & Q & D). cbv zeta in D.
  destruct D as [(_ & D)|((e & E) & _)]; [|congruence].
  set (st1 := snd (destroy host (perform_all host calls initial))) in *.
  assert (G : JsMap.get (connections st1) siteId = None) by now rewrite D.
  split.
  - intros config O K.
    rewrite (getSiteConnection_fresh host siteId st1 F G), O, K.
    eexists. eexists. reflexivity.
  - intros connection st2 Run.
    destruct (getSiteConnection_state host siteId st1)
      as [(ev & O & E)|(_ & _ & c & Hid & _ & E)].
    + exfalso. rewrite Run in E. cbn [snd] in E.
      rewrite E in Run. clear E.
      rewrite (getSiteConnection_fresh host siteId st1 F G) in Run.
      destruct (configure_outcome host siteId) as [config|e];
        [|discriminate Run].
      destruct (knex_error host _ config); [discriminate Run|].
      cbv zeta in Run. injection Run as _ Run.
      rewrite (set_absent _ _ _ G) in Run.
      apply (f_equal (@length _)) in Run.
      rewrite length_app in Run. cbn [length] in Run. lia.
    + rewrite Run in E. injection E as -> ->. split; [|split].
      * rewrite sessions_opened_In. intros Hin.
        pose proof (stamped_knex_bound _ _ (coherent_stamped _ _ H) Hin) as B.
        rewrite Hid, length_app in B. lia.
      * cbn [trace]. rewrite !sessions_opened_app.
        rewrite (quiet_sessions _ (quiet_configure host siteId)). reflexivity.
      * cbn [connections]. rewrite <- (set_absent _ _ c G). apply get_set_same.
Qed.

Lemma connection_after_destroy_is_new_witness :
  fst (destroy (sqlite_host [] [])
         (perform_all (sqlite_host [] []) [CallCreateSite (Js.Str "creator1")]
            initial)) = Return tt
  /\ Js.falsy (Js.Str "creator1") = false
  /\ getSiteConnection (sqlite_host [] []) (Js.Str "creator1")
       (snd (destroy (sqlite_host [] [])
               (perform_all (sqlite_host [] [])
                  [CallCreateSite (Js.Str "creator1")] initial)))
     = (Return {| conn_id := 7; conn_config := conn_config creator1_connection |},
        snd (getSiteConnection (sqlite_host [] []) (Js.Str "creator1")
               (snd (destroy (sqlite_host [] [])
                       (perform_all (sqlite_host [] [])
                          [CallCreateSite (Js.Str "creator1")] initial)))))
  /\ ~ In {| conn_id := 7; conn_config := conn_config creator1_connection |}
        (sessions_opened
           (trace
              (snd (destroy (sqlite_host [] [])
                      (perform_all (sqlite_host [] [])
                         [CallCreateSite (Js.Str "creator1")] initial))))).
Proof.
  assert (R : fst (destroy (sqlite_host [] [])
                     (perform_all (sqlite_host [] [])
                        [CallCreateSite (Js.Str "creator1")] initial))
              = Return tt) by (vm_compute; reflexivity).
  assert (F : Js.falsy (Js.Str "creator1") = false) by reflexivity.
  assert (G : getSiteConnection (sqlite_host [] []) (Js.Str "creator1")
                (snd (destroy (sqlite_host [] [])
                        (perform_all (sqlite_host [] [])
                           [CallCreateSite (Js.Str "creator1")] initial)))
              = (Return {| conn_id := 7;
                           conn_config := conn_config creator1_connection |},
                 snd (getSiteConnection (sqlite_host [] []) (Js.Str "creator1")
                        (snd (destroy (sqlite_host [] [])
                                (perform_all (sqlite_host [] [])
                                   [CallCreateSite (Js.Str "creator1")]
                                   initial))))))
    by (vm_compute; reflexivity).
  split; [exact R|]. split; [exact F|]. split; [exact G|].
  exact (proj1 (proj2 (connection_after_destroy_is_new (sqlite_host [] [])
                         [CallCreateSite (Js.Str "creator1")]
                         (Js.Str "creator1") R F) _ _ G)).
Defined.

Lemma destroy_failure host st e st' :
  destroy host st = (Throw e, st') ->
  exists done h rest,
    handles st = (done ++ h :: rest)%list
    /\ st' = extend st (closed_events done ++ [close_event h false]).
Proof.
  rewrite destroy_run.
  pose proof (destroy_connections_run host (connections st) st) as R1.
  destruct (destroy_connections host (connections st) st) as [[u|e1] st1];
    simpl in R1.
  - subst st1. cbn [extend libsqlClients].
    pose proof (close_clients_run host (libsqlClients st)
                  (extend st (closed_events (knex_handles (connections st)))))
      as R2.
    fold (extend st (closed_events (knex_handles (connections st)))).
    destruct (close_clients host (libsqlClients st) _) as [[u2|e2] st2];
      simpl in R2.
    + unfold clear_caches. discriminate.
    + intros E. injection E as <- <-.
      destruct R2 as (done & h & rest & Hs & _ & ->).
      exists (knex_handles (connections st) ++ done)%list, h, rest.
      unfold handles. rewrite Hs, <- app_assoc. split; [reflexivity|].
      rewrite extend_extend, closed_events_app. flatten. reflexivity.
  - intros E. injection E as <- <-.
    destruct R1 as (done & h & rest & Hs & _ & ->).
    exists done, h, (rest ++ client_handles (libsqlClients st))%list.
    unfold handles. rewrite Hs, <- app_assoc. auto.
Qed.

(** X9: when [destroy] throws, the connections it had already destroyed
    stay in the cache: [getSiteConnection] goes on returning each of them,
    a destroyed knex instance, without making a new one. *)
Theorem destroyed_connection_stays_cached host calls e st' :
  destroy host (perform_all host calls initial) = (Throw e, st') ->
  exists done h rest,
    handles (perform_all host calls initial) = (done ++ h :: rest)%list
    /\ forall siteId connection,
        In (KnexHandle siteId connection) done ->
        In (EvDestroy connection true) (trace st')
        /\ getSiteConnection host siteId st' = (Return connection, st').
Proof.
  intros D. pose proof (coherent_reachable host calls) as H.
  destruct (destroy_failure _ _ _ _ D) as (done & h & rest & Hs & ->).
  exists done, h, rest. split; [exact Hs|].
  intros siteId connection Hin. split.
  - cbn [extend trace]. apply in_or_app. right. apply in_or_app. left.
    unfold closed_events. apply in_flat_map.
    exists (KnexHandle siteId connection). split; [exact Hin | now left].
  - assert (In (KnexHandle siteId connection)
              (handles (perform_all host calls initial))) as Hall
      by (rewrite Hs; apply in_or_app; now left).
    unfold handles in Hall. apply in_app_or in Hall.
    destruct Hall as [Hk|Hc].
    + unfold knex_handles in Hk. apply in_map_iff in Hk.
      destruct Hk as ([k c] & E & Hk). injection E as -> ->.
      destruct (coherent_connections _ _ H _ _ Hk) as (F & _).
      apply getSiteConnection_cached; [exact F|]. cbn [extend connections].
      apply get_of_entry; [apply (coherent_connection_keys _ _ H) | exact Hk].
    + unfold client_handles in Hc. apply in_map_iff in Hc.
      destruct Hc as ([k c] & E & _). discriminate E.
Qed.

Lemma destroyed_connection_stays_cached_witness :
  destroy stuck_second_host
    (perform_all stuck_second_host
       [CallCreateSite (Js.Str "creator1"); CallCreateSite (Js.Str "creator2")]
       initial)
  = (Throw (Js.DriverError "aborted"),
     snd (destroy stuck_second_host
            (perform_all stuck_second_host
               [CallCreateSite (Js.Str "creator1");
                CallCreateSite (Js.Str "creator2")] initial)))
  /\ exists done h rest,
      handles
        (perform_all stuck_second_host
           [CallCreateSite (Js.Str "creator1");
            CallCreateSite (Js.Str "creator2")] initial)
      = (done ++ h :: rest)%list
      /\ forall siteId connection,
          In (KnexHandle siteId connection) done ->
          In (EvDestroy connection true)
            (trace
               (snd (destroy stuck_second_host
                       (perform_all stuck_second_host
                          [CallCreateSite (Js.Str "creator1");
                           CallCreateSite (Js.Str "creator2")] initial))))
          /\ getSiteConnection stuck_second_host siteId
               (snd (destroy stuck_second_host
                       (perform_all stuck_second_host
                          [CallCreateSite (Js.Str "creator1");
                           CallCreateSite (Js.Str "creator2")] initial)))
             = (Return connection,
                snd (destroy stuck_second_host
                       (perform_all stuck_second_host
                          [CallCreateSite (Js.Str "creator1");
                           CallCreateSite (Js.Str "creator2")] initial))).
Proof.
  assert (D : destroy stuck_second_host
                (perform_all stuck_second_host
                   [CallCreateSite (Js.Str "creator1");
                    CallCreateSite (Js.Str "creator2")] initial)
              = (Throw (Js.DriverError "aborted"),
                 snd (destroy stuck_second_host
                        (perform_all stuck_second_host
                           [CallCreateSite (Js.Str "creator1");
                            CallCreateSite (Js.Str "creator2")] initial))))
    by (vm_compute; reflexivity).
  split; [exact D|].
  exact (destroyed_connection_stays_cached stuck_second_host _ _ _ D).
Defined.

(** ** What a cross-site query sends and throws *)

(** X10: when a cross-site query returns, the statements it has sent are
    the ATTACH statements of the additional sites, one each in the order of
    the list and numbered from there, and then the query, last; the rows
    returned are those the driver gave for the query on the primary site's
    cached client. *)
Theorem cross_site_query_success host primary additional query st rows st' :
  executeCrossSiteQuery host primary additional query st = (Return rows, st') ->
  Js.falsy primary = false
  /\ statements (trace st')
     = (statements (trace st) ++ attach_statements host 0 additional
        ++ [query])%list
  /\ length (attach_statements host 0 additional) = length additional
  /\ exists before libsql,
      JsMap.get (libsqlClients st') primary = Some libsql
      /\ trace st' = (before ++ [EvExecute libsql query true])%list
      /\ libsql_execute host before libsql query = inl rows.
Proof.
  intros R. destruct (Js.falsy primary) eqn:F.
  - unfold executeCrossSiteQuery, bind, getLibSQLClient in R. rewrite F in R.
    discriminate R.
  - split; [reflexivity|].
    destruct (getLibSQLClient_outcome host primary st F)
      as (ev0 & T & Sev & _ & _ & _ & _ & _ & C).
    destruct (getLibSQLClient host primary st) as [[c|e0] st0] eqn:G.
    2:{ rewrite (executeCrossSiteQuery_early _ _ _ _ _ _ _ G) in R.
        discriminate R. }
    cbn [fst snd] in *.
    rewrite (executeCrossSiteQuery_run host primary additional query st c st0 G)
      in R.
    pose proof (attach_additional_run host c additional 0 st0) as A.
    destruct (attach_additional host c 0 additional st0) as [[u|e] st1];
      [|discriminate R].
    destruct A as [-> L].
    destruct (libsql_execute host _ c query) as [rows'|e] eqn:E;
      [|discriminate R].
    injection R as <- <-. split; [|split; [exact L|]].
    + cbn [extend trace]. rewrite T, !statements_app, Sev.
      rewrite statements_attach_events_exact. simpl. flatten. reflexivity.
    + exists (trace st0 ++ attach_events host c 0 additional)%list, c.
      split; [exact C|]. split; [reflexivity | exact E].
Qed.

Lemma cross_site_query_success_witness :
  executeCrossSiteQuery (sqlite_host [] []) (Js.Str "creator1")
    [Js.Str "creator2"; Js.Str "creator3"] "SELECT 1" initial
  = (Return [[("statement", "SELECT 1")]],
     snd (executeCrossSiteQuery (sqlite_host [] []) (Js.Str "creator1")
            [Js.Str "creator2"; Js.Str "creator3"] "SELECT 1" initial))
  /\ statements
       (trace
          (snd (executeCrossSiteQuery (sqlite_host [] []) (Js.Str "creator1")
                  [Js.Str "creator2"; Js.Str "creator3"] "SELECT 1" initial)))
     = (statements (trace initial)
        ++ attach_statements (sqlite_host [] []) 0
             [Js.Str "creator2"; Js.Str "creator3"]
        ++ ["SELECT 1"])%list.
Proof.
  assert (R : executeCrossSiteQuery (sqlite_host [] []) (Js.Str "creator1")
                [Js.Str "creator2"; Js.Str "creator3"] "SELECT 1" initial
              = (Return [[("statement", "SELECT 1")]],
                 snd (executeCrossSiteQuery (sqlite_host [] [])
                        (Js.Str "creator1")
                        [Js.Str "creator2"; Js.Str "creator3"] "SELECT 1"
                        initial)))
    by (vm_compute; reflexivity).
  split; [exact R|].
  exact (proj1 (proj2 (cross_site_query_success _ _ _ _ _ _ _ R))).
Defined.

(** X11: when a cross-site query throws, one of three things has
    happened.  The primary site id is missing, and nothing was done.  Or
    the client of the primary site could not be made: the error of building
    its url or of [createClient] is thrown from before the [try], so it is
    not logged, nothing is cached and no statement is sent.  Or the error
    arose inside the [try], and the last thing the call did was to log it
    as "[MultiSite] Cross-site query failed: ...": it is the error the
    driver gave for the query, sent after every ATTACH, or for the ATTACH of
    one of the additional sites, sent after those of the sites before it,
    or it is what building the ATTACH of one of the additional sites threw,
    after which nothing was sent. *)
Theorem cross_site_query_failure host primary additional query st e st' :
  executeCrossSiteQuery host primary additional query st = (Throw e, st') ->
  (Js.falsy primary = true
   /\ st' = st
   /\ e = Js.IncorrectUsageError "Site ID is required for libSQL client")
  \/ (Js.falsy primary = false
      /\ JsMap.get (libsqlClients st) primary = None
      /\ st' = extend st (configure_events host primary)
      /\ (client_url_for host primary = Throw e
          \/ exists url,
              client_url_for host primary = Return url
              /\ createClient_error host
                   (trace st ++ configure_events host primary) url = Some e))
  \/ (Js.falsy primary = false
      /\ exists before libsql,
          JsMap.get (libsqlClients st') primary = Some libsql
          /\ trace st'
             = (before
                ++ [EvError ("[MultiSite] Cross-site query failed: "
                             ++ Js.message e)])%list
          /\ ((exists sent,
                  before = (sent ++ [EvExecute libsql query false])%list
                  /\ libsql_execute host sent libsql query = inr e
                  /\ statements sent
                     = (statements (trace st)
                        ++ attach_statements host 0 additional)%list
                  /\ length (attach_statements host 0 additional)
                     = length additional)
              \/ (exists done siteId rest sql sent,
                     additional = (done ++ siteId :: rest)%list
                     /\ attach_statement host siteId (length done) = Return sql
                     /\ before = (sent ++ [EvExecute libsql sql false])%list
                     /\ libsql_execute host sent libsql sql = inr e
                     /\ statements sent
                        = (statements (trace st)
                           ++ attach_statements host 0 done)%list
                     /\ length (attach_statements host 0 done) = length done)
              \/ (exists done siteId rest,
                     additional = (done ++ siteId :: rest)%list
                     /\ attach_statement host siteId (length done) = Throw e
                     /\ statements before
                        = (statements (trace st)
                           ++ attach_statements host 0 done)%list
                     /\ length (attach_statements host 0 done)
                        = length done))).
Proof.
  intros R. destruct (Js.falsy primary) eqn:F.
  - left. unfold executeCrossSiteQuery, bind, getLibSQLClient in R.
    rewrite F in R. injection R as <- <-. auto.
  - right.
    destruct (getLibSQLClient_outcome host primary st F)
      as (ev0 & T & Sev & _ & _ & _ & _ & _ & C).
    destruct (getLibSQLClient host primary st) as [[c|e0] st0] eqn:G;
      cbn [fst snd] in *.
    + right. split; [reflexivity|].
      rewrite (executeCrossSiteQuery_run host primary additional query st c st0 G)
        in R.
      pose proof (attach_additional_run host c additional 0 st0) as A.
      destruct (attach_additional host c 0 additional st0) as [[u|e1] st1].
      * destruct A as [-> L].
        destruct (libsql_execute host _ c query) as [rows'|e2] eqn:E;
          [discriminate R|].
        injection R as <- <-.
        exists (trace st0 ++ attach_events host c 0 additional
                ++ [EvExecute c query false])%list, c.
        split; [exact C|]. split; [cbn [extend trace]; flatten; reflexivity|].
        left. exists (trace st0 ++ attach_events host c 0 additional)%list.
        split; [now rewrite app_assoc|]. split; [exact E|].
        split; [|exact L].
        rewrite T, !statements_app, Sev, statements_attach_events_exact.
        now rewrite app_nil_r.
      * injection R as <- <-.
        destruct A as (done & siteId & rest & -> & L & Ho). cbv zeta in Ho.
        cbn [Nat.add] in Ho.
        destruct (attach_statement host siteId (length done)) as [sql|e'] eqn:B.
        -- destruct Ho as [Ho ->].
           exists (trace st0 ++ attach_events host c 0 done
                   ++ configure_events host siteId
                   ++ [EvExecute c sql false])%list, c.
           split; [exact C|].
           split; [cbn [extend trace]; flatten; reflexivity|].
           right. left. exists done, siteId, rest, sql,
             (trace st0 ++ attach_events host c 0 done
              ++ configure_events host siteId)%list.
           split; [reflexivity|]. split; [exact B|].
           split; [flatten; reflexivity|]. split; [flatten_in Ho; exact Ho|].
           split; [|exact L].
           rewrite T, !statements_app, Sev, statements_attach_events_exact,
             statements_configure.
           now rewrite !app_nil_r.
        -- destruct Ho as [-> ->].
           exists (trace st0 ++ attach_events host c 0 done
                   ++ configure_events host siteId)%list, c.
           split; [exact C|].
           split; [cbn [extend trace]; flatten; reflexivity|].
           right. right. exists done, siteId, rest.
           split; [reflexivity|]. split; [exact B|]. split; [|exact L].
           rewrite T, !statements_app, Sev, statements_attach_events_exact,
             statements_configure.
           now rewrite !app_nil_r.
    + left. split; [reflexivity|].
      rewrite (executeCrossSiteQuery_early _ _ _ _ _ _ _ G) in R.
      injection R as <- <-.
      destruct C as (E & _ & N & U). split; [exact N|].
      split; [|exact U].
      destruct (JsMap.get (libsqlClients st) primary) eqn:G'; [discriminate N|].
      rewrite (getLibSQLClient_fresh host primary st F G') in G.
      destruct (client_url_for host primary) as [url|e1].
      * destruct (createClient_error host _ url); [|discriminate G].
        now injection G as _ <-.
      * now injection G as _ <-.
Qed.

Lemma cross_site_query_failure_witness :
  executeCrossSiteQuery abort_host (Js.Str "creator1")
    [Js.Str "creator2"; Js.Str "creator3"] "SELECT 1" initial
  = (Throw (Js.DriverError "unable to open database file"),
     snd (executeCrossSiteQuery abort_host (Js.Str "creator1")
            [Js.Str "creator2"; Js.Str "creator3"] "SELECT 1" initial))
  /\ exists before,
      trace (snd (executeCrossSiteQuery abort_host (Js.Str "creator1")
                    [Js.Str "creator2"; Js.Str "creator3"] "SELECT 1" initial))
      = (before
         ++ [EvError "[MultiSite] Cross-site query failed: unable to open database file"])%list.
Proof.
  assert (R : executeCrossSiteQuery abort_host (Js.Str "creator1")
                [Js.Str "creator2"; Js.Str "creator3"] "SELECT 1" initial
              = (Throw (Js.DriverError "unable to open database file"),
                 snd (executeCrossSiteQuery abort_host (Js.Str "creator1")
                        [Js.Str "creator2"; Js.Str "creator3"] "SELECT 1"
                        initial)))
    by (vm_compute; reflexivity).
  split; [exact R|].
  destruct (cross_site_query_failure _ _ _ _ _ _ _ R)
    as [(F & _)|[(_ & _ & E & _)|(_ & before & libsql & _ & T & _)]].
  - discriminate F.
  - exfalso. apply (f_equal (fun s => length (trace s))) in E.
    vm_compute in E. discriminate E.
  - exists before. exact T.
Defined.

(** ** Aliases *)

Lemma decimal_injective n m : Js.decimal n = Js.decimal m -> n = m.
Proof.
  unfold Js.decimal. intros H.
  assert (N : forall k, Nat.to_uint k <> Decimal.Nil).
  { intros k. rewrite <- (DecimalNat.Unsigned.of_to k) at 1.
    rewrite DecimalNat.Unsigned.to_of. apply DecimalFacts.unorm_nonnil. }
  apply (f_equal NilZero.uint_of_string) in H.
  rewrite !NilZero.usu in H by apply N.
  injection H as H. now apply DecimalNat.Unsigned.to_uint_inj.
Qed.

Lemma attach_alias_injective i j : attach_alias i = attach_alias j -> i = j.
Proof.
  unfold attach_alias. intros H.
  apply string_app_inv_head in H. apply decimal_injective in H. lia.
Qed.

Lemma strip_prefix_app p s : strip_prefix p (p ++ s) = Some s.
Proof.
  induction p as [|c p IH]; simpl; [reflexivity|].
  now rewrite Ascii.eqb_refl.
Qed.

Lemma split_at_quote_app p rest :
  has_quote p = false ->
  split_at_quote (p ++ String "'"%char rest) = Some (p, rest).
Proof.
  induction p as [|c p IH]; simpl; intros H; [reflexivity|].
  apply orb_false_elim in H. destruct H as [Hc Hp].
  rewrite Hc, (IH Hp). reflexivity.
Qed.

Lemma name_prefix_digits u :
  name_prefix (NilEmpty.string_of_uint u)
  = (NilEmpty.string_of_uint u, EmptyString).
Proof.
  induction u as [|u IH|u IH|u IH|u IH|u IH|u IH|u IH|u IH|u IH|u IH];
    [reflexivity|..]; simpl; rewrite IH; reflexivity.
Qed.

Lemma name_prefix_decimal n :
  name_prefix (Js.decimal n) = (Js.decimal n, EmptyString).
Proof.
  unfold Js.decimal, NilZero.string_of_uint.
  destruct (Nat.to_uint n); try apply name_prefix_digits. reflexivity.
Qed.

Lemma name_prefix_alias index :
  name_prefix (attach_alias index) = (attach_alias index, EmptyString).
Proof.
  unfold attach_alias.
  pose proof (name_prefix_decimal (index + 2)) as D.
  cbn [append name_prefix].
  repeat match goal with
         | |- context [is_name_char ?c] =>
             change (is_name_char c) with true; cbv iota
         end.
  rewrite D. reflexivity.
Qed.

(** A statement of the shape the manager builds is read as attaching the
    file under the alias of the position, when the file name has no
    quote. *)
Lemma parse_attach_built resolved index :
  has_quote resolved = false ->
  parse_attach ("ATTACH DATABASE '" ++ resolved ++ "' AS " ++ attach_alias index)
  = Some (resolved, attach_alias index).
Proof.
  intros H. unfold parse_attach. rewrite strip_prefix_app.
  change ("' AS " ++ attach_alias index)
    with (String "'"%char (" AS " ++ attach_alias index)).
  rewrite (split_at_quote_app _ _ H), strip_prefix_app, name_prefix_alias.
  reflexivity.
Qed.

(** X12: the statement sent for the additional site at position [i] of
    the list is ATTACH DATABASE, the site's resolved file in single quotes,
    AS, and the alias [site] followed by [i + 2] in decimal; when the
    resolved file name has no single quote in it, the statement is read as
    attaching that file under that alias; and different positions have
    different aliases. *)
Theorem attach_aliases_by_position host additional i sql :
  nth_error (attach_statements host 0 additional) i = Some sql ->
  exists siteId resolved,
    nth_error additional i = Some siteId
    /\ resolved_file host siteId = Some resolved
    /\ sql = "ATTACH DATABASE '" ++ resolved ++ "' AS " ++ attach_alias i
    /\ (has_quote resolved = false ->
        parse_attach sql = Some (resolved, attach_alias i))
    /\ forall j, attach_alias i = attach_alias j -> i = j.
Proof.
  intros H.
  destruct (attach_statements_nth host additional 0 i sql H)
    as (siteId & resolved & N & R & ->).
  exists siteId, resolved. cbn [Nat.add].
  split; [exact N|]. split; [exact R|]. split; [reflexivity|].
  split; [apply parse_attach_built|]. intros j. apply attach_alias_injective.
Qed.

Lemma attach_aliases_by_position_witness :
  nth_error
    (attach_statements (sqlite_host [] []) 0
       [Js.Str "creator2"; Js.Str "creator3"]) 1
  = Some "ATTACH DATABASE '/var/lib/ghost/content/data/ghost-dev-creator3.db' AS site3"
  /\ exists siteId resolved,
      nth_error [Js.Str "creator2"; Js.Str "creator3"] 1 = Some siteId
      /\ resolved_file (sqlite_host [] []) siteId = Some resolved
      /\ parse_attach
           "ATTACH DATABASE '/var/lib/ghost/content/data/ghost-dev-creator3.db' AS site3"
         = Some (resolved, attach_alias 1).
Proof.
  assert (N : nth_error
                (attach_statements (sqlite_host [] []) 0
                   [Js.Str "creator2"; Js.Str "creator3"]) 1
              = Some "ATTACH DATABASE '/var/lib/ghost/content/data/ghost-dev-creator3.db' AS site3")
    by (vm_compute; reflexivity).
  split; [exact N|].
  destruct (attach_aliases_by_position _ _ _ _ N)
    as (siteId & resolved & A & R & E & P & _).
  exists siteId, resolved. split; [exact A|]. split; [exact R|].
  apply P.
  cbn in A. injection A as <-. vm_compute in R. injection R as <-.
  vm_compute. reflexivity.
Defined.




(** * The database class of the implementation notes *)

(** X14: [getConnection] picks the driver by [NODE_ENV] alone, a
    better-sqlite3 file [content/data/<id>-ghost.db] in development and the
    PostgreSQL database [ghost_site_<id>] otherwise, also when [NODE_ENV] is
    unset; both names are different for different string site ids, whatever
    characters they have.  Every call makes a knex instance of its own:
    nothing is cached. *)
Theorem site_database_by_environment env a b made :
  let first := SiteDatabase.getConnection env (Js.Str a) made in
  let second := SiteDatabase.getConnection env (Js.Str b) (snd first) in
  SiteDatabase.instance_config (fst first)
  = (if SiteDatabase.is_development env
     then {| SiteDatabase.knex_client := "better-sqlite3";
             SiteDatabase.knex_connection :=
               SiteDatabase.SqliteFile ("content/data/" ++ a ++ "-ghost.db") |}
     else {| SiteDatabase.knex_client := "pg";
             SiteDatabase.knex_connection :=
               SiteDatabase.PgServer (SiteDatabase.DB_HOST env)
                 ("ghost_site_" ++ a) (SiteDatabase.DB_USER env)
                 (SiteDatabase.DB_PASSWORD env) |})
  /\ (SiteDatabase.NODE_ENV env = None -> SiteDatabase.is_development env = false)
  /\ (SiteDatabase.instance_config (fst first)
      = SiteDatabase.instance_config (fst second) -> a = b)
  /\ SiteDatabase.instance_id (fst first) <> SiteDatabase.instance_id (fst second)
  /\ snd second = (made ++ [fst first; fst second])%list.
Proof.
  cbv zeta. unfold SiteDatabase.getConnection, SiteDatabase.is_development.
  destruct (SiteDatabase.NODE_ENV env) as [v|]; [destruct (String.eqb v "development")|];
    cbn [SiteDatabase.getSQLiteConnection SiteDatabase.getPostgreSQLConnection
         SiteDatabase.knex fst snd SiteDatabase.instance_config
         SiteDatabase.instance_id Js.text];
    (split; [reflexivity|]); (split; [try reflexivity; discriminate|]);
    (split; [|split; [rewrite length_app; simpl; lia
                     | rewrite <- app_assoc; reflexivity]]).
  - intros H. injection H as H. now apply string_app_inv_tail in H.
  - intros H. injection H as H. exact H.
  - intros H. injection H as H. exact H.
Qed.

(** * Waiting for a service *)

Lemma wait_loop_facts curl service port remaining :
  forall attempt,
    let run := StartScript.wait_loop curl service port remaining attempt in
    StartScript.attempts (fst run) <= remaining
    /\ StartScript.seconds_slept (fst run) <= 2 * remaining
    /\ (snd run = 0 \/ snd run = 1)
    /\ (snd run = 0 <->
        exists k, attempt <= k < attempt + remaining /\ curl k = true).
Proof.
  induction remaining as [|r IH]; intros attempt; cbv zeta.
  - unfold StartScript.attempts. simpl.
    split; [lia|]. split; [lia|]. split; [now right|]. split.
    + intros H. discriminate H.
    + intros (k & K & _). lia.
  - cbn [StartScript.wait_loop]. destruct (curl attempt) eqn:C.
    + unfold StartScript.attempts. simpl.
      split; [lia|]. split; [lia|]. split; [now left|]. split.
      * intros _. exists attempt. split; [lia | exact C].
      * reflexivity.
    + specialize (IH (S attempt)). cbv zeta in IH.
      destruct (StartScript.wait_loop curl service port r (S attempt))
        as [steps status].
      cbn [fst snd] in *. destruct IH as (A & S & T & I).
      unfold StartScript.attempts in *. simpl.
      split; [lia|]. split; [lia|]. split; [exact T|]. split.
      * intros E. apply I in E. destruct E as (k & K & Ck).
        exists k. split; [lia | exact Ck].
      * intros (k & K & Ck). apply I.
        exists k. split; [|exact Ck].
        destruct (Nat.eq_dec k attempt) as [->|N]; [congruence | lia].
Qed.

(** X15: [wait_for_service] never polls more than thirty times nor sleeps
    more than sixty seconds in all; it returns 0 or 1, and 0 exactly when
    one of the attempts 1 to 30 is answered. *)
Theorem wait_for_service_bounded curl service port :
  let run := StartScript.wait_for_service curl service port in
  StartScript.attempts (fst run) <= 30
  /\ StartScript.seconds_slept (fst run) <= 60
  /\ (snd run = 0 \/ snd run = 1)
  /\ (snd run = 0 <-> exists k, 1 <= k <= 30 /\ curl k = true).
Proof.
  cbv zeta. unfold StartScript.wait_for_service.
  pose proof (wait_loop_facts curl service port StartScript.max_attempts 1) as H.
  cbv zeta in H.
  destruct (StartScript.wait_loop curl service port StartScript.max_attempts 1)
    as [steps status].
  cbn [fst snd] in *. unfold StartScript.max_attempts in H.
  destruct H as (A & S & T & I).
  split; [exact A|]. split; [exact S|]. split; [exact T|].
  rewrite I. split; intros (k & K & C); exists k; (split; [lia | exact C]).
Qed.

Lemma wait_loop_first curl service port remaining :
  forall attempt k,
    k < remaining ->
    curl (attempt + k) = true ->
    (forall j, j < k -> curl (attempt + j) = false) ->
    let run := StartScript.wait_loop curl service port remaining attempt in
    snd run = 0
    /\ StartScript.attempts (fst run) = S k
    /\ StartScript.seconds_slept (fst run) = 2 * k
    /\ last (fst run) (StartScript.Sleep 0)
       = StartScript.Echo ("✅ " ++ service ++ " is ready!").
Proof.
  induction remaining as [|r IH]; intros attempt k L C F; [lia|].
  cbv zeta. cbn [StartScript.wait_loop]. destruct k as [|k].
  - rewrite Nat.add_0_r in C. rewrite C. unfold StartScript.attempts.
    simpl. auto.
  - assert (C0 : curl attempt = false)
      by (rewrite <- (Nat.add_0_r attempt); apply F; lia).
    rewrite C0. specialize (IH (S attempt) k). cbv zeta in IH.
    destruct (StartScript.wait_loop curl service port r (S attempt))
      as [steps status] eqn:W.
    cbn [fst snd] in *.
    destruct IH as (A & B & S & E).
    + lia.
    + rewrite Nat.add_succ_comm. exact C.
    + intros j J. rewrite Nat.add_succ_comm. apply F. lia.
    + unfold StartScript.attempts in *. simpl. repeat split; auto; try lia.
      destruct steps as [|s steps]; [simpl in B; discriminate|].
      exact E.
Qed.

(** X16: when the attempt of number [k] is the first that is answered,
    [wait_for_service] returns 0 after exactly [k] polls and [k - 1] sleeps
    of two seconds, and its last line is the one that says the service is
    ready. *)
Theorem wait_for_service_first_answer curl service port k :
  1 <= k <= 30 ->
  curl k = true ->
  (forall j, 1 <= j < k -> curl j = false) ->
  let run := StartScript.wait_for_service curl service port in
  snd run = 0
  /\ StartScript.attempts (fst run) = k
  /\ StartScript.seconds_slept (fst run) = 2 * (k - 1)
  /\ last (fst run) (StartScript.Sleep 0)
     = StartScript.Echo ("✅ " ++ service ++ " is ready!").
Proof.
  intros K C F. cbv zeta. unfold StartScript.wait_for_service.
  pose proof (wait_loop_first curl service port StartScript.max_attempts 1
                (k - 1)) as H.
  cbv zeta in H. unfold StartScript.max_attempts in *.
  replace (1 + (k - 1)) with k in H by lia.
  destruct (StartScript.wait_loop curl service port 30 1) as [steps status].
  cbn [fst snd] in *. destruct H as (A & B & S & E).
  - lia.
  - exact C.
  - intros j J. apply F. lia.
  - unfold StartScript.attempts in *. simpl. repeat split; auto; try lia.
    destruct steps as [|s steps]; [simpl in B; lia | exact E].
Qed.

Lemma wait_for_service_first_answer_witness :
  1 <= 3 <= 30
  /\ Nat.leb 3 3 = true
  /\ snd (StartScript.wait_for_service (Nat.leb 3) "Ghost" "2368") = 0
  /\ StartScript.attempts
       (fst (StartScript.wait_for_service (Nat.leb 3) "Ghost" "2368")) = 3
  /\ StartScript.seconds_slept
       (fst (StartScript.wait_for_service (Nat.leb 3) "Ghost" "2368")) = 4.
Proof.
  split; [lia|]. split; [reflexivity|].
  destruct (wait_for_service_first_answer (Nat.leb 3) "Ghost" "2368" 3)
    as (A & B & C & _).
  - lia.
  - reflexivity.
  - intros j J. apply Nat.leb_gt. lia.
  - split; [exact A|]. split; [exact B | exact C].
Defined.

(** * The setup script *)

Ltac setup_unfold :=
  unfold Setup.run, Setup.body, Setup.setup_database, Setup.migrate_build_seed,
    Setup.setup_sqlite, Setup.setup_mysql, Setup.runAndStream, Setup.writeFile,
    Setup.mkdir, Setup.prompt_database, Setup.prompt_confirmed, Setup.print,
    Setup.emit, Setup.return_, Setup.process_exit, Setup.ret, Setup.bind,
    Setup.try_catch.

Ltac setup_step :=
  match goal with
  | |- context [Setup.spawn_failure ?e ?h ?c ?a] =>
      destruct (Setup.spawn_failure e h c a) as [[?|?]|]
  | |- context [Setup.exit_code ?e ?h ?c ?a] =>
      let n := fresh "n" in
      destruct (Setup.exit_code e h c a) as [[|n]|]
  | |- context [Setup.chosen_database ?e ?h] =>
      let choice := fresh "choice" in
      destruct (Setup.chosen_database e h) as [choice|]
  | |- context [Setup.confirmed ?e ?h] =>
      destruct (Setup.confirmed e h) as [[|]|]
  | |- context [Setup.write_error ?e ?h ?p] =>
      destruct (Setup.write_error e h p)
  | |- context [Setup.mkdir_error ?e ?h ?p] =>
      destruct (Setup.mkdir_error e h p)
  | |- context [Setup.argv_includes ?e ?a] =>
      destruct (Setup.argv_includes e a)
  | |- context [Setup.no_database_configured ?e] =>
      destruct (Setup.no_database_configured e)
  | |- context [Setup.database_docker ?e] =>
      destruct (Setup.database_docker e)
  | |- context [String.eqb ?c "sqlite"] =>
      destruct (String.eqb c "sqlite")
  end; cbn -[NodePath.join String.concat Js.decimal Setup.credentials].

Ltac setup_cases :=
  setup_unfold; cbn -[NodePath.join String.concat Js.decimal Setup.credentials];
  repeat setup_step.

Ltac setup_close :=
  repeat split; try reflexivity; try (intros; discriminate);
  try (intros; congruence).

(** What the part before the migrations does, read off all its paths. *)
Lemma setup_database_facts env result added :
  Setup.setup_database env [] = (result, added) ->
  Setup.started "yarn" ["knex-migrator"; "init"] added = false
  /\ Setup.started "yarn" ["build"] added = false
  /\ Setup.reset_started added = false
  /\ (result = Setup.Next true ->
      Setup.completed "yarn" ["docker:reset"] added = true)
  /\ (Setup.no_database_configured env = false ->
      existsb Setup.is_write added = false
      /\ Setup.started "docker" ["--version"] added = false)
  /\ (Setup.no_database_configured env = true ->
      Setup.argv_includes env "--sqlite"
      || negb (Setup.completed "docker" ["--version"] added) = true ->
      Setup.started "yarn" ["docker:reset"] added = false
      /\ existsb Setup.is_ask added = false
      /\ (if Setup.unspawnable "docker" ["--version"] added
          then existsb Setup.is_write added = false
               /\ exists m, result = Setup.Stopped (Setup.Crashed m)
          else result = Setup.Next false
               \/ result = Setup.Stopped (Setup.Exited 1)))
  /\ (Setup.no_database_configured env = true ->
      Setup.started "docker" ["--version"] added = true)
  /\ (Setup.no_database_configured env = true ->
      Setup.started "yarn" ["docker:reset"] added = true ->
      Setup.completed "yarn" ["docker:reset"] added = false ->
      existsb Setup.is_write added = false
      /\ (if Setup.unspawnable "yarn" ["docker:reset"] added
          then exists options m,
              result = Setup.Stopped (Setup.Crashed m)
              /\ last added (Setup.Asked EmptyString)
                 = Setup.NoSpawn "yarn" ["docker:reset"] options
                     (Setup.ErrorEvent m)
          else result = Setup.Stopped Setup.Resolved
               /\ last added (Setup.Asked EmptyString)
                  = Setup.ArgvPush "--sqlite"))
  /\ (forall m,
         result = Setup.Stopped (Setup.Crashed m) ->
         exists command args options,
           last added (Setup.Asked EmptyString)
           = Setup.NoSpawn command args options (Setup.ErrorEvent m))
  /\ (forall code,
         result = Setup.Stopped (Setup.Exited code) ->
         code = 1 /\ existsb Setup.failed_write added = true)
  /\ (forall m,
         result = Setup.Thrown m ->
         last added (Setup.Asked EmptyString) = Setup.Asked "confirmed")
  /\ (result = Setup.Stopped Setup.Resolved ->
      Setup.no_database_configured env = true
      /\ Setup.started "yarn" ["docker:reset"] added = true
      /\ Setup.completed "yarn" ["docker:reset"] added = false
      /\ last added (Setup.Asked EmptyString) = Setup.ArgvPush "--sqlite")
  /\ (existsb Setup.touches_world added = false ->
      result = Setup.Next false /\ Setup.no_database_configured env = false)
  /\ (Setup.no_database_configured env = true ->
      result = Setup.Next false ->
      In (Setup.WriteFile
            (NodePath.join (Setup.coreFolder env) "config.development.json")
            Setup.SqliteDevelopment true) added
      /\ In (Setup.Mkdir (NodePath.join (Setup.coreFolder env) "content/data")
               true) added)
  /\ (Setup.no_database_configured env = true ->
      result = Setup.Next true ->
      In (Setup.WriteFile
            (NodePath.join (Setup.coreFolder env) "config.local.json")
            (Setup.LocalConfig (Setup.credentials env)) true) added).
Proof.
  setup_cases.
  all: intros H; injection H as <- <-.
  all: setup_close.
  all: auto.
  all: try (intros; cbn [In]; tauto).
  all: try (eexists; reflexivity).
  all: try (intros m H; injection H as <-; do 3 eexists; reflexivity).
  all: intros;
    repeat match goal with
           | |- context [Setup.unspawnable ?c ?a ?l] =>
               let v := eval lazy in (Setup.unspawnable c a l) in
               change (Setup.unspawnable c a l) with v; cbv iota
           end.
  all: try (do 2 eexists; split; reflexivity).
  all: try (split; reflexivity).
  all: try (split; [reflexivity | eexists; reflexivity]).
  all: auto.
Qed.

(** What the part from the migrations on does, read off all its paths. *)
Lemma migrate_build_seed_facts env resetData history result added :
  Setup.migrate_build_seed env resetData history = (result, added) ->
  Setup.preceded (Setup.done "yarn" ["knex-migrator"; "init"])
    (Setup.is_spawn "yarn" ["build"]) false added = true
  /\ Setup.preceded (Setup.done "yarn" ["build"]) Setup.is_reset false added
     = true
  /\ (resetData = false -> Setup.reset_started added = false)
  /\ (Setup.argv_includes env "--no-seed" = true ->
      Setup.reset_started added = false)
  /\ (Setup.started "yarn" ["reset:data:xxl"] added = true ->
      Setup.argv_includes env "--xxl" = true)
  /\ (Setup.started "yarn" ["reset:data"] added = true ->
      Setup.argv_includes env "--xxl" = false)
  /\ existsb Setup.is_write added = false
  /\ existsb Setup.is_ask added = false
  /\ Setup.started "yarn" ["docker:reset"] added = false
  /\ Setup.started "docker" ["--version"] added = false
  /\ Setup.started "yarn" ["knex-migrator"; "init"] added = true
  /\ (forall code, result <> Setup.Stopped (Setup.Exited code))
  /\ (forall m,
         result = Setup.Thrown m ->
         (exists args options code,
             last added (Setup.Asked EmptyString)
             = Setup.Spawn "yarn" args options code
             /\ code <> Some 0
             /\ m = "'yarn " ++ String.concat " " args ++ "' exited with code "
                    ++ Setup.code_text code)
         \/ exists args options,
             last added (Setup.Asked EmptyString)
             = Setup.NoSpawn "yarn" args options (Setup.SpawnThrows m))
  /\ (result = Setup.Next tt \/ result = Setup.Stopped Setup.Resolved ->
      Setup.completed "yarn" ["knex-migrator"; "init"] added = true
      /\ Setup.completed "yarn" ["build"] added = true)
  /\ (forall m,
         result = Setup.Stopped (Setup.Crashed m) ->
         exists args options,
           last added (Setup.Asked EmptyString)
           = Setup.NoSpawn "yarn" args options (Setup.ErrorEvent m)).
Proof.
  destruct resetData.
  all: setup_cases.
  all: intros H; injection H as <- <-.
  all: setup_close.
  all: try (intros [H|H]; discriminate H).
  all: try (intros m H; injection H as <-; left; eexists; eexists; eexists;
            split; [reflexivity|]; split; [discriminate | reflexivity]).
  all: try (intros m H; injection H as <-; right; eexists; eexists;
            reflexivity).
  all: try (intros m H; injection H as <-; eexists; eexists; reflexivity).
  all: try match goal with
           | H : _ \/ _ |- _ => destruct H as [H|H]; discriminate H
           end.
Qed.

Lemma preceded_app first second a :
  forall seen b,
    Setup.preceded first second seen (a ++ b)
    = Setup.preceded first second seen a
      && Setup.preceded first second (seen || existsb first a) b.
Proof.
  induction a as [|e a IH]; intros seen b; simpl.
  - now rewrite orb_false_r.
  - rewrite IH. rewrite <- !andb_assoc, orb_assoc. reflexivity.
Qed.

Lemma preceded_none first second events :
  forall seen,
    existsb second events = false ->
    Setup.preceded first second seen events = true.
Proof.
  induction events as [|e events IH]; intros seen H; simpl; [reflexivity|].
  simpl in H. apply orb_false_elim in H. destruct H as [He H].
  rewrite He, IH by exact H. reflexivity.
Qed.

Lemma preceded_seen first second events :
  Setup.preceded first second true events = true.
Proof.
  induction events as [|e events IH]; simpl; [reflexivity|].
  rewrite orb_true_r. exact IH.
Qed.

(** A run of the script: skipped, stopped before the migrations, or the two
    parts one after the other. *)
Lemma run_parts env :
  Setup.run env
  = if negb (Setup.is_value (Setup.NODE_ENV env) "development") then
      (Setup.Resolved,
       [Setup.Print Setup.Log Setup.Yellow
          "NODE_ENV is not development, skipping setup" Setup.NoPayload])
    else if Setup.is_value (Setup.DEVCONTAINER env) "true" then
      (Setup.Resolved,
       [Setup.Print Setup.Log Setup.Yellow
          "Devcontainer detected, skipping setup" Setup.NoPayload])
    else
      match Setup.setup_database env [] with
      | (Setup.Next resetData, added) =>
          match Setup.migrate_build_seed env resetData added with
          | (Setup.Next _, more) => (Setup.Resolved, (added ++ more)%list)
          | (Setup.Thrown m, more) => (Setup.Rejected m, (added ++ more)%list)
          | (Setup.Stopped o, more) => (o, (added ++ more)%list)
          end
      | (Setup.Thrown m, added) => (Setup.Rejected m, added)
      | (Setup.Stopped o, added) => (o, added)
      end.
Proof.
  unfold Setup.run, Setup.body.
  destruct (negb (Setup.is_value (Setup.NODE_ENV env) "development"));
    [reflexivity|].
  destruct (Setup.is_value (Setup.DEVCONTAINER env) "true"); [reflexivity|].
  unfold Setup.bind at 1.
  destruct (Setup.setup_database env []) as [[r|m|o] added]; try reflexivity.
  cbn [app].
  destruct (Setup.migrate_build_seed env r added) as [[u|m|o] more];
    reflexivity.
Qed.

Lemma run_skipped env :
  Setup.proceeds env = false ->
  fst (Setup.run env) = Setup.Resolved
  /\ exists line,
      snd (Setup.run env)
      = [Setup.Print Setup.Log Setup.Yellow line Setup.NoPayload].
Proof.
  unfold Setup.proceeds. intros H. rewrite run_parts.
  destruct (Setup.is_value (Setup.NODE_ENV env) "development");
    cbn [andb negb] in *.
  - rewrite negb_false_iff in H. rewrite H.
    split; [reflexivity | eexists; reflexivity].
  - split; [reflexivity | eexists; reflexivity].
Qed.

Lemma run_proceeds env :
  Setup.proceeds env = true ->
  exists result added,
    Setup.setup_database env [] = (result, added)
    /\ ((exists resetData result2 more,
            result = Setup.Next resetData
            /\ Setup.migrate_build_seed env resetData added = (result2, more)
            /\ Setup.run env = (Setup.outcome_of result2, (added ++ more)%list))
        \/ ((forall resetData, result <> Setup.Next resetData)
            /\ Setup.run env = (Setup.outcome_of result, added))).
Proof.
  unfold Setup.proceeds. intros H. apply andb_true_iff in H.
  destruct H as [H1 H2]. rewrite negb_true_iff in H2.
  rewrite run_parts, H1, H2. cbn [negb].
  destruct (Setup.setup_database env []) as [[r|m|o] added].
  - exists (Setup.Next r), added. split; [reflexivity|]. left.
    destruct (Setup.migrate_build_seed env r added) as [[u|m|o] more] eqn:M;
      eexists; eexists; eexists; (split; [reflexivity|]);
      (split; [exact M | reflexivity]).
  - eexists. eexists. split; [reflexivity|]. right.
    split; [discriminate | reflexivity].
  - eexists. eexists. split; [reflexivity|]. right.
    split; [discriminate | reflexivity].
Qed.

Ltac run_shape env :=
  destruct (Setup.proceeds env) eqn:Hproceeds;
  [ let result := fresh "result" in
    let added := fresh "added" in
    let r := fresh "resetData" in
    let result2 := fresh "result2" in
    let more := fresh "more" in
    let S := fresh "S" in
    let M := fresh "M" in
    destruct (run_proceeds env Hproceeds)
      as (result & added & S
          & [(r & result2 & more & -> & M & Hrun)|(Hstop & Hrun)]);
    rewrite Hrun; cbn [fst snd];
    [ pose proof (setup_database_facts env _ _ S) as Hsetup;
      pose proof (migrate_build_seed_facts env _ _ _ _ M) as Hmigrate
    | pose proof (setup_database_facts env _ _ S) as Hsetup ]
  | let line := fresh "line" in
    let R1 := fresh "R" in
    let R2 := fresh "R" in
    destruct (run_skipped env Hproceeds) as (R1 & line & R2);
    rewrite ?R1, ?R2 ].

Lemma started_app command args a b :
  Setup.started command args (a ++ b)
  = Setup.started command args a || Setup.started command args b.
Proof. apply existsb_app. Qed.

Lemma completed_app command args a b :
  Setup.completed command args (a ++ b)
  = Setup.completed command args a || Setup.completed command args b.
Proof. apply existsb_app. Qed.

Lemma reset_started_app a b :
  Setup.reset_started (a ++ b)
  = Setup.reset_started a || Setup.reset_started b.
Proof.
  unfold Setup.reset_started. rewrite !started_app.
  destruct (Setup.started "yarn" ["reset:data"] a),
    (Setup.started "yarn" ["reset:data"] b),
    (Setup.started "yarn" ["reset:data:xxl"] a); reflexivity.
Qed.

Lemma reset_started_exists events :
  existsb Setup.is_reset events = Setup.reset_started events.
Proof.
  unfold Setup.reset_started, Setup.started, Setup.is_reset.
  induction events as [|e events IH]; simpl; [reflexivity|].
  rewrite IH.
  destruct (Setup.is_spawn "yarn" ["reset:data"] e),
    (Setup.is_spawn "yarn" ["reset:data:xxl"] e),
    (existsb (Setup.is_spawn "yarn" ["reset:data"]) events); reflexivity.
Qed.

(** X17: in every run of the setup script, [yarn build] is started only
    after [yarn knex-migrator init] has closed with code 0, and a data reset
    ([yarn reset:data] or [yarn reset:data:xxl]) only after [yarn build] and,
    earlier in the same run, [yarn docker:reset] have closed with code 0. *)
Theorem setup_order_of_commands env :
  Setup.preceded (Setup.done "yarn" ["knex-migrator"; "init"])
    (Setup.is_spawn "yarn" ["build"]) false (snd (Setup.run env)) = true
  /\ Setup.preceded (Setup.done "yarn" ["build"]) Setup.is_reset false
       (snd (Setup.run env)) = true
  /\ Setup.preceded (Setup.done "yarn" ["docker:reset"]) Setup.is_reset false
       (snd (Setup.run env)) = true.
Proof.
  run_shape env.
  - destruct Hsetup as (S1 & S2 & S3 & S4 & _).
    destruct Hmigrate as (M1 & M2 & M3 & _).
    rewrite !preceded_app.
    rewrite (preceded_none _ (Setup.is_spawn "yarn" ["build"]) added)
      by exact S2.
    rewrite !(preceded_none _ Setup.is_reset added)
      by (rewrite reset_started_exists; exact S3).
    cbn [andb orb].
    split; [|split].
    + destruct (existsb (Setup.done "yarn" ["knex-migrator"; "init"]) added);
        [apply preceded_seen | exact M1].
    + destruct (existsb (Setup.done "yarn" ["build"]) added);
        [apply preceded_seen | exact M2].
    + destruct resetData.
      * specialize (S4 eq_refl). unfold Setup.completed in S4.
        unfold Setup.done. rewrite S4. apply preceded_seen.
      * apply preceded_none. rewrite reset_started_exists. now apply M3.
  - destruct Hsetup as (S1 & S2 & S3 & _).
    rewrite (preceded_none _ (Setup.is_spawn "yarn" ["build"]) added)
      by exact S2.
    rewrite !(preceded_none _ Setup.is_reset added)
      by (rewrite reset_started_exists; exact S3).
    auto.
  - auto.
Qed.

(** X18: the data is reset only in a run without [--no-seed] in which
    [yarn docker:reset] closed with code 0, by [yarn reset:data:xxl] when
    [--xxl] is among the arguments and by [yarn reset:data] when it is
    not. *)
Theorem setup_seeds_after_reset env :
  Setup.reset_started (snd (Setup.run env)) = true ->
  Setup.argv_includes env "--no-seed" = false
  /\ Setup.completed "yarn" ["docker:reset"] (snd (Setup.run env)) = true
  /\ Setup.started "yarn" ["reset:data:xxl"] (snd (Setup.run env))
     = Setup.argv_includes env "--xxl"
  /\ Setup.started "yarn" ["reset:data"] (snd (Setup.run env))
     = negb (Setup.argv_includes env "--xxl").
Proof.
  run_shape env.
  - destruct Hsetup as (S1 & S2 & S3 & S4 & _).
    destruct Hmigrate as (M1 & M2 & M3 & M4 & M5 & M6 & _).
    rewrite reset_started_app, S3. cbn [orb]. intros R.
    pose proof S3 as S3'. unfold Setup.reset_started in S3'.
    apply orb_false_elim in S3'. destruct S3' as [Sa Sb].
    rewrite completed_app, !started_app, Sa, Sb. cbn [orb].
    destruct resetData; [|rewrite M3 in R by reflexivity; discriminate R].
    rewrite (S4 eq_refl). cbn [orb].
    split.
    + destruct (Setup.argv_includes env "--no-seed"); [|reflexivity].
      rewrite M4 in R by reflexivity. discriminate R.
    + split; [reflexivity|].
      unfold Setup.reset_started in R.
      destruct (Setup.started "yarn" ["reset:data:xxl"] more) eqn:X.
      * rewrite (M5 eq_refl).
        destruct (Setup.started "yarn" ["reset:data"] more) eqn:Y;
          [|auto].
        rewrite (M6 eq_refl) in M5. specialize (M5 eq_refl). discriminate M5.
      * rewrite orb_false_r in R. rewrite R. rewrite (M6 R). auto.
  - destruct Hsetup as (_ & _ & S3 & _). rewrite S3. discriminate.
  - discriminate.
Qed.

Lemma setup_seeds_after_reset_witness :
  let env :=
    Setup.plain_env ["node"; "setup.js"; "--xxl"] None false "mysql"
      (fun _ _ => Some 0) in
  Setup.argv_includes env "--no-seed" = false
  /\ Setup.completed "yarn" ["docker:reset"] (snd (Setup.run env)) = true
  /\ Setup.started "yarn" ["reset:data:xxl"] (snd (Setup.run env))
     = Setup.argv_includes env "--xxl"
  /\ Setup.started "yarn" ["reset:data"] (snd (Setup.run env))
     = negb (Setup.argv_includes env "--xxl").
Proof.
  intros env. apply (setup_seeds_after_reset env). vm_compute. reflexivity.
Defined.

Lemma completed_started command args events :
  Setup.started command args events = false ->
  Setup.completed command args events = false.
Proof.
  unfold Setup.started, Setup.completed.
  induction events as [|e events IH]; simpl; [reflexivity|].
  intros H. apply orb_false_elim in H. destruct H as [H1 H2].
  rewrite H1, (IH H2). reflexivity.
Qed.

Lemma unspawnable_started command args events :
  Setup.started command args events = false ->
  Setup.unspawnable command args events = false.
Proof.
  unfold Setup.started, Setup.unspawnable.
  induction events as [|e events IH]; simpl; [reflexivity|].
  intros H. apply orb_false_elim in H. destruct H as [H1 H2].
  rewrite H1, (IH H2). reflexivity.
Qed.

Lemma unspawnable_app command args a b :
  Setup.unspawnable command args (a ++ b)
  = Setup.unspawnable command args a || Setup.unspawnable command args b.
Proof. apply existsb_app. Qed.

Lemma failed_write_is_write events :
  existsb Setup.is_write events = false ->
  existsb Setup.failed_write events = false.
Proof.
  induction events as [|e events IH]; simpl; [reflexivity|].
  intros H. apply orb_false_elim in H. destruct H as [H1 H2].
  rewrite (IH H2). destruct e as [| | | |? ? [|]|? [|]|]; simpl in *;
    try reflexivity; discriminate H1.
Qed.

Lemma started_touches_world command args events :
  Setup.started command args events = true ->
  existsb Setup.touches_world events = true.
Proof.
  unfold Setup.started.
  induction events as [|e events IH]; simpl; [discriminate|].
  intros H. apply orb_true_iff in H. destruct H as [H|H].
  - destruct e; simpl in *; try discriminate H; reflexivity.
  - rewrite (IH H). apply orb_true_r.
Qed.

Lemma last_app_end (a b : list Setup.Event) d :
  b <> [] -> last (a ++ b) d = last b d.
Proof.
  intros B. induction a as [|x a IH]; [reflexivity|].
  cbn [app]. rewrite <- IH.
  destruct (a ++ b)%list eqn:E; [|reflexivity].
  apply app_eq_nil in E. destruct E as [_ E]. contradiction.
Qed.

Lemma property_set_database entries value :
  Setup.property (Setup.set_database entries value) "database" = Some value
  /\ forall key,
      key <> "database" ->
      Setup.property (Setup.set_database entries value) key
      = Setup.property entries key.
Proof.
  induction entries as [|[k v] entries [IH1 IH2]];
    cbn [Setup.property Setup.set_database].
  - rewrite String.eqb_refl. split; [reflexivity|].
    intros key K. apply not_eq_sym in K. apply String.eqb_neq in K.
    rewrite K. reflexivity.
  - destruct (String.eqb k "database") eqn:E; cbn [Setup.property].
    + rewrite E. split; [reflexivity|].
      intros key K. apply String.eqb_eq in E. subst k.
      apply not_eq_sym in K. apply String.eqb_neq in K.
      rewrite K. reflexivity.
    + rewrite E. split; [exact IH1|].
      intros key K. rewrite (IH2 key K). reflexivity.
Qed.

(** X19: when a database client with [mysql] or [sqlite] in its name is
    configured, the script writes no file and makes no directory, does not
    look for Docker, and never ends through [process.exit]. *)
Theorem setup_keeps_configured_database env :
  Setup.no_database_configured env = false ->
  existsb Setup.is_write (snd (Setup.run env)) = false
  /\ Setup.started "docker" ["--version"] (snd (Setup.run env)) = false
  /\ forall code, fst (Setup.run env) <> Setup.Exited code.
Proof.
  run_shape env; intros C.
  - destruct Hsetup as (_ & _ & _ & _ & S5 & _).
    destruct (S5 C) as [W D].
    destruct Hmigrate
      as (_ & _ & _ & _ & _ & _ & M7 & _ & _ & M10 & _ & M12 & _).
    rewrite existsb_app, started_app, W, D, M7, M10.
    split; [reflexivity|]. split; [reflexivity|].
    intros code E. destruct result2 as [u|m|o]; try discriminate E.
    cbn in E. subst o. exact (M12 code eq_refl).
  - destruct Hsetup as (_ & _ & _ & _ & S5 & _ & _ & _ & _ & S8 & _).
    destruct (S5 C) as [W D].
    split; [exact W|]. split; [exact D|].
    intros code E.
    destruct result as [r|m|o]; try discriminate E.
    cbn in E. subst o. destruct (S8 code eq_refl) as [_ F].
    rewrite (failed_write_is_write _ W) in F. discriminate F.
  - cbn. split; [reflexivity|]. split; [reflexivity | discriminate].
Qed.

Lemma setup_keeps_configured_database_witness :
  let env :=
    Setup.plain_env ["node"; "setup.js"; "-y"] (Some "mysql2") true "sqlite"
      (fun _ _ => Some 0) in
  Setup.reset_started (snd (Setup.run env)) = true
  /\ existsb Setup.is_write (snd (Setup.run env)) = false
  /\ Setup.started "docker" ["--version"] (snd (Setup.run env)) = false
  /\ forall code, fst (Setup.run env) <> Setup.Exited code.
Proof.
  intros env. split; [vm_compute; reflexivity|].
  apply (setup_keeps_configured_database env). vm_compute. reflexivity.
Defined.

(** X20: when no database is configured and [--sqlite] is given, or
    [docker --version] did not close with code 0, the script, which has
    called [docker --version] all the same, asks nothing, never runs
    [yarn docker:reset] and never resets the data.  When [docker] could not
    be started and its child emitted ['error'], the script is ended by that
    error before it has written anything or run a migration.  Otherwise,
    unless a write fails, it writes the SQLite development configuration to
    [config.development.json] in the core folder, makes [content/data] there
    and goes on to [yarn knex-migrator init]. *)
Theorem setup_sqlite_without_docker env :
  Setup.proceeds env = true ->
  Setup.no_database_configured env = true ->
  Setup.argv_includes env "--sqlite"
  || negb (Setup.completed "docker" ["--version"] (snd (Setup.run env)))
  = true ->
  existsb Setup.is_ask (snd (Setup.run env)) = false
  /\ Setup.started "yarn" ["docker:reset"] (snd (Setup.run env)) = false
  /\ Setup.reset_started (snd (Setup.run env)) = false
  /\ Setup.started "docker" ["--version"] (snd (Setup.run env)) = true
  /\ (Setup.unspawnable "docker" ["--version"] (snd (Setup.run env)) = true ->
      existsb Setup.is_write (snd (Setup.run env)) = false
      /\ Setup.started "yarn" ["knex-migrator"; "init"] (snd (Setup.run env))
         = false
      /\ exists m, fst (Setup.run env) = Setup.Crashed m)
  /\ (Setup.unspawnable "docker" ["--version"] (snd (Setup.run env)) = false ->
      existsb Setup.failed_write (snd (Setup.run env)) = false ->
      In (Setup.WriteFile
            (NodePath.join (Setup.coreFolder env) "config.development.json")
            Setup.SqliteDevelopment true) (snd (Setup.run env))
      /\ In (Setup.Mkdir (NodePath.join (Setup.coreFolder env) "content/data")
               true) (snd (Setup.run env))
      /\ Setup.started "yarn" ["knex-migrator"; "init"] (snd (Setup.run env))
         = true).
Proof.
  run_shape env; [intros _ C | intros _ C | intros X; discriminate X].
  - destruct Hsetup
      as (_ & _ & S3 & _ & _ & S6 & S7 & _ & _ & _ & _ & _ & _ & S12 & _).
    destruct Hmigrate
      as (_ & _ & M3 & _ & _ & _ & _ & M8 & M9 & M10 & M11 & _).
    rewrite completed_app, (completed_started _ _ _ M10), orb_false_r.
    intros D. destruct (S6 C D) as (R & A & K).
    rewrite unspawnable_app, (unspawnable_started _ _ _ M10), orb_false_r.
    destruct (Setup.unspawnable "docker" ["--version"] added).
    { destruct K as (_ & m & E). discriminate E. }
    destruct K as [E|E]; [|discriminate E].
    injection E as ->.
    rewrite existsb_app, !started_app, reset_started_app, A, R, S3, M8, M9,
      (M3 eq_refl), (S7 C), M11.
    split; [reflexivity|]. split; [reflexivity|]. split; [reflexivity|].
    split; [reflexivity|]. split; [discriminate|].
    intros _ _. destruct (S12 C eq_refl) as [W K].
    split; [apply in_or_app; left; exact W|].
    split; [apply in_or_app; left; exact K|].
    apply orb_true_r.
  - destruct Hsetup
      as (S1 & _ & S3 & _ & _ & S6 & S7 & _ & _ & S8 & _).
    intros D. destruct (S6 C D) as (R & A & K).
    split; [exact A|]. split; [exact R|]. split; [exact S3|].
    split; [exact (S7 C)|].
    destruct (Setup.unspawnable "docker" ["--version"] added).
    + split; [|discriminate]. intros _. destruct K as (W & m & ->).
      split; [exact W|]. split; [exact S1|]. exists m. reflexivity.
    + split; [discriminate|]. intros _ F. destruct K as [E|E].
      * exfalso. exact (Hstop _ E).
      * destruct (S8 _ E) as [_ F']. rewrite F in F'. discriminate F'.
Qed.

Lemma setup_sqlite_without_docker_witness :
  let env :=
    Setup.plain_env ["node"; "setup.js"] None false "mysql"
      (fun command _ =>
         if String.eqb command "docker" then Some 1 else Some 0) in
  Setup.started "docker" ["--version"] (snd (Setup.run env)) = true
  /\ existsb Setup.is_ask (snd (Setup.run env)) = false
  /\ In (Setup.WriteFile
           (NodePath.join (Setup.coreFolder env) "config.development.json")
           Setup.SqliteDevelopment true) (snd (Setup.run env))
  /\ Setup.started "yarn" ["knex-migrator"; "init"] (snd (Setup.run env))
     = true.
Proof.
  intros env.
  assert (P : Setup.proceeds env = true) by (vm_compute; reflexivity).
  assert (C : Setup.no_database_configured env = true)
    by (vm_compute; reflexivity).
  assert (D : Setup.argv_includes env "--sqlite"
              || negb (Setup.completed "docker" ["--version"]
                         (snd (Setup.run env))) = true)
    by (vm_compute; reflexivity).
  destruct (setup_sqlite_without_docker env P C D)
    as (A & _ & _ & S & _ & W).
  split; [exact S|]. split; [exact A|].
  assert (U : Setup.unspawnable "docker" ["--version"] (snd (Setup.run env))
              = false) by (vm_compute; reflexivity).
  assert (F : existsb Setup.failed_write (snd (Setup.run env)) = false)
    by (vm_compute; reflexivity).
  destruct (W U F) as (W1 & _ & W3). split; [exact W1 | exact W3].
Defined.

(** X21: when no database is configured, MySQL is chosen and
    [yarn docker:reset] does not close with code 0, nothing is written and
    no migration is run.  When the command was started, or [spawn] threw,
    the script announces a fall back to SQLite, pushes [--sqlite] on
    [process.argv] and returns: its promise resolves.  When the command
    could not be started and its child emitted ['error'], the script is
    ended by that error, which is the last thing that happens. *)
Theorem setup_docker_fallback_stops env :
  Setup.no_database_configured env = true ->
  Setup.started "yarn" ["docker:reset"] (snd (Setup.run env)) = true ->
  Setup.completed "yarn" ["docker:reset"] (snd (Setup.run env)) = false ->
  existsb Setup.is_write (snd (Setup.run env)) = false
  /\ Setup.started "yarn" ["knex-migrator"; "init"] (snd (Setup.run env))
     = false
  /\ if Setup.unspawnable "yarn" ["docker:reset"] (snd (Setup.run env))
     then exists options m,
         fst (Setup.run env) = Setup.Crashed m
         /\ last (snd (Setup.run env)) (Setup.Asked EmptyString)
            = Setup.NoSpawn "yarn" ["docker:reset"] options
                (Setup.ErrorEvent m)
     else fst (Setup.run env) = Setup.Resolved
          /\ last (snd (Setup.run env)) (Setup.Asked EmptyString)
             = Setup.ArgvPush "--sqlite".
Proof.
  run_shape env; intros C.
  - destruct Hsetup as (_ & _ & _ & _ & _ & _ & _ & S7 & _).
    destruct Hmigrate as (_ & _ & _ & _ & _ & _ & _ & _ & M9 & _).
    rewrite started_app, completed_app, M9,
      (completed_started _ _ _ M9), !orb_false_r.
    intros A B. destruct (S7 C A B) as [_ E].
    destruct (Setup.unspawnable "yarn" ["docker:reset"] added).
    + destruct E as (o & m & E & _). discriminate E.
    + destruct E as (E & _). discriminate E.
  - destruct Hsetup as (S1 & _ & _ & _ & _ & _ & _ & S7 & _).
    intros A B. destruct (S7 C A B) as (W & E).
    split; [exact W|]. split; [exact S1|].
    destruct (Setup.unspawnable "yarn" ["docker:reset"] added).
    + destruct E as (o & m & -> & L). exists o, m. split; [reflexivity|exact L].
    + destruct E as (-> & L). split; [reflexivity | exact L].
  - cbn. discriminate.
Qed.

Lemma setup_docker_fallback_stops_witness :
  let env :=
    Setup.plain_env ["node"; "setup.js"] None false "mysql"
      (fun command _ =>
         if String.eqb command "docker" then Some 0 else Some 1) in
  existsb Setup.is_write (snd (Setup.run env)) = false
  /\ Setup.started "yarn" ["knex-migrator"; "init"] (snd (Setup.run env))
     = false
  /\ fst (Setup.run env) = Setup.Resolved
  /\ last (snd (Setup.run env)) (Setup.Asked EmptyString)
     = Setup.ArgvPush "--sqlite".
Proof.
  intros env.
  assert (C : Setup.no_database_configured env = true)
    by (vm_compute; reflexivity).
  assert (A : Setup.started "yarn" ["docker:reset"] (snd (Setup.run env))
              = true) by (vm_compute; reflexivity).
  assert (B : Setup.completed "yarn" ["docker:reset"] (snd (Setup.run env))
              = false) by (vm_compute; reflexivity).
  destruct (setup_docker_fallback_stops env C A B) as (W & I & E).
  split; [exact W|]. split; [exact I|].
  replace (Setup.unspawnable "yarn" ["docker:reset"] (snd (Setup.run env)))
    with false in E by (vm_compute; reflexivity).
  exact E.
Defined.

(** X22: the script starts a child process, asks or writes exactly when
    [NODE_ENV] is [development] and [DEVCONTAINER] is not [true]; otherwise
    it prints one line and its promise resolves. *)
Theorem setup_skips_outside_development env :
  existsb Setup.touches_world (snd (Setup.run env)) = Setup.proceeds env
  /\ (Setup.proceeds env = true
      \/ fst (Setup.run env) = Setup.Resolved
         /\ length (snd (Setup.run env)) = 1).
Proof.
  run_shape env.
  - destruct Hmigrate
      as (_ & _ & _ & _ & _ & _ & _ & _ & _ & _ & M11 & _).
    split; [|left; reflexivity].
    rewrite existsb_app, (started_touches_world _ _ _ M11).
    apply orb_true_r.
  - destruct Hsetup
      as (_ & _ & _ & _ & _ & _ & _ & _ & _ & _ & _ & _ & S11 & _).
    split; [|left; reflexivity].
    destruct (existsb Setup.touches_world added) eqn:T; [reflexivity|].
    destruct (S11 eq_refl) as [E _]. exfalso. exact (Hstop _ E).
  - split; [reflexivity|]. right. split; reflexivity.
Qed.

(** X23: how the script ends.  It exits through [process.exit] only
    with code 1 and only after a write or [mkdir] failed; its promise
    rejects only with the error of the reset prompt, or with
    ['yarn <args>' exited with code <code>] for the yarn command that was
    the last thing it did, or with what [spawn] threw for that command; it
    is ended by an uncaught error only when the last thing it did was to
    call [spawn] for a command that could not be started, the error being
    the one the child emitted; and when it resolves past the checks of the
    environment, either [yarn knex-migrator init] and [yarn build] both
    closed with code 0 or it returned from the failed Docker reset. *)
Theorem setup_endings env :
  match fst (Setup.run env) with
  | Setup.Resolved =>
      Setup.proceeds env = false
      \/ last (snd (Setup.run env)) (Setup.Asked EmptyString)
         = Setup.ArgvPush "--sqlite"
      \/ Setup.completed "yarn" ["knex-migrator"; "init"] (snd (Setup.run env))
         = true
         /\ Setup.completed "yarn" ["build"] (snd (Setup.run env)) = true
  | Setup.Exited code =>
      code = 1 /\ existsb Setup.failed_write (snd (Setup.run env)) = true
  | Setup.Rejected m =>
      last (snd (Setup.run env)) (Setup.Asked EmptyString)
      = Setup.Asked "confirmed"
      \/ (exists args options code,
             last (snd (Setup.run env)) (Setup.Asked EmptyString)
             = Setup.Spawn "yarn" args options code
             /\ code <> Some 0
             /\ m = "'yarn " ++ String.concat " " args ++ "' exited with code "
                    ++ Setup.code_text code)
      \/ exists args options,
          last (snd (Setup.run env)) (Setup.Asked EmptyString)
          = Setup.NoSpawn "yarn" args options (Setup.SpawnThrows m)
  | Setup.Crashed m =>
      exists command args options,
        last (snd (Setup.run env)) (Setup.Asked EmptyString)
        = Setup.NoSpawn command args options (Setup.ErrorEvent m)
  end.
Proof.
  run_shape env.
  - destruct Hmigrate
      as (_ & _ & _ & _ & _ & _ & _ & _ & _ & _ & _ & M12 & M13 & M14 & M15).
    destruct result2 as [[]|m|[|code|m|m]]; cbn [Setup.outcome_of].
    + right. right. rewrite !completed_app.
      destruct (M14 (or_introl eq_refl)) as [A B]. rewrite A, B.
      split; apply orb_true_r.
    + right.
      destruct (M13 m eq_refl)
        as [(args & options & code & L & N & E)|(args & options & L)].
      * left. exists args, options, code.
        split; [|split; [exact N | exact E]].
        rewrite last_app_end; [exact L|].
        intros Z. rewrite Z in L. discriminate L.
      * right. exists args, options.
        rewrite last_app_end; [exact L|].
        intros Z. rewrite Z in L. discriminate L.
    + right. right. rewrite !completed_app.
      destruct (M14 (or_intror eq_refl)) as [A B]. rewrite A, B.
      split; apply orb_true_r.
    + exfalso. exact (M12 code eq_refl).
    + exfalso. clear - M. revert M. destruct resetData; setup_cases.
      all: intros H; discriminate H.
    + destruct (M15 m eq_refl) as (args & options & L).
      exists "yarn", args, options.
      rewrite last_app_end; [exact L|].
      intros Z. rewrite Z in L. discriminate L.
  - destruct Hsetup
      as (_ & _ & _ & _ & _ & _ & _ & _ & S7 & S8 & S9 & S10 & _).
    destruct result as [r|m|[|code|m|m]]; cbn [Setup.outcome_of].
    + exfalso. exact (Hstop r eq_refl).
    + left. exact (S9 m eq_refl).
    + right. left. destruct (S10 eq_refl) as (_ & _ & _ & L). exact L.
    + exact (S8 code eq_refl).
    + exfalso. clear - S. revert S. setup_cases.
      all: intros H; discriminate H.
    + exact (S7 m eq_refl).
  - left. reflexivity.
Qed.

(** On a machine without Docker and with no database configured, the
    script is ended by the error of [docker --version] right after its first
    line, whatever its arguments say. *)
Example setup_without_docker_installed :
  Setup.run (Setup.env_without "docker" ["node"; "setup.js"; "--sqlite"] None
               false "sqlite")
  = (Setup.Crashed "spawn docker ENOENT",
     [Setup.Print Setup.Log Setup.Blue
        "No database configured. Setting up development database..."
        Setup.NoPayload;
      Setup.NoSpawn "docker" ["--version"]
        {| Setup.stdio := "ignore"; Setup.cwd := None |}
        (Setup.ErrorEvent "spawn docker ENOENT")]).
Proof. vm_compute. reflexivity. Qed.

(** X24: when no database was configured and the data is reset, the script
    has written [config.local.json] in the core folder, and what it wrote is
    the file as it was read (or nothing, when it could not be read) with the
    [database] entry replaced by the Docker container's credentials and every
    other entry kept. *)
Theorem setup_mysql_credentials env :
  Setup.no_database_configured env = true ->
  Setup.reset_started (snd (Setup.run env)) = true ->
  In (Setup.WriteFile
        (NodePath.join (Setup.coreFolder env) "config.local.json")
        (Setup.LocalConfig (Setup.credentials env)) true)
    (snd (Setup.run env))
  /\ Setup.property (Setup.credentials env) "database"
     = Some Setup.MysqlDocker
  /\ forall key,
      key <> "database" ->
      Setup.property (Setup.credentials env) key
      = match Setup.local_config env with
        | Some entries => Setup.property entries key
        | None => None
        end.
Proof.
  run_shape env; intros C.
  - destruct Hsetup
      as (_ & _ & S3 & _ & _ & _ & _ & _ & _ & _ & _ & _ & _ & _ & S13).
    destruct Hmigrate as (_ & _ & M3 & _).
    rewrite reset_started_app, S3. cbn [orb]. intros R.
    destruct resetData; [|rewrite (M3 eq_refl) in R; discriminate R].
    split; [apply in_or_app; left; exact (S13 C eq_refl)|].
    unfold Setup.credentials.
    destruct (property_set_database
                match Setup.local_config env with
                | Some entries => entries
                | None => []
                end Setup.MysqlDocker) as [P Q].
    split; [exact P|]. intros key K. rewrite (Q key K).
    destruct (Setup.local_config env); reflexivity.
  - destruct Hsetup as (_ & _ & S3 & _). rewrite S3. discriminate.
  - cbn. discriminate.
Qed.

Lemma setup_mysql_credentials_witness :
  let env :=
    Setup.plain_env ["node"; "setup.js"] None false "mysql"
      (fun _ _ => Some 0) in
  In (Setup.WriteFile
        (NodePath.join (Setup.coreFolder env) "config.local.json")
        (Setup.LocalConfig (Setup.credentials env)) true)
    (snd (Setup.run env))
  /\ Setup.property (Setup.credentials env) "database"
     = Some Setup.MysqlDocker
  /\ forall key,
      key <> "database" ->
      Setup.property (Setup.credentials env) key
      = match Setup.local_config env with
        | Some entries => Setup.property entries key
        | None => None
        end.
Proof.
  intros env. apply (setup_mysql_credentials env); vm_compute; reflexivity.
Defined.
